(** * Vizion Gateway web SDK: card validation and error classification

    A shallow embedding of
    - the card-number utilities, [src/utils.ts];
    - the error carrier of the client (the [ErrorType] enumeration and the
      [VizionGatewayError] class that follow [PaymentService] in
      [src/services/payment-service.ts]) and the one of the payment
      service (the [ErrorType] with [CONFIGURATION_ERROR] and its
      [VizionGatewayError]);
    - the two transport layers, [src/client.ts] and
      [src/services/payment-service.ts];
    - the submit handlers of the two [PaymentForm] classes of
      [src/components/payment-form.ts]: the first one, built on the
      payment service, and the second one, built on the client.

    JavaScript strings are modelled as [string] (one [ascii] per code unit),
    the numbers that the sources compute with are integers and are
    modelled in [Z], with [NaN] written out where [parseInt] can produce
    it; a number of a response body, which the sources only test and
    print, is kept as the text it prints as.  Converting a value to a
    string and constructing an error from it are computations that can
    throw. *)

From Stdlib Require Import String Ascii List ZArith Lia Bool Arith.
From Stdlib Require HexadecimalString Permutation.
Import ListNotations.

Open Scope string_scope.
Set Warnings "-register-all".

(* ================================================================== *)
(** ** JavaScript string primitives used by the sources *)

Module Js.

(** The regular-expression class [\d]: the code units ["0"] to ["9"]. *)
Definition isDigit (c : ascii) : bool :=
  (48 <=? nat_of_ascii c)%nat && (nat_of_ascii c <=? 57)%nat.

(** The class [\s], restricted to the one-byte code units it contains:
    tab, line feed, vertical tab, form feed, carriage return, space and
    the no-break space. *)
Definition isSpace (c : ascii) : bool :=
  let n := nat_of_ascii c in
  ((9 <=? n)%nat && (n <=? 13)%nat) || (n =? 32)%nat || (n =? 160)%nat.

(** [s.replace(/C/g, '')] for a one-character class [C]: every code unit
    of the class is dropped, the others are kept in order. *)
Fixpoint removeAll (cls : ascii -> bool) (s : string) : string :=
  match s with
  | EmptyString => EmptyString
  | String c rest =>
      if cls c then removeAll cls rest else String c (removeAll cls rest)
  end.

(** Truthiness of a string: [!s] holds exactly for the empty string. *)
Definition truthy_str (s : string) : bool :=
  match s with EmptyString => false | String _ _ => true end.

(** [s.charAt(i)]: the one-character string at index [i], or the empty
    string when [i] is out of range. *)
Definition charAt (s : string) (i : nat) : string := substring i 1 s.

(** A JavaScript number as the sources meet it: an integer or [NaN]. *)
Inductive number : Type :=
| NaN
| Num (z : Z).

Definition digitValue (c : ascii) : Z := (Z.of_nat (nat_of_ascii c) - 48)%Z.

Fixpoint skipSpace (s : string) : string :=
  match s with
  | String c rest => if isSpace c then skipSpace rest else s
  | EmptyString => EmptyString
  end.

(** The longest prefix of decimal digits, read as a number; [acc] is
    [None] until a first digit has been seen. *)
Fixpoint leadingDigits (s : string) (acc : option Z) : option Z :=
  match s with
  | String c rest =>
      if isDigit c
      then leadingDigits rest
             (Some (10 * match acc with Some a => a | None => 0 end
                    + digitValue c)%Z)
      else acc
  | EmptyString => acc
  end.

(** [parseInt(s, 10)]: leading white space is skipped, one sign is
    accepted, the digits that follow are read, and the rest is ignored;
    [NaN] when no digit is found there. *)
Definition parseInt (s : string) : number :=
  match skipSpace s with
  | String "-" rest =>
      match leadingDigits rest None with Some z => Num (- z) | None => NaN end
  | String "+" rest =>
      match leadingDigits rest None with Some z => Num z | None => NaN end
  | t =>
      match leadingDigits t None with Some z => Num z | None => NaN end
  end.

(** Values that cross the transport boundary (parsed response bodies)
    and [undefined].  An object is the list of its own properties; a
    number is given by the text that [Number.prototype.toString] prints
    for it (["0"], ["4999"], ["1.5"], ["1e+21"]). *)
Inductive value : Type :=
| VUndefined
| VNull
| VBool (b : bool)
| VNum (text : string)
| VStr (s : string)
| VArr (items : list value)
| VObj (fields : list (string * value)).

(** Induction over values that reaches the elements of arrays. *)
Fixpoint value_ind' (P : value -> Prop)
         (HUndefined : P VUndefined) (HNull : P VNull)
         (HBool : forall b, P (VBool b)) (HNum : forall text, P (VNum text))
         (HStr : forall s, P (VStr s))
         (HArr : forall items, Forall P items -> P (VArr items))
         (HObj : forall fields, P (VObj fields))
         (v : value) : P v :=
  match v with
  | VUndefined => HUndefined
  | VNull => HNull
  | VBool b => HBool b
  | VNum text => HNum text
  | VStr s => HStr s
  | VArr items =>
      HArr items
           ((fix each (l : list value) : Forall P l :=
               match l with
               | [] => Forall_nil P
               | x :: rest =>
                   Forall_cons x
                     (value_ind' P HUndefined HNull HBool HNum HStr HArr HObj x)
                     (each rest)
               end) items)
  | VObj fields => HObj fields
  end.

(** An exception object that is not one of the SDK's error classes. *)
Record error : Type := mkJsError { name : string; message : string }.

Fixpoint lookup (key : string) (fields : list (string * value)) : value :=
  match fields with
  | [] => VUndefined
  | (k, v) :: rest => if String.eqb k key then v else lookup key rest
  end.

Definition describe (v : value) : string :=
  match v with VNull => "null" | _ => "undefined" end.

(** [v.key] for the property names the sources read ([message],
    [errors], [code], [transaction], [transactions], [has_more]): a
    [TypeError] on [null] and [undefined], the own property on an object,
    [undefined] on every other value. *)
Definition getProp (v : value) (key : string) : error + value :=
  match v with
  | VUndefined | VNull =>
      inl (mkJsError "TypeError"
             ("Cannot read properties of " ++ describe v
              ++ " (reading '" ++ key ++ "')"))
  | VObj fields => inr (lookup key fields)
  | _ => inr VUndefined
  end.

(** The value of [v.key] where the read does not throw. *)
Definition field (v : value) (key : string) : value :=
  match getProp v key with
  | inr x => x
  | inl _ => VUndefined
  end.

(** ToBoolean. *)
Definition truthy (v : value) : bool :=
  match v with
  | VUndefined | VNull => false
  | VBool b => b
  | VNum text => negb (String.eqb text "0" || String.eqb text "NaN")
  | VStr s => truthy_str s
  | VArr _ | VObj _ => true
  end.

(** [a || b]. *)
Definition or (a b : value) : value := if truthy a then a else b.

Fixpoint has_key (key : string) (fields : list (string * value)) : bool :=
  match fields with
  | [] => false
  | (k, _) :: rest => String.eqb k key || has_key key rest
  end.

(** ToString.  An array joins the conversions of its elements, [null]
    and [undefined] counting as empty.  An object without a property
    [toString] of its own is converted by [Object.prototype.toString]; with
    one (a parsed value, never a function) nothing converts it and a
    [TypeError] is thrown. *)
Fixpoint toString (v : value) : error + string :=
  match v with
  | VUndefined => inr "undefined"
  | VNull => inr "null"
  | VBool true => inr "true"
  | VBool false => inr "false"
  | VNum text => inr text
  | VStr s => inr s
  | VArr items =>
      let item (x : value) : error + string :=
        match x with
        | VUndefined | VNull => inr ""
        | _ => toString x
        end in
      (fix join (l : list value) : error + string :=
         match l with
         | [] => inr ""
         | x :: rest =>
             match item x with
             | inl e => inl e
             | inr s =>
                 match rest with
                 | [] => inr s
                 | _ :: _ =>
                     match join rest with
                     | inl e => inl e
                     | inr t => inr (s ++ "," ++ t)
                     end
                 end
             end
         end) items
  | VObj fields =>
      if has_key "toString" fields
      then inl (mkJsError "TypeError" "Cannot convert object to primitive value")
      else inr "[object Object]"
  end.

(** The [message] that [new Error(arg)] ends up with: empty when the
    argument is [undefined], its string conversion otherwise; the
    constructor throws when the conversion does. *)
Definition errorMessage (arg : value) : error + string :=
  match arg with
  | VUndefined => inr ""
  | _ => toString arg
  end.

(** A computation that returns a value or throws one. *)
Definition completion (E A : Type) : Type := (E + A)%type.

Definition bind {E A B : Type} (c : completion E A) (k : A -> completion E B)
  : completion E B :=
  match c with
  | inl e => inl e
  | inr a => k a
  end.

(** [try { body } catch (error) { throw handler(error) }]. *)
Definition try_catch {E A : Type} (body : completion E A) (handler : E -> E)
  : completion E A :=
  match body with
  | inl error => inl (handler error)
  | inr a => inr a
  end.

End Js.

Notation "x <- c ;; k" := (Js.bind c (fun x => k))
  (at level 61, c at next level, right associativity).

(* ================================================================== *)
(** ** The axios values the two transport layers receive *)

Module Axios.

Record AxiosResponse : Type := mkResponse { status : Z; data : Js.value }.

(** The error axios rejects with: the response when one was received,
    whether a request object is attached, and the error's own message. *)
Record AxiosError : Type := mkAxiosError {
  response : option AxiosResponse;
  request : bool;
  message : string
}.

(** What the transport does with one request, before the interceptors. *)
Inductive outcome : Type :=
| Fulfilled (r : AxiosResponse)
| Rejected (e : AxiosError).

End Axios.

(* ================================================================== *)
(** ** [src/utils.ts] *)

Module Utils.

(** [cardNumber.replace(/\D/g, '')], the digit normalisation shared by
    [validateCardNumber], [detectCardType] and the forms' input handlers. *)
Definition normalizeDigits (raw : string) : string :=
  Js.removeAll (fun c => negb (Js.isDigit c)) raw.

(** One iteration of the body of the Luhn loop on the parsed digit. *)
Definition luhn_digit (shouldDouble : bool) (digit : Z) : Z :=
  if shouldDouble
  then let digit := (digit * 2)%Z in if (digit >? 9)%Z then (digit - 9)%Z else digit
  else digit.

(** [for (let i = digits.length - 1; i >= 0; i--)]: [n] is [i + 1], the
    number of characters still to visit; [sum] and [shouldDouble] are the
    loop's two variables.  A [NaN] digit makes the sum [NaN]. *)
Fixpoint luhn_loop (digits : string) (n : nat) (sum : Js.number)
         (shouldDouble : bool) : Js.number :=
  match n with
  | O => sum
  | S i =>
      let sum' :=
        match Js.parseInt (Js.charAt digits i), sum with
        | Js.Num digit, Js.Num acc => Js.Num (acc + luhn_digit shouldDouble digit)%Z
        | _, _ => Js.NaN
        end in
      luhn_loop digits i sum' (negb shouldDouble)
  end.

(** [(sum % 10) === 0]. *)
Definition divisible_by_10 (sum : Js.number) : bool :=
  match sum with
  | Js.Num z => (Z.rem z 10 =? 0)%Z
  | Js.NaN => false
  end.

Definition validateCardNumber (cardNumber : string) : bool :=
  if negb (Js.truthy_str cardNumber) then false
  else
    let digits := normalizeDigits cardNumber in
    if (String.length digits <? 13)%nat || (19 <? String.length digits)%nat
    then false
    else divisible_by_10 (luhn_loop digits (String.length digits) (Js.Num 0) false).

(** The regular expressions of [detectCardType], all anchored at the
    start of the string. *)
Inductive regex : Type :=
| Chr (c : ascii)                  (* a literal character *)
| Range (lo hi : ascii)            (* [lo-hi] *)
| OneOf (cs : list ascii)          (* [abc] *)
| Cat (r1 r2 : regex)              (* r1 r2 *)
| Alt (r1 r2 : regex).             (* r1 | r2 *)

(** Backtracking matcher: [k] is what must match after [r]. *)
Fixpoint matches (r : regex) (s : string) (k : string -> bool) : bool :=
  match r with
  | Chr c =>
      match s with
      | String x rest => if Ascii.eqb x c then k rest else false
      | EmptyString => false
      end
  | Range lo hi =>
      match s with
      | String x rest =>
          if (nat_of_ascii lo <=? nat_of_ascii x)%nat
             && (nat_of_ascii x <=? nat_of_ascii hi)%nat
          then k rest else false
      | EmptyString => false
      end
  | OneOf cs =>
      match s with
      | String x rest => if existsb (Ascii.eqb x) cs then k rest else false
      | EmptyString => false
      end
  | Cat r1 r2 => matches r1 s (fun rest => matches r2 rest k)
  | Alt r1 r2 => matches r1 s k || matches r2 s k
  end.

(** [/^r/.test(s)]. *)
Definition test (r : regex) (s : string) : bool := matches r s (fun _ => true).

Fixpoint lit (s : string) : regex :=
  match s with
  | String c EmptyString => Chr c
  | String c rest => Cat (Chr c) (lit rest)
  | EmptyString => OneOf []
  end.

(** The [patterns] object; [Object.entries] lists its keys in insertion
    order. *)
Definition patterns : list (string * regex) :=
  [ ("visa",       Chr "4");
    ("mastercard", Cat (Chr "5") (Range "1" "5"));
    ("amex",       Cat (Chr "3") (OneOf ["4"; "7"]%char));
    ("discover",   Alt (lit "6011")
                  (Alt (lit "65")
                  (Alt (Cat (lit "64") (Range "4" "9"))
                       (lit "622")))) ].

(** The [for ... of] loop: the first entry whose pattern matches. *)
Fixpoint first_match (entries : list (string * regex)) (digits : string)
  : option string :=
  match entries with
  | [] => None
  | (type, pattern) :: rest =>
      if test pattern digits then Some type else first_match rest digits
  end.

(** [None] is [undefined]. *)
Definition detectCardType (cardNumber : string) : option string :=
  if negb (Js.truthy_str cardNumber) then None
  else first_match patterns (normalizeDigits cardNumber).

End Utils.

(* ================================================================== *)
(** ** The error carrier of [VizionGatewayClient]

    [ErrorType] and [VizionGatewayError] as [src/client.ts] imports them
    from [./errors]. *)

Module Errors.

Inductive ErrorType : Type :=
| AUTHENTICATION
| VALIDATION
| API
| NETWORK
| PAYMENT_PROCESSING
| REFUND_PROCESSING
| UNKNOWN.

(** The string each member of the enumeration stands for. *)
Definition ErrorType_value (t : ErrorType) : string :=
  match t with
  | AUTHENTICATION => "authentication_error"
  | VALIDATION => "validation_error"
  | API => "api_error"
  | NETWORK => "network_error"
  | PAYMENT_PROCESSING => "payment_processing_error"
  | REFUND_PROCESSING => "refund_processing_error"
  | UNKNOWN => "unknown_error"
  end.

(** What the [details] field is given: a value read from a response
    body ([undefined] when the argument is omitted), or the exception
    that a catch block wrapped. *)
Inductive payload : Type :=
| FromBody (v : Js.value)
| Caught (e : Js.error).

Record VizionGatewayError : Type := mkError {
  message : string;
  type : ErrorType;
  details : payload;
  statusCode : option Z
}.

(** [new VizionGatewayError(message, type, details)]: the record, or the
    [TypeError] of [super(message)] when the message cannot be converted
    to a string; no call site of the sources passes a status code. *)
Definition new (message : Js.value) (type : ErrorType) (details : payload)
  : Js.error + VizionGatewayError :=
  match Js.errorMessage message with
  | inl e => inl e
  | inr text =>
      inr {| message := text;
             type := type;
             details := details;
             statusCode := None |}
  end.

(** A thrown value: [error instanceof VizionGatewayError] holds for the
    first constructor only. *)
Inductive exn : Type :=
| Gateway (e : VizionGatewayError)
| Other (e : Js.error).

(** What [throw new VizionGatewayError(...)] throws, and what
    [Promise.reject(new VizionGatewayError(...))] rejects or throws with. *)
Definition raise (c : Js.error + VizionGatewayError) : exn :=
  match c with
  | inr g => Gateway g
  | inl e => Other e
  end.

End Errors.

(* ================================================================== *)
(** ** [src/client.ts] *)

Module Client.
Import Errors Axios.

Definition completion (A : Type) : Type := Js.completion exn A.

(** A property read inside the SDK: a [TypeError] becomes a thrown value. *)
Definition read (v : Js.value) (key : string) : completion Js.value :=
  match Js.getProp v key with
  | inl e => inl (Other e)
  | inr x => inr x
  end.

(** The [onRejected] handler of the response interceptor: the error the
    request's promise is rejected with.  Reading [data.message] or
    [data.errors] throws when [data] is [null] or [undefined], and the
    constructor throws when the message cannot be converted. *)
Definition onRejected (error : AxiosError) : exn :=
  match response error with
  | Some r =>
      if (status r =? 401)%Z then
        raise (new (Js.VStr "Authentication failed. Check your API key and merchant ID.")
                   AUTHENTICATION (FromBody Js.VUndefined))
      else if (status r =? 400)%Z then
        match (m <- read (data r) "message" ;;
               errs <- read (data r) "errors" ;;
               inr (raise (new (Js.or m (Js.VStr "Invalid request parameters"))
                               VALIDATION (FromBody errs)))) with
        | inl e => e
        | inr e => e
        end
      else
        match (m <- read (data r) "message" ;;
               errs <- read (data r) "errors" ;;
               inr (raise (new (Js.or m (Js.VStr "An error occurred while processing your request"))
                               API (FromBody errs)))) with
        | inl e => e
        | inr e => e
        end
  | None =>
      if request error then
        raise (new (Js.VStr "Network error. Please check your connection.")
                   NETWORK (FromBody Js.VUndefined))
      else
        raise (new (Js.or (Js.VStr (message error))
                          (Js.VStr "An unexpected error occurred"))
                   UNKNOWN (FromBody Js.VUndefined))
  end.

(** [await this.http.get/post(...)]: the response interceptor leaves a
    response as it is and replaces an error by [onRejected]'s. *)
Definition http (o : outcome) : completion AxiosResponse :=
  match o with
  | Fulfilled r => inr r
  | Rejected e => inl (onRejected e)
  end.

(** The catch block shared by the four operations: a
    [VizionGatewayError] is thrown again as it is, anything else is
    wrapped with the operation's message and type. *)
Definition rethrow_or_wrap (msg : string) (t : ErrorType) (error : exn) : exn :=
  match error with
  | Gateway e => Gateway e
  | Other e => raise (new (Js.VStr msg) t (Caught e))
  end.

(** Each operation is given the outcome of the one request it sends. *)
Definition processCardPayment (o : outcome) : completion Js.value :=
  Js.try_catch
    (response <- http o ;;
     read (data response) "transaction")
    (rethrow_or_wrap "Failed to process card payment" PAYMENT_PROCESSING).

Definition getTransaction (o : outcome) : completion Js.value :=
  Js.try_catch
    (response <- http o ;;
     read (data response) "transaction")
    (rethrow_or_wrap "Failed to retrieve transaction" API).

Definition listTransactions (o : outcome) : completion Js.value :=
  Js.try_catch
    (response <- http o ;;
     transactions <- read (data response) "transactions" ;;
     has_more <- read (data response) "has_more" ;;
     inr (Js.VObj [("transactions", transactions); ("hasMore", has_more)]))
    (rethrow_or_wrap "Failed to list transactions" API).

Definition refundTransaction (o : outcome) : completion Js.value :=
  Js.try_catch
    (response <- http o ;;
     read (data response) "transaction")
    (rethrow_or_wrap "Failed to process refund" REFUND_PROCESSING).

(** The four operations by name. *)
Inductive operation : Type :=
| ProcessCardPayment
| GetTransaction
| ListTransactions
| RefundTransaction.

Definition run (op : operation) : outcome -> completion Js.value :=
  match op with
  | ProcessCardPayment => processCardPayment
  | GetTransaction => getTransaction
  | ListTransactions => listTransactions
  | RefundTransaction => refundTransaction
  end.

End Client.

(* ================================================================== *)
(** ** The error carrier of [PaymentService]

    [ErrorType] and [VizionGatewayError] as
    [src/services/payment-service.ts] imports them from [../utils/errors]. *)

Module SdkErrors.

Inductive ErrorType : Type :=
| CONFIGURATION_ERROR
| AUTHENTICATION_ERROR
| VALIDATION_ERROR
| PAYMENT_PROCESSING_ERROR
| TRANSACTION_RETRIEVAL_ERROR
| REFUND_PROCESSING_ERROR
| NETWORK_ERROR
| SERVER_ERROR
| UNKNOWN_ERROR.

Definition ErrorType_value (t : ErrorType) : string :=
  match t with
  | CONFIGURATION_ERROR => "configuration_error"
  | AUTHENTICATION_ERROR => "authentication_error"
  | VALIDATION_ERROR => "validation_error"
  | PAYMENT_PROCESSING_ERROR => "payment_processing_error"
  | TRANSACTION_RETRIEVAL_ERROR => "transaction_retrieval_error"
  | REFUND_PROCESSING_ERROR => "refund_processing_error"
  | NETWORK_ERROR => "network_error"
  | SERVER_ERROR => "server_error"
  | UNKNOWN_ERROR => "unknown_error"
  end.

(** [code] is declared [string] and assigned whatever the constructor is
    given, so it is kept as a value. *)
Record VizionGatewayError : Type := mkError {
  message : string;
  code : Js.value;
  statusCode : Z
}.

(** [new VizionGatewayError(message, code, statusCode)]: the record, or
    the [TypeError] of [super(message)] when the message cannot be
    converted to a string. *)
Definition new (message code : Js.value) (statusCode : Z)
  : Js.error + VizionGatewayError :=
  match Js.errorMessage message with
  | inl e => inl e
  | inr text =>
      inr {| message := text;
             code := code;
             statusCode := statusCode |}
  end.

(** The code of a member of the enumeration. *)
Definition of_type (t : ErrorType) : Js.value := Js.VStr (ErrorType_value t).

Inductive exn : Type :=
| Gateway (e : VizionGatewayError)
| Other (e : Js.error).

(** What [throw new VizionGatewayError(...)] throws. *)
Definition raise (c : Js.error + VizionGatewayError) : exn :=
  match c with
  | inr g => Gateway g
  | inl e => Other e
  end.

End SdkErrors.

(* ================================================================== *)
(** ** [src/services/payment-service.ts] *)

Module Service.
Import SdkErrors Axios.

Definition completion (A : Type) : Type := Js.completion exn A.

Definition read (v : Js.value) (key : string) : completion Js.value :=
  match Js.getProp v key with
  | inl e => inl (Other e)
  | inr x => inr x
  end.

(** [error.response?.status || 500]. *)
Definition status_or_500 (error : AxiosError) : Z :=
  match response error with
  | Some r => if (status r =? 0)%Z then 500%Z else status r
  | None => 500%Z
  end.

(** [error.response?.data || { message: 'Unknown error occurred' }]. *)
Definition errorResponse (error : AxiosError) : Js.value :=
  Js.or (match response error with
         | Some r => data r
         | None => Js.VUndefined
         end)
        (Js.VObj [("message", Js.VStr "Unknown error occurred")]).

(** The [onRejected] handler of the response interceptor: what it
    throws. *)
Definition onRejected (error : AxiosError) : exn :=
  match (m <- read (errorResponse error) "message" ;;
         c <- read (errorResponse error) "code" ;;
         inr (raise (new m (Js.or c (Js.VStr "unknown_error"))
                         (status_or_500 error)))) with
  | inl e => e
  | inr e => e
  end.

Definition apiClient (o : outcome) : completion AxiosResponse :=
  match o with
  | Fulfilled r => inr r
  | Rejected e => inl (onRejected e)
  end.

(** The catch block shared by the four operations. *)
Definition rethrow_or_wrap (msg : string) (t : ErrorType) (error : exn) : exn :=
  match error with
  | Gateway e => Gateway e
  | Other _ => raise (new (Js.VStr msg) (of_type t) 500)
  end.

Definition processCardPayment (o : outcome) : completion Js.value :=
  Js.try_catch
    (response <- apiClient o ;; inr (data response))
    (rethrow_or_wrap "Failed to process card payment" PAYMENT_PROCESSING_ERROR).

Definition getTransaction (o : outcome) : completion Js.value :=
  Js.try_catch
    (response <- apiClient o ;; inr (data response))
    (rethrow_or_wrap "Failed to retrieve transaction" TRANSACTION_RETRIEVAL_ERROR).

Definition listTransactions (o : outcome) : completion Js.value :=
  Js.try_catch
    (response <- apiClient o ;; inr (data response))
    (rethrow_or_wrap "Failed to list transactions" TRANSACTION_RETRIEVAL_ERROR).

Definition processRefund (o : outcome) : completion Js.value :=
  Js.try_catch
    (response <- apiClient o ;; inr (data response))
    (rethrow_or_wrap "Failed to process refund" REFUND_PROCESSING_ERROR).

Inductive operation : Type :=
| ProcessCardPayment
| GetTransaction
| ListTransactions
| ProcessRefund.

Definition run (op : operation) : outcome -> completion Js.value :=
  match op with
  | ProcessCardPayment => processCardPayment
  | GetTransaction => getTransaction
  | ListTransactions => listTransactions
  | ProcessRefund => processRefund
  end.

End Service.

(* ================================================================== *)
(** ** DOM constraint validation, as far as the forms rely on it *)

Module Dom.

Fixpoint all_in (cls : ascii -> bool) (s : string) : bool :=
  match s with
  | EmptyString => true
  | String c rest => cls c && all_in cls rest
  end.

(** A [pattern] attribute of the shape [[C]{lo,hi}]: the whole value is
    [lo] to [hi] characters of the class [C]. *)
Definition pattern (cls : ascii -> bool) (lo hi : nat) (value : string) : bool :=
  all_in cls value
  && (lo <=? String.length value)%nat && (String.length value <=? hi)%nat.

(** Validity of a required text input with an optional pattern and a
    custom validity message: the value is not empty, it matches the
    pattern, and no custom error is set. *)
Definition valid (pat : option (string -> bool)) (customValidity value : string)
  : bool :=
  Js.truthy_str value
  && match pat with Some p => p value | None => true end
  && negb (Js.truthy_str customValidity).

(** [value.match(/.{1,4}/g).join(' ')] on a value without line breaks:
    a space before every fifth character; [k] counts the characters of
    the current group. *)
Fixpoint group4 (s : string) (k : nat) : string :=
  match s with
  | EmptyString => EmptyString
  | String c rest =>
      if (k =? 4)%nat then String " " (String c (group4 rest 1))
      else String c (group4 rest (S k))
  end.

End Dom.

(* ================================================================== *)
(** ** The form built on [VizionGatewayClient]

    The second [PaymentForm] class of [src/components/payment-form.ts],
    the one with [isSubmitting].  An [async] handler is
    split at its [await]: the part that runs when the event is dispatched,
    and the part that runs when the request settles. *)

Module ClientForm.
Import Errors.

Record PaymentDetails : Type := mkPaymentDetails {
  amount : Z;
  currency : string;
  sourceId : string;
  destinationId : string;
  orderId : string;
  description : string
}.

Record CardPaymentDetails : Type := mkCard {
  cardNumber : string;
  expiryMonth : Js.number;
  expiryYear : Js.number;
  cvv : string;
  cardholderName : string
}.

(** A caller-supplied callback either returns or throws. *)
Definition callback (A : Type) : Type := A -> option exn.

Record PaymentFormOptions : Type := mkOptions {
  payment : PaymentDetails;
  onSuccess : option (callback Js.value);
  onError : option (callback exn)
}.

(** The values of the five inputs. *)
Record formFields : Type := mkFields {
  f_cardholderName : string;
  f_cardNumber : string;
  f_expiryMonth : string;
  f_expiryYear : string;
  f_cvv : string
}.

Record PaymentForm : Type := mkForm {
  options : PaymentFormOptions;
  fields : formFields;
  cardNumberValidity : string;     (* custom validity of the card input *)
  cardType : option string;        (* the [data-card-type] attribute *)
  isSubmitting : bool;
  submitDisabled : bool;
  submitText : string;
  errorText : string;
  errorShown : bool
}.

(** What a callback was handed. *)
Inductive notice : Type :=
| Succeeded (result : Js.value)
| Failed (error : exn).

(** The form together with what it has done to its surroundings: the
    [client.processCardPayment] calls it made, each of which sends one
    request, how many of them have not settled, and the callbacks it
    invoked. *)
Record world : Type := mkWorld {
  form : PaymentForm;
  calls : list (PaymentDetails * CardPaymentDetails);
  inFlight : nat;
  notices : list notice
}.

Definition with_form (w : world) (f : PaymentForm) : world :=
  {| form := f; calls := calls w; inFlight := inFlight w; notices := notices w |}.

Definition notify (w : world) (n : notice) : world :=
  {| form := form w; calls := calls w; inFlight := inFlight w;
     notices := notices w ++ [n] |}.

(** The constructor and [render]. *)
Definition create (opts : PaymentFormOptions) : world :=
  {| form := {| options := opts;
                fields := mkFields "" "" "" "" "";
                cardNumberValidity := "";
                cardType := None;
                isSubmitting := false;
                submitDisabled := false;
                submitText := "Pay Now";
                errorText := "";
                errorShown := false |};
     calls := [];
     inFlight := 0;
     notices := [] |}.

Definition set_fields (f : PaymentForm) (v : formFields) : PaymentForm :=
  mkForm (options f) v (cardNumberValidity f) (cardType f) (isSubmitting f)
         (submitDisabled f) (submitText f) (errorText f) (errorShown f).

Definition set_cardNumber (f : PaymentForm) (v : string) : PaymentForm :=
  set_fields f (mkFields (f_cardholderName (fields f)) v (f_expiryMonth (fields f))
                         (f_expiryYear (fields f)) (f_cvv (fields f))).

(** [handleCardNumberInput], after the browser stored the typed text in
    the input. *)
Definition handleCardNumberInput (typed : string) (f : PaymentForm) : PaymentForm :=
  let value := Utils.normalizeDigits typed in
  let value := if (0 <? String.length value)%nat then Dom.group4 value 0 else value in
  let f := set_cardNumber f value in
  match Utils.detectCardType value with
  | Some t =>
      mkForm (options f) (fields f) (cardNumberValidity f) (Some t) (isSubmitting f)
             (submitDisabled f) (submitText f) (errorText f) (errorShown f)
  | None => f
  end.

(** The blur handler [validateCardNumber]. *)
Definition validateCardNumber (f : PaymentForm) : PaymentForm :=
  let value := Js.removeAll Js.isSpace (f_cardNumber (fields f)) in
  let validity :=
    if Js.truthy_str value && negb (Utils.validateCardNumber value)
    then "Invalid card number" else "" in
  mkForm (options f) (fields f) validity (cardType f) (isSubmitting f)
         (submitDisabled f) (submitText f) (errorText f) (errorShown f).

(** [formElement.checkValidity()] over the five inputs that [render]
    creates, all [required]. *)
Definition checkValidity (f : PaymentForm) : bool :=
  Dom.valid None "" (f_cardholderName (fields f))
  && Dom.valid (Some (Dom.pattern (fun c => Js.isDigit c || Js.isSpace c) 13 19))
               (cardNumberValidity f) (f_cardNumber (fields f))
  && Dom.valid (Some (Dom.pattern Js.isDigit 1 2)) "" (f_expiryMonth (fields f))
  && Dom.valid (Some (Dom.pattern Js.isDigit 4 4)) "" (f_expiryYear (fields f))
  && Dom.valid (Some (Dom.pattern Js.isDigit 3 4)) "" (f_cvv (fields f)).

Definition clearError (f : PaymentForm) : PaymentForm :=
  mkForm (options f) (fields f) (cardNumberValidity f) (cardType f) (isSubmitting f)
         (submitDisabled f) (submitText f) "" false.

Definition showError (error : exn) (f : PaymentForm) : PaymentForm :=
  let message :=
    match error with
    | Gateway e => Errors.message e
    | Other _ => "An error occurred while processing your payment"
    end in
  mkForm (options f) (fields f) (cardNumberValidity f) (cardType f) (isSubmitting f)
         (submitDisabled f) (submitText f) message true.

Definition set_submitting (f : PaymentForm) (b : bool) (text : string) : PaymentForm :=
  mkForm (options f) (fields f) (cardNumberValidity f) (cardType f) b
         b text (errorText f) (errorShown f).

Definition cardDetails_of (f : PaymentForm) : CardPaymentDetails :=
  {| cardNumber := Js.removeAll Js.isSpace (f_cardNumber (fields f));
     expiryMonth := Js.parseInt (f_expiryMonth (fields f));
     expiryYear := Js.parseInt (f_expiryYear (fields f));
     cvv := f_cvv (fields f);
     cardholderName := f_cardholderName (fields f) |}.

(** [handleSubmit] up to its [await]. *)
Definition handleSubmit (w : world) : world :=
  if isSubmitting (form w) then w
  else
    let f := clearError (form w) in
    if negb (checkValidity f) then with_form w f
    else
      let f := set_submitting f true "Processing..." in
      {| form := f;
         calls := calls w ++ [(payment (options f), cardDetails_of f)];
         inFlight := S (inFlight w);
         notices := notices w |}.

(** The catch block of [handleSubmit]. *)
Definition caught (error : exn) (w : world) : world :=
  let w := with_form w (showError error (form w)) in
  match onError (options (form w)) with
  | Some _ => notify w (Failed error)
  | None => w
  end.

(** [formElement.reset()]. *)
Definition reset (f : PaymentForm) : PaymentForm :=
  set_fields f (mkFields "" "" "" "" "").

(** [handleSubmit] from its [await] on, given what the transport did
    with the request: the rest of the try block, the catch block, and
    the finally block. *)
Definition handleSubmit_settled (o : Axios.outcome) (w : world) : world :=
  let w :=
    match Client.processCardPayment o with
    | inr result =>
        match onSuccess (options (form w)) with
        | Some cb =>
            let w := notify w (Succeeded result) in
            match cb result with
            | Some thrown => caught thrown w
            | None => with_form w (reset (form w))
            end
        | None => with_form w (reset (form w))
        end
    | inl error => caught error w
    end in
  {| form := set_submitting (form w) false "Pay Now";
     calls := calls w;
     inFlight := pred (inFlight w);
     notices := notices w |}.

(** What can happen to a rendered form. *)
Inductive event : Type :=
| TypeCardNumber (typed : string)   (* an [input] event on the card field *)
| BlurCardNumber                    (* a [blur] event on the card field *)
| Fill (values : formFields)        (* the user edits the other inputs *)
| Submit                            (* a [submit] event on the form *)
| Settle (o : Axios.outcome).       (* the outstanding request settles *)

Definition step (w : world) (e : event) : world :=
  match e with
  | TypeCardNumber typed => with_form w (handleCardNumberInput typed (form w))
  | BlurCardNumber => with_form w (validateCardNumber (form w))
  | Fill v =>
      with_form w (set_fields (form w)
        (mkFields (f_cardholderName v) (f_cardNumber (fields (form w)))
                  (f_expiryMonth v) (f_expiryYear v) (f_cvv v)))
  | Submit => handleSubmit w
  | Settle o =>
      match inFlight w with
      | O => w
      | S _ => handleSubmit_settled o w
      end
  end.

Definition run (w : world) (events : list event) : world :=
  fold_left step events w.

End ClientForm.

(* ================================================================== *)
(** ** The form built on [PaymentService]

    The first [PaymentForm] class of [src/components/payment-form.ts]. *)

Module SdkForm.
Import SdkErrors.

Record transaction : Type := mkTransaction {
  amount : Z;
  currency : string;
  sourceId : string;
  destinationId : string;
  orderId : string;
  description : string
}.

Record CardDetails : Type := mkCard {
  number : string;
  expiryMonth : string;
  expiryYear : string;
  cvc : string;
  holderName : string
}.

(** The transaction fields are copied from the configuration. *)
Record PaymentRequest : Type := mkRequest {
  fields : transaction;
  card : CardDetails
}.

Definition callback (A : Type) : Type := A -> option exn.

Record PaymentFormConfig : Type := mkConfig {
  payment : transaction;
  payLabel : string;   (* [`Pay ${this.formatAmount(amount, currency)}`] *)
  onSuccess : option (callback Js.value);
  onError : option (callback VizionGatewayError)
}.

Record PaymentForm : Type := mkForm {
  config : PaymentFormConfig;
  mounted : bool;            (* [formElement] and [submitButton] are set *)
  cardNumberInput : string;
  expiryInput : string;
  cvcInput : string;
  holderNameInput : string;
  submitDisabled : bool;
  submitText : string;
  errorMessage : option string   (* the [.vizion-error-message] element *)
}.

Inductive notice : Type :=
| Succeeded (response : Js.value)
| Failed (error : VizionGatewayError).

(** The form, the [processCardPayment] calls it made on the payment
    service (one request each), how many have not settled, and the
    callbacks it invoked. *)
Record world : Type := mkWorld {
  form : PaymentForm;
  calls : list PaymentRequest;
  inFlight : nat;
  notices : list notice
}.

Definition with_form (w : world) (f : PaymentForm) : world :=
  {| form := f; calls := calls w; inFlight := inFlight w; notices := notices w |}.

Definition notify (w : world) (n : notice) : world :=
  {| form := form w; calls := calls w; inFlight := inFlight w;
     notices := notices w ++ [n] |}.

(** The constructor followed by [mount]. *)
Definition create (cfg : PaymentFormConfig) : world :=
  {| form := {| config := cfg;
                mounted := true;
                cardNumberInput := "";
                expiryInput := "";
                cvcInput := "";
                holderNameInput := "";
                submitDisabled := false;
                submitText := payLabel cfg;
                errorMessage := None |};
     calls := [];
     inFlight := 0;
     notices := [] |}.

Definition set_inputs (f : PaymentForm) (n e c h : string) : PaymentForm :=
  mkForm (config f) (mounted f) n e c h (submitDisabled f) (submitText f)
         (errorMessage f).

Definition set_button (f : PaymentForm) (disabled : bool) (text : string)
  : PaymentForm :=
  mkForm (config f) (mounted f) (cardNumberInput f) (expiryInput f) (cvcInput f)
         (holderNameInput f) disabled text (errorMessage f).

(** [formatCardNumber], after the browser stored the typed text. *)
Definition formatCardNumber (typed : string) (f : PaymentForm) : PaymentForm :=
  let value := Utils.normalizeDigits typed in
  let value := if (0 <? String.length value)%nat then Dom.group4 value 0 else value in
  set_inputs f value (expiryInput f) (cvcInput f) (holderNameInput f).

(** [expiry.split('/')]. *)
Fixpoint split_slash (s : string) : list string :=
  match s with
  | EmptyString => [EmptyString]
  | String c rest =>
      if Ascii.eqb c "/" then EmptyString :: split_slash rest
      else match split_slash rest with
           | part :: parts => String c part :: parts
           | [] => [String c EmptyString]
           end
  end.

Fixpoint reverse (s acc : string) : string :=
  match s with
  | EmptyString => acc
  | String c rest => reverse rest (String c acc)
  end.

(** [part.trim()], for the white space of [Js.isSpace]. *)
Definition trim (s : string) : string :=
  reverse (Js.skipSpace (reverse (Js.skipSpace s) "")) "".

Definition parseExpiry (expiry : string) : string * string :=
  let parts := map trim (split_slash expiry) in
  (nth 0 parts "", nth 1 parts "").

(** The request that [handleSubmit] assembles from the inputs. *)
Definition paymentRequest_of (f : PaymentForm) : PaymentRequest :=
  let cardNumber := Js.removeAll Js.isSpace (cardNumberInput f) in
  let '(expiryMonth, expiryYear) := parseExpiry (expiryInput f) in
  {| fields := payment (config f);
     card := {| number := cardNumber;
                expiryMonth := expiryMonth;
                expiryYear := expiryYear;
                cvc := cvcInput f;
                holderName := holderNameInput f |} |}.

(** [handleSubmit] up to its [await]. *)
Definition handleSubmit (w : world) : world :=
  if negb (mounted (form w)) then w
  else
    let f := set_button (form w) true "Processing..." in
    {| form := f;
       calls := calls w ++ [paymentRequest_of f];
       inFlight := S (inFlight w);
       notices := notices w |}.

(** [(error as Error).message]. *)
Definition message_of (error : exn) : string :=
  match error with
  | Gateway e => message e
  | Other e => Js.message e
  end.

Definition showError (msg : string) (f : PaymentForm) : PaymentForm :=
  if negb (mounted f) then f
  else mkForm (config f) (mounted f) (cardNumberInput f) (expiryInput f)
              (cvcInput f) (holderNameInput f) (submitDisabled f) (submitText f)
              (Some msg).

(** The catch block of [handleSubmit]: [onError], when there is one, is
    called first, with the record or with a new one built from the
    message of what was caught; [showError] follows unless building that
    record or the callback threw. *)
Definition caught (error : exn) (w : world) : world :=
  let shown (w : world) : world :=
    with_form w (showError (message_of error) (form w)) in
  match onError (config (form w)) with
  | Some cb =>
      match (match error with
             | Gateway e => inr e
             | Other e =>
                 new (Js.or (Js.VStr (Js.message e))
                            (Js.VStr "An unknown error occurred"))
                     (of_type UNKNOWN_ERROR) 500
             end) with
      | inr record =>
          let w := notify w (Failed record) in
          match cb record with
          | Some _ => w
          | None => shown w
          end
      | inl _ => w
      end
  | None => shown w
  end.

(** [formElement.reset()]. *)
Definition reset (f : PaymentForm) : PaymentForm := set_inputs f "" "" "" "".

(** [handleSubmit] from its [await] on. *)
Definition handleSubmit_settled (o : Axios.outcome) (w : world) : world :=
  let w :=
    match Service.processCardPayment o with
    | inr response =>
        match onSuccess (config (form w)) with
        | Some cb =>
            let w := notify w (Succeeded response) in
            match cb response with
            | Some thrown => caught thrown w
            | None => with_form w (reset (form w))
            end
        | None => with_form w (reset (form w))
        end
    | inl error => caught error w
    end in
  {| form := set_button (form w) false (payLabel (config (form w)));
     calls := calls w;
     inFlight := pred (inFlight w);
     notices := notices w |}.

Inductive event : Type :=
| TypeCardNumber (typed : string)    (* an [input] event on the card field *)
| Fill (expiry cvc holder : string)  (* the other inputs, as formatted *)
| Submit                             (* a [submit] event on the form *)
| Settle (o : Axios.outcome).        (* an outstanding request settles *)

Definition step (w : world) (e : event) : world :=
  match e with
  | TypeCardNumber typed => with_form w (formatCardNumber typed (form w))
  | Fill e c h =>
      with_form w (set_inputs (form w) (cardNumberInput (form w)) e c h)
  | Submit => handleSubmit w
  | Settle o =>
      match inFlight w with
      | O => w
      | S _ => handleSubmit_settled o w
      end
  end.

Definition run (w : world) (events : list event) : world :=
  fold_left step events w.

End SdkForm.

(* ================================================================== *)
(** ** The specification's own wording of the card algorithms *)

Module Spec.

(** The characters 0 to 9. *)
Definition digit_chars : list ascii :=
  ["0"; "1"; "2"; "3"; "4"; "5"; "6"; "7"; "8"; "9"]%char.

(** [stripped s d]: [d] is [s] with every non-digit character removed,
    the digits kept in their order. *)
Inductive stripped : string -> string -> Prop :=
| stripped_nil : stripped "" ""
| stripped_keep (c : ascii) (s d : string) :
    In c digit_chars -> stripped s d -> stripped (String c s) (String c d)
| stripped_drop (c : ascii) (s d : string) :
    ~ In c digit_chars -> stripped s d -> stripped (String c s) d.

(** The digits of a digit string, rightmost first. *)
Definition digits_from_right (digits : string) : list Z :=
  rev (map Js.digitValue (list_ascii_of_string digits)).

(** The rightmost digit is left as it is, every second digit moving
    leftward is doubled, and 9 is subtracted from a doubled digit that
    exceeds 9; [doubled] tells whether the head of the list is one of
    the doubled positions. *)
Fixpoint luhn_sum (from_right : list Z) (doubled : bool) : Z :=
  match from_right with
  | [] => 0
  | d :: rest =>
      ((if doubled then (if 9 <? 2 * d then 2 * d - 9 else 2 * d) else d)
       + luhn_sum rest (negb doubled))%Z
  end.

(** The sum of the resulting values, modulo 10. *)
Definition luhn_checksum (digits : string) : Z :=
  (luhn_sum (digits_from_right digits) false mod 10)%Z.

Inductive CardBrand : Type := visa | mastercard | amex | discover.

Definition brand_name (b : CardBrand) : string :=
  match b with
  | visa => "visa"
  | mastercard => "mastercard"
  | amex => "amex"
  | discover => "discover"
  end.

(** The number that the first [k] digits form, when there are [k]. *)
Fixpoint first_digits (k : nat) (digits : string) (acc : Z) : option Z :=
  match k with
  | O => Some acc
  | S k' =>
      match digits with
      | String c rest => first_digits k' rest (10 * acc + Js.digitValue c)%Z
      | EmptyString => None
      end
  end.

Definition first_is (k : nat) (digits : string) (n : Z) : bool :=
  match first_digits k digits 0 with
  | Some m => (m =? n)%Z
  | None => false
  end.

Definition first_in (k : nat) (digits : string) (lo hi : Z) : bool :=
  match first_digits k digits 0 with
  | Some m => (lo <=? m)%Z && (m <=? hi)%Z
  | None => false
  end.

(** The four tests in their order of precedence; [None] is the absence
    of a brand. *)
Definition detectBrand (digits : string) : option CardBrand :=
  if first_is 1 digits 4 then Some visa
  else if first_in 2 digits 51 55 then Some mastercard
  else if first_is 2 digits 34 || first_is 2 digits 37 then Some amex
  else if first_is 4 digits 6011 || first_is 2 digits 65
          || first_in 3 digits 644 649 || first_is 3 digits 622
       then Some discover
  else None.

End Spec.

(* ================================================================== *)
(** ** The specification's error taxonomy and classification policy *)

Module SpecErrors.

(** The closed enumeration of error kinds. *)
Inductive ErrorKind : Type :=
| CONFIGURATION
| AUTHENTICATION
| VALIDATION
| API
| NETWORK
| PAYMENT_PROCESSING
| TRANSACTION_RETRIEVAL
| REFUND_PROCESSING
| UNKNOWN.

Definition kind_value (k : ErrorKind) : string :=
  match k with
  | CONFIGURATION => "configuration_error"
  | AUTHENTICATION => "authentication_error"
  | VALIDATION => "validation_error"
  | API => "api_error"
  | NETWORK => "network_error"
  | PAYMENT_PROCESSING => "payment_processing_error"
  | TRANSACTION_RETRIEVAL => "transaction_retrieval_error"
  | REFUND_PROCESSING => "refund_processing_error"
  | UNKNOWN => "unknown_error"
  end.

Definition kinds : list ErrorKind :=
  [CONFIGURATION; AUTHENTICATION; VALIDATION; API; NETWORK; PAYMENT_PROCESSING;
   TRANSACTION_RETRIEVAL; REFUND_PROCESSING; UNKNOWN].

(** A kind carried by an error record belongs to the enumeration. *)
Definition is_kind (v : Js.value) : Prop :=
  exists k, v = Js.VStr (kind_value k).

Definition is_kindb (v : Js.value) : bool :=
  match v with
  | Js.VStr s => existsb (fun k => String.eqb s (kind_value k)) kinds
  | _ => false
  end.

(** A field of a response body that is present: the body is an object
    and has the property. *)
Fixpoint find (key : string) (fields : list (string * Js.value)) : option Js.value :=
  match fields with
  | [] => None
  | (k, v) :: rest => if String.eqb k key then Some v else find key rest
  end.

Definition present (body : Js.value) (key : string) : option Js.value :=
  match body with
  | Js.VObj fields => find key fields
  | _ => None
  end.

Definition message_or (body : Js.value) (generic : string) : string :=
  match present body "message" with
  | Some m =>
      match Js.toString m with
      | inr text => text
      | inl _ => generic
      end
  | None => generic
  end.

Definition errors_of (body : Js.value) : Errors.payload :=
  Errors.FromBody match present body "errors" with
                  | Some e => e
                  | None => Js.VUndefined
                  end.

(** The classification policy as it is worded, first match first, with
    the classifier's own fixed and generic messages: the body's message
    "if present", the exception's message "if available". *)
Definition classify (outcome : Axios.AxiosError) : Errors.VizionGatewayError :=
  match Axios.response outcome with
  | Some r =>
      if (Axios.status r =? 401)%Z then
        Errors.mkError "Authentication failed. Check your API key and merchant ID."
                       Errors.AUTHENTICATION (Errors.FromBody Js.VUndefined) None
      else if (Axios.status r =? 400)%Z then
        Errors.mkError (message_or (Axios.data r) "Invalid request parameters")
                       Errors.VALIDATION (errors_of (Axios.data r)) None
      else
        Errors.mkError (message_or (Axios.data r)
                                   "An error occurred while processing your request")
                       Errors.API (errors_of (Axios.data r)) None
  | None =>
      if Axios.request outcome then
        Errors.mkError "Network error. Please check your connection."
                       Errors.NETWORK (Errors.FromBody Js.VUndefined) None
      else
        Errors.mkError (if Js.truthy_str (Axios.message outcome)
                        then Axios.message outcome
                        else "An unexpected error occurred")
                       Errors.UNKNOWN (Errors.FromBody Js.VUndefined) None
  end.

(** The message and kind each operation's catch block wraps with. *)
Definition client_scope (op : Client.operation) : string * Errors.ErrorType :=
  match op with
  | Client.ProcessCardPayment =>
      ("Failed to process card payment", Errors.PAYMENT_PROCESSING)
  | Client.GetTransaction => ("Failed to retrieve transaction", Errors.API)
  | Client.ListTransactions => ("Failed to list transactions", Errors.API)
  | Client.RefundTransaction => ("Failed to process refund", Errors.REFUND_PROCESSING)
  end.

Definition service_scope (op : Service.operation) : string * SdkErrors.ErrorType :=
  match op with
  | Service.ProcessCardPayment =>
      ("Failed to process card payment", SdkErrors.PAYMENT_PROCESSING_ERROR)
  | Service.GetTransaction =>
      ("Failed to retrieve transaction", SdkErrors.TRANSACTION_RETRIEVAL_ERROR)
  | Service.ListTransactions =>
      ("Failed to list transactions", SdkErrors.TRANSACTION_RETRIEVAL_ERROR)
  | Service.ProcessRefund =>
      ("Failed to process refund", SdkErrors.REFUND_PROCESSING_ERROR)
  end.

(** The kind the policy re-labels an operation's [API] or [UNKNOWN]
    failure with. *)
Definition scoped_kind (op : Client.operation) : ErrorKind :=
  match op with
  | Client.ProcessCardPayment => PAYMENT_PROCESSING
  | Client.GetTransaction => TRANSACTION_RETRIEVAL
  | Client.ListTransactions => TRANSACTION_RETRIEVAL
  | Client.RefundTransaction => REFUND_PROCESSING
  end.

(** The re-labelling policy as it is worded: a transport failure whose
    generic classification is [API] or [UNKNOWN] surfaces from an
    operation with the operation's kind and the original message. *)
Definition relabels_generic_failures : Prop :=
  forall op outcome g,
    Client.onRejected outcome = Errors.Gateway g ->
    Errors.type g = Errors.API \/ Errors.type g = Errors.UNKNOWN ->
    exists g',
      Client.run op (Axios.Rejected outcome) = inl (Errors.Gateway g')
      /\ Errors.ErrorType_value (Errors.type g') = kind_value (scoped_kind op)
      /\ Errors.message g' = Errors.message g.

(** The closed-set invariant as it is worded, on the records that
    [PaymentService] surfaces. *)
Definition service_kinds_closed : Prop :=
  forall op o e,
    Service.run op o = inl e ->
    exists g, e = SdkErrors.Gateway g /\ is_kind (SdkErrors.code g).

End SpecErrors.

(* ================================================================== *)
(** ** Exhaustive comparison of the two brand detectors on digit prefixes *)

Module Prefixes.

(** The character of the digit [v]. *)
Definition digit_char (v : nat) : ascii := ascii_of_nat (48 + v).

Definition same_brand (code : option string) (spec : option Spec.CardBrand) : bool :=
  match code, spec with
  | Some n, Some b => String.eqb n (Spec.brand_name b)
  | None, None => true
  | _, _ => false
  end.

(** The loop of [detectCardType] and the specification's tests agree on
    the digit string [d]. *)
Definition agree (d : string) : bool :=
  same_brand (Utils.first_match Utils.patterns d) (Spec.detectBrand d).

Definition each_digit (p : nat -> bool) : bool := forallb p (seq 0 10).

(** Agreement on every digit string that starts with [k] given digits and
    goes on with [rest]. *)
Fixpoint agree_all (k : nat) (prefix : string -> string) (rest : string) : bool :=
  match k with
  | O => agree (prefix rest)
  | S k' =>
      each_digit (fun v =>
        agree_all k' (fun tail => prefix (String (digit_char v) tail)) rest)
  end.

End Prefixes.

(* ================================================================== *)
(** ** Event sequences and sample configurations for the two forms *)

Module Traces.

(** Events that leave the text of the card-number input as it is, unless
    they empty the form. *)
Definition keeps_card_number (e : ClientForm.event) : bool :=
  match e with
  | ClientForm.TypeCardNumber _ => false
  | _ => true
  end.

(** The number a submit would hand to the client. *)
Definition entered (w : ClientForm.world) : string :=
  ClientForm.cardNumber (ClientForm.cardDetails_of (ClientForm.form w)).

(** The flag and the count of unsettled requests go together. *)
Definition flag_counts (w : ClientForm.world) : Prop :=
  ClientForm.inFlight w
  = if ClientForm.isSubmitting (ClientForm.form w) then 1 else 0.

(** The card input is empty whenever it holds no digit to send. *)
Definition card_not_blank (w : ClientForm.world) : Prop :=
  entered w = "" -> ClientForm.f_cardNumber (ClientForm.fields (ClientForm.form w)) = "".

(** A number that the validator rejects carries a custom validity error. *)
Definition rejected_is_flagged (w : ClientForm.world) : Prop :=
  Js.truthy_str (entered w) = true ->
  Utils.validateCardNumber (entered w) = false ->
  Js.truthy_str (ClientForm.cardNumberValidity (ClientForm.form w)) = true.

Definition sample_options : ClientForm.PaymentFormOptions :=
  ClientForm.mkOptions
    (ClientForm.mkPaymentDetails 4999 "XCD" "customer_id" "merchant_id" "order123"
                                 "Payment for Order #123")
    None None.

Definition sample_config : SdkForm.PaymentFormConfig :=
  SdkForm.mkConfig
    (SdkForm.mkTransaction 4999 "XCD" "customer_id" "merchant_id" "order123"
                           "Payment for Order #123")
    "Pay $49.99" None None.

(** A configuration whose error callback throws. *)
Definition throwing_config : SdkForm.PaymentFormConfig :=
  SdkForm.mkConfig
    (SdkForm.mkTransaction 4999 "XCD" "customer_id" "merchant_id" "order123"
                           "Payment for Order #123")
    "Pay $49.99" None
    (Some (fun _ =>
             Some (SdkErrors.Other (Js.mkJsError "Error" "handler failed")))).

End Traces.

(* ================================================================== *)
(** ** The other input handlers of the form built on [PaymentService] *)

Module SdkInputs.

(** [formatExpiry], as the new value of the input after the browser
    stored the typed text in it: without any digit the handler leaves the
    input alone. *)
Definition formatExpiry (typed : string) : string :=
  let value := Utils.normalizeDigits typed in
  if (0 <? String.length value)%nat then
    if (String.length value <=? 2)%nat then value
    else substring 0 2 value ++ " / " ++ substring 2 2 value
  else typed.

(** [formatCVC]. *)
Definition formatCVC (typed : string) : string := Utils.normalizeDigits typed.

End SdkInputs.

(* ================================================================== *)
(** ** [adjustColor] of the form built on [PaymentService] *)

Module Colors.

Definition isHex (c : ascii) : bool :=
  let n := nat_of_ascii c in
  Js.isDigit c
  || ((97 <=? n)%nat && (n <=? 102)%nat)
  || ((65 <=? n)%nat && (n <=? 70)%nat).

Definition hexValue (c : ascii) : Z :=
  let n := nat_of_ascii c in
  if Js.isDigit c then (Z.of_nat n - 48)%Z
  else if (97 <=? n)%nat then (Z.of_nat n - 87)%Z
  else (Z.of_nat n - 55)%Z.

(** The longest prefix of hexadecimal digits, read as a number. *)
Fixpoint leadingHex (s : string) (acc : option Z) : option Z :=
  match s with
  | String c rest =>
      if isHex c
      then leadingHex rest
             (Some (16 * match acc with Some a => a | None => 0 end
                    + hexValue c)%Z)
      else acc
  | EmptyString => acc
  end.

(** With radix 16 a leading [0x] or [0X] is skipped. *)
Definition strip0x (s : string) : string :=
  match s with
  | String "0" (String "x" rest) => rest
  | String "0" (String "X" rest) => rest
  | _ => s
  end.

(** [parseInt(s, 16)]. *)
Definition parseInt16 (s : string) : Js.number :=
  match Js.skipSpace s with
  | String "-" rest =>
      match leadingHex (strip0x rest) None with
      | Some z => Js.Num (- z)
      | None => Js.NaN
      end
  | String "+" rest =>
      match leadingHex (strip0x rest) None with
      | Some z => Js.Num z
      | None => Js.NaN
      end
  | t =>
      match leadingHex (strip0x t) None with
      | Some z => Js.Num z
      | None => Js.NaN
      end
  end.

(** [Math.max(0, Math.min(255, v + percent))]; [NaN] stays [NaN]. *)
Definition clamp (v : Js.number) (percent : Z) : Js.number :=
  match v with
  | Js.Num z => Js.Num (Z.max 0 (Z.min 255 (z + percent)))
  | Js.NaN => Js.NaN
  end.

(** [v.toString(16)] for an integer or [NaN]. *)
Definition toString16 (v : Js.number) : string :=
  match v with
  | Js.Num z => HexadecimalString.NilZero.string_of_int (Z.to_hex_int z)
  | Js.NaN => "NaN"
  end.

Fixpoint zeros (n : nat) : string :=
  match n with
  | O => EmptyString
  | S n' => String "0" (zeros n')
  end.

(** [s.padStart(2, '0')]. *)
Definition padStart2 (s : string) : string := zeros (2 - String.length s) ++ s.

(** [adjustColor(color, percent)] for an integer [percent]. *)
Definition adjustColor (color : string) (percent : Z) : string :=
  let r := parseInt16 (substring 1 2 color) in
  let g := parseInt16 (substring 3 2 color) in
  let b := parseInt16 (substring 5 2 color) in
  let r := clamp r percent in
  let g := clamp g percent in
  let b := clamp b percent in
  "#" ++ padStart2 (toString16 r) ++ padStart2 (toString16 g)
      ++ padStart2 (toString16 b).

End Colors.

(* ================================================================== *)
(** ** The singleton of [vizion-gateway.ts] and the form's constructor *)

Module Gateway.

Inductive Environment : Type := SANDBOX | PRODUCTION.

Record VizionGatewayConfig : Type := mkConfig {
  apiKey : string;
  merchantId : string;
  environment : Environment
}.

(** What the constructor of [PaymentService] hands to [axios.create]. *)
Record PaymentService : Type := mkService {
  baseURL : string;
  authorization : string;
  merchantHeader : string
}.

Definition newPaymentService (config : VizionGatewayConfig) : PaymentService :=
  {| baseURL := match environment config with
                | PRODUCTION => "https://api.viziongateway.com/v1"
                | SANDBOX => "https://sandbox-api.viziongateway.com/v1"
                end;
     authorization := "Bearer " ++ apiKey config;
     merchantHeader := merchantId config |}.

Record VizionGateway : Type := mkGateway {
  config : VizionGatewayConfig;
  paymentService : PaymentService
}.

Definition newVizionGateway (config : VizionGatewayConfig) : VizionGateway :=
  {| config := config; paymentService := newPaymentService config |}.

(** [VizionGateway.initialize(config)] on the static [instance]: the new
    value of [instance] and the instance returned. *)
Definition initialize (config : VizionGatewayConfig) (instance : option VizionGateway)
  : option VizionGateway * VizionGateway :=
  match instance with
  | None => let i := newVizionGateway config in (Some i, i)
  | Some i => (Some i, i)
  end.

Definition getInstance (instance : option VizionGateway) : Js.error + VizionGateway :=
  match instance with
  | None =>
      inl (Js.mkJsError "Error"
             "Vizion Gateway SDK has not been initialized. Call VizionGateway.initialize() first.")
  | Some i => inr i
  end.

(** The constructor of [PaymentForm]: the [sdk] it keeps, or what it
    throws. *)
Definition newPaymentForm (instance : option VizionGateway)
  : SdkErrors.exn + VizionGateway :=
  match getInstance instance with
  | inr sdk => inr sdk
  | inl _ =>
      inl (SdkErrors.raise
             (SdkErrors.new
                (Js.VStr "SDK not initialized. Call VizionGateway.initialize() before creating a PaymentForm.")
                (SdkErrors.of_type SdkErrors.CONFIGURATION_ERROR) 400))
  end.

(** A sequence of [initialize] calls. *)
Definition initialize_all (configs : list VizionGatewayConfig)
           (instance : option VizionGateway) : option VizionGateway :=
  fold_left (fun st c => fst (initialize c st)) configs instance.

End Gateway.

(* ================================================================== *)
(** ** Predicates for the properties of the forms and of the validator *)

Module Shapes.

(** The text that the card handlers leave in the card input for the
    digits [d]. *)
Definition formatted (d : string) : string :=
  if (0 <? String.length d)%nat then Dom.group4 d 0 else d.

(** A card input holds grouped digits. *)
Definition grouped (text : string) : Prop :=
  exists d, Dom.all_in Js.isDigit d = true /\ text = formatted d.

(** An integer within bounds. *)
Definition num_between (lo hi : Z) (v : Js.number) : Prop :=
  exists z, v = Js.Num z /\ (lo <= z <= hi)%Z.

(** What every call of the client form looks like. *)
Definition well_formed (opts : ClientForm.PaymentFormOptions)
           (call : ClientForm.PaymentDetails * ClientForm.CardPaymentDetails) : Prop :=
  fst call = ClientForm.payment opts
  /\ Dom.all_in Js.isDigit (ClientForm.cardNumber (snd call)) = true
  /\ 11 <= String.length (ClientForm.cardNumber (snd call)) <= 16
  /\ num_between 0 99 (ClientForm.expiryMonth (snd call))
  /\ num_between 0 9999 (ClientForm.expiryYear (snd call))
  /\ Dom.all_in Js.isDigit (ClientForm.cvv (snd call)) = true
  /\ 3 <= String.length (ClientForm.cvv (snd call)) <= 4
  /\ ClientForm.cardholderName (snd call) <> "".

(** The state of the client form that the invariant on its calls rests
    on. *)
Definition steady (opts : ClientForm.PaymentFormOptions) (w : ClientForm.world) : Prop :=
  ClientForm.options (ClientForm.form w) = opts
  /\ grouped (ClientForm.f_cardNumber (ClientForm.fields (ClientForm.form w)))
  /\ Forall (well_formed opts) (ClientForm.calls w).

(** The term a digit contributes to the Luhn sum. *)
Definition luhn_term (doubled : bool) (d : Z) : Z :=
  if doubled then (if (9 <? 2 * d)%Z then (2 * d - 9)%Z else (2 * d)%Z) else d.

(** The check digit that completes a payload: the character of
    [(10 - s mod 10) mod 10] for the Luhn sum [s] of the payload read as
    the digits to the left of the check digit. *)
Definition check_digit (payload : string) : ascii :=
  Prefixes.digit_char
    (Z.to_nat ((10 - Spec.luhn_sum (Spec.digits_from_right payload) true mod 10) mod 10)).

End Shapes.

(* ================================================================== *)
(** ** Notions for the properties of [adjustColor] *)

Module ColorShapes.

(** The lower-case hexadecimal digit of a value from 0 to 15. *)
Definition hexChar (v : Z) : ascii :=
  nth (Z.to_nat v)
      ["0"; "1"; "2"; "3"; "4"; "5"; "6"; "7"; "8"; "9";
       "a"; "b"; "c"; "d"; "e"; "f"]%char "0"%char.

(** The two hexadecimal digits of a value from 0 to 255. *)
Definition hexPair (z : Z) : string :=
  String (hexChar (z / 16)) (String (hexChar (z mod 16)) "").

(** A hexadecimal digit in lower case. *)
Definition lowerHex (c : ascii) : ascii := hexChar (Colors.hexValue c).

(** A colour channel moved by [percent] and kept within 0 to 255. *)
Definition shifted (hi lo : ascii) (percent : Z) : Z :=
  Z.max 0 (Z.min 255 (16 * Colors.hexValue hi + Colors.hexValue lo + percent)).

Definition hexChars : list ascii :=
  ["0"; "1"; "2"; "3"; "4"; "5"; "6"; "7"; "8"; "9";
   "a"; "b"; "c"; "d"; "e"; "f"; "A"; "B"; "C"; "D"; "E"; "F"]%char.

(** [parseInt] reads two hexadecimal digits as their value. *)
Definition pair_parsed (hi lo : ascii) : bool :=
  match Colors.parseInt16 (String hi (String lo "")) with
  | Js.Num z => (z =? 16 * Colors.hexValue hi + Colors.hexValue lo)%Z
  | Js.NaN => false
  end.

(** [parseInt] reads one hexadecimal digit as its value. *)
Definition single_parsed (c : ascii) : bool :=
  match Colors.parseInt16 (String c "") with
  | Js.Num z => (z =? Colors.hexValue c)%Z
  | Js.NaN => false
  end.

(** [toString(16)] padded to two characters is the pair of digits. *)
Definition pair_printed (n : nat) : bool :=
  String.eqb (Colors.padStart2 (Colors.toString16 (Js.Num (Z.of_nat n))))
             (hexPair (Z.of_nat n)).

End ColorShapes.

(* ================================================================== *)
(** * Results *)

(** ** Digit normalisation *)

Lemma normalizeDigits_all_digits (s : string) :
  Dom.all_in Js.isDigit (Utils.normalizeDigits s) = true.
Proof.
  unfold Utils.normalizeDigits.
  induction s as [|c rest IH]; simpl; [reflexivity|].
  destruct (Js.isDigit c) eqn:Hc; simpl; [rewrite Hc|]; assumption.
Qed.

Lemma normalizeDigits_fixed (s : string) :
  Dom.all_in Js.isDigit s = true -> Utils.normalizeDigits s = s.
Proof.
  unfold Utils.normalizeDigits.
  induction s as [|c rest IH]; simpl; [reflexivity|].
  intros H. apply andb_true_iff in H as [Hc Hrest].
  rewrite Hc. simpl. f_equal. auto.
Qed.

Lemma normalizeDigits_idem (s : string) :
  Utils.normalizeDigits (Utils.normalizeDigits s) = Utils.normalizeDigits s.
Proof. apply normalizeDigits_fixed, normalizeDigits_all_digits. Qed.

(** C9. Normalising is idempotent, its result holds only the characters
    0 to 9, and the empty string is normalised to the empty string. *)
Theorem normalizeDigits_idempotent_digits_only :
  (forall s, Utils.normalizeDigits (Utils.normalizeDigits s) = Utils.normalizeDigits s)
  /\ (forall s, Dom.all_in Js.isDigit (Utils.normalizeDigits s) = true)
  /\ Utils.normalizeDigits "" = "".
Proof.
  split; [|split].
  - exact normalizeDigits_idem.
  - exact normalizeDigits_all_digits.
  - reflexivity.
Qed.

Lemma isDigit_digit_chars (c : ascii) :
  Js.isDigit c = true <-> In c Spec.digit_chars.
Proof.
  split.
  - destruct c as [[] [] [] [] [] [] [] []]; vm_compute; intros H;
      try discriminate H; tauto.
  - intros H. unfold Spec.digit_chars in H. simpl in H.
    repeat (destruct H as [<- | H]; [reflexivity|]). contradiction.
Qed.

Lemma not_digit_char (c : ascii) :
  ~ In c Spec.digit_chars -> Js.isDigit c = false.
Proof.
  intros H. destruct (Js.isDigit c) eqn:Hc; [|reflexivity].
  exfalso. apply H, isDigit_digit_chars, Hc.
Qed.

(** Normalising computes the stripped string, and nothing else is one. *)
Lemma stripped_normalizeDigits (s d : string) :
  Spec.stripped s d <-> d = Utils.normalizeDigits s.
Proof.
  unfold Utils.normalizeDigits. split.
  - induction 1 as [|c s d Hc _ IH|c s d Hc _ IH]; simpl.
    + reflexivity.
    + apply isDigit_digit_chars in Hc. rewrite Hc. simpl. f_equal. exact IH.
    + rewrite (not_digit_char c Hc). simpl. exact IH.
  - intros ->. induction s as [|c rest IH]; simpl; [constructor|].
    destruct (Js.isDigit c) eqn:Hc; simpl.
    + apply Spec.stripped_keep; [apply isDigit_digit_chars, Hc|exact IH].
    + apply Spec.stripped_drop; [|exact IH].
      intros Hin. apply isDigit_digit_chars in Hin. congruence.
Qed.

(** A non-digit character leaves no trace in the normalised string,
    wherever it stands. *)
Lemma normalizeDigits_insert (s1 s2 : string) (c : ascii) :
  ~ In c Spec.digit_chars ->
  Utils.normalizeDigits (s1 ++ String c s2) = Utils.normalizeDigits (s1 ++ s2).
Proof.
  intros Hc. unfold Utils.normalizeDigits.
  induction s1 as [|a rest IH]; simpl.
  - rewrite (not_digit_char c Hc). reflexivity.
  - rewrite IH. reflexivity.
Qed.

Lemma validate_of_normalized (s : string) :
  Utils.validateCardNumber s = Utils.validateCardNumber (Utils.normalizeDigits s).
Proof.
  unfold Utils.validateCardNumber.
  rewrite normalizeDigits_idem.
  destruct s as [|c rest]; [reflexivity|].
  destruct (Utils.normalizeDigits (String c rest)) eqn:Hd; reflexivity.
Qed.

(** C10. The validator gives the same answer on a string and on the
    string with every non-digit character removed: on what the
    normalisation returns, on any string that is the input without its
    non-digit characters, and so on the input with one more non-digit
    character put in at any place. *)
Theorem validateCardNumber_self_normalizing :
  (forall s,
     Utils.validateCardNumber s
     = Utils.validateCardNumber (Utils.normalizeDigits s))
  /\ (forall s d,
        Spec.stripped s d ->
        Utils.validateCardNumber s = Utils.validateCardNumber d)
  /\ (forall s1 c s2,
        ~ In c Spec.digit_chars ->
        Utils.validateCardNumber (s1 ++ String c s2)
        = Utils.validateCardNumber (s1 ++ s2)).
Proof.
  split; [exact validate_of_normalized|]. split.
  - intros s d H. apply stripped_normalizeDigits in H. subst d.
    apply validate_of_normalized.
  - intros s1 c s2 Hc.
    rewrite (validate_of_normalized (s1 ++ String c s2)).
    rewrite (validate_of_normalized (s1 ++ s2)).
    rewrite (normalizeDigits_insert s1 s2 c Hc). reflexivity.
Qed.

Lemma validateCardNumber_self_normalizing_witness :
  Utils.validateCardNumber "4242 4242-4242 4242"
  = Utils.validateCardNumber "4242424242424242"
  /\ Utils.validateCardNumber "4242 4242-4242 4242"
     = Utils.validateCardNumber "4242 42424242 4242"
  /\ Utils.validateCardNumber "4242 4242-4242 4242" = true.
Proof.
  assert (Hspace : ~ In " "%char Spec.digit_chars).
  { intros H. simpl in H.
    repeat (destruct H as [H|H]; [discriminate H|]). exact H. }
  assert (Hdash : ~ In "-"%char Spec.digit_chars).
  { intros H. simpl in H.
    repeat (destruct H as [H|H]; [discriminate H|]). exact H. }
  split; [|split].
  - apply (proj1 (proj2 validateCardNumber_self_normalizing)
             "4242 4242-4242 4242" "4242424242424242").
    repeat first
      [ apply Spec.stripped_nil
      | apply Spec.stripped_keep; [simpl; tauto|]
      | apply Spec.stripped_drop; [assumption|] ].
  - apply (proj2 (proj2 validateCardNumber_self_normalizing)
             "4242 4242" "-"%char "4242 4242" Hdash).
  - rewrite (proj1 validateCardNumber_self_normalizing "4242 4242-4242 4242").
    reflexivity.
Defined.

(** ** The Luhn loop *)

Section Luhn.

Lemma digit_cases (c : ascii) :
Js.isDigit c = true ->
In c ["0"; "1"; "2"; "3"; "4"; "5"; "6"; "7"; "8"; "9"]%char.
Proof.
destruct c as [[] [] [] [] [] [] [] []]; vm_compute; intros H;
  try discriminate H; tauto.
Qed.

Lemma parseInt_digit (c : ascii) :
Js.isDigit c = true ->
Js.parseInt (String c "") = Js.Num (Js.digitValue c).
Proof.
intros H. apply digit_cases in H. simpl in H.
repeat (destruct H as [<- | H]; [reflexivity|]). contradiction.
Qed.

Lemma digitValue_range (c : ascii) :
Js.isDigit c = true -> (0 <= Js.digitValue c <= 9)%Z.
Proof.
intros H. apply digit_cases in H. simpl in H.
repeat (destruct H as [<- | H]; [vm_compute; intuition discriminate|]).
contradiction.
Qed.

Lemma charAt_get (d : string) (i : nat) (c : ascii) :
String.get i d = Some c -> Js.charAt d i = String c "".
Proof.
unfold Js.charAt. revert i.
induction d as [|x rest IH]; intros i H; [discriminate|].
destruct i as [|i]; simpl in *.
- injection H as ->. destruct rest; reflexivity.
- auto.
Qed.

Lemma get_nth_error (d : string) (i : nat) :
String.get i d = nth_error (list_ascii_of_string d) i.
Proof.
revert i. induction d as [|x rest IH]; intros [|i]; simpl; auto.
Qed.

Lemma length_list_ascii (d : string) :
List.length (list_ascii_of_string d) = String.length d.
Proof. induction d; simpl; congruence. Qed.

Lemma all_in_Forall (cls : ascii -> bool) (d : string) :
Dom.all_in cls d = true ->
Forall (fun c => cls c = true) (list_ascii_of_string d).
Proof.
induction d as [|x rest IH]; simpl; intros H; constructor;
  apply andb_true_iff in H; tauto.
Qed.

(** The per-digit step of the loop is the specification's. *)
Lemma luhn_digit_spec (b : bool) (v : Z) :
Utils.luhn_digit b v
= (if b then (if 9 <? 2 * v then 2 * v - 9 else 2 * v) else v)%Z.
Proof.
unfold Utils.luhn_digit. destruct b; [|reflexivity]. cbv zeta.
rewrite Z.gtb_ltb. replace (v * 2)%Z with (2 * v)%Z by lia. reflexivity.
Qed.

(** Loop invariant: with [n] characters left, the loop adds to the sum
  the specification's sum over those [n] digits, rightmost first. *)
Lemma luhn_loop_spec (d : string) :
Dom.all_in Js.isDigit d = true ->
forall (n : nat) (acc : Z) (b : bool),
  n <= String.length d ->
  Utils.luhn_loop d n (Js.Num acc) b
  = Js.Num (acc + Spec.luhn_sum
                    (rev (firstn n (map Js.digitValue (list_ascii_of_string d)))) b).
Proof.
intros Hd.
induction n as [|i IH]; intros acc b Hn.
- simpl. f_equal. lia.
- assert (Hlt : i < List.length (list_ascii_of_string d))
    by (rewrite length_list_ascii; lia).
  destruct (nth_error (list_ascii_of_string d) i) as [c|] eqn:Hc;
    [|apply nth_error_None in Hc; lia].
  assert (Hdig : Js.isDigit c = true).
  { apply all_in_Forall in Hd. rewrite Forall_forall in Hd.
    apply Hd. eapply nth_error_In; eauto. }
  cbn [Utils.luhn_loop].
  rewrite (charAt_get d i c) by (rewrite get_nth_error; exact Hc).
  rewrite parseInt_digit by exact Hdig.
  rewrite IH by lia.
  assert (Hfirst : firstn (S i) (map Js.digitValue (list_ascii_of_string d))
                   = (firstn i (map Js.digitValue (list_ascii_of_string d))
                        ++ [Js.digitValue c])%list).
  { clear - Hc. revert i Hc.
    induction (list_ascii_of_string d) as [|x l IHl]; intros [|i] Hc;
      simpl in *; try discriminate.
    - injection Hc as ->. reflexivity.
    - f_equal. auto. }
  rewrite Hfirst, rev_app_distr. cbn [rev app Spec.luhn_sum].
  rewrite luhn_digit_spec. f_equal. lia.
Qed.

Lemma luhn_sum_nonneg (l : list Z) :
Forall (fun v => 0 <= v <= 9)%Z l ->
forall b, (0 <= Spec.luhn_sum l b)%Z.
Proof.
induction 1 as [|v l Hv _ IH]; intros b; cbn [Spec.luhn_sum]; [lia|].
specialize (IH (negb b)).
destruct b; [destruct (9 <? 2 * v)%Z eqn:E; [apply Z.ltb_lt in E|]|]; lia.
Qed.

Lemma digits_from_right_range (d : string) :
Dom.all_in Js.isDigit d = true ->
Forall (fun v => 0 <= v <= 9)%Z (Spec.digits_from_right d).
Proof.
intros Hd. unfold Spec.digits_from_right.
apply Forall_rev, Forall_map.
eapply Forall_impl; [|apply all_in_Forall; exact Hd].
intros c Hc. apply digitValue_range, Hc.
Qed.

(** On a digit string the whole loop computes the checksum. *)
Lemma luhn_loop_checksum (d : string) :
Dom.all_in Js.isDigit d = true ->
Utils.divisible_by_10 (Utils.luhn_loop d (String.length d) (Js.Num 0) false)
= (Spec.luhn_checksum d =? 0)%Z.
Proof.
intros Hd.
rewrite luhn_loop_spec by auto.
rewrite <- length_list_ascii, <- (length_map Js.digitValue), firstn_all.
simpl. unfold Spec.luhn_checksum. fold (Spec.digits_from_right d).
rewrite Z.rem_mod_nonneg; [reflexivity| |lia].
apply luhn_sum_nonneg, digits_from_right_range, Hd.
Qed.

End Luhn.



(** ** Brand detection *)

Section Brand.

Import Prefixes.

Lemma digit_char_of (c : ascii) :
  Js.isDigit c = true -> exists v, In v (seq 0 10) /\ c = digit_char v.
Proof.
  intros H. apply digit_cases in H. simpl in H.
  repeat (destruct H as [<- | H];
          [match goal with
           | |- exists v, _ /\ ?c = _ =>
               exists (nat_of_ascii c - 48); vm_compute; intuition
           end|]).
  contradiction.
Qed.

Lemma each_digit_at (p : nat -> bool) (c : ascii) (q : ascii -> bool) :
  (forall v, q (digit_char v) = p v) ->
  each_digit p = true -> Js.isDigit c = true -> q c = true.
Proof.
  intros Hq Hall Hc. destruct (digit_char_of c Hc) as (v & Hv & ->).
  rewrite Hq. unfold each_digit in Hall. rewrite forallb_forall in Hall. auto.
Qed.

(** Four digits decide both detectors, whatever follows. *)
Lemma agree_four (rest : string) : agree_all 4 (fun t => t) rest = true.
Proof. vm_compute. reflexivity. Qed.

Lemma agree_short :
  agree_all 0 (fun t => t) "" && agree_all 1 (fun t => t) ""
  && agree_all 2 (fun t => t) "" && agree_all 3 (fun t => t) "" = true.
Proof. vm_compute. reflexivity. Qed.

Lemma agree_all_step (k : nat) (prefix : string -> string) (rest : string) (c : ascii) :
  agree_all (S k) prefix rest = true -> Js.isDigit c = true ->
  agree_all k (fun tail => prefix (String c tail)) rest = true.
Proof.
  intros H Hc.
  apply (each_digit_at
           (fun v => agree_all k (fun tail => prefix (String (digit_char v) tail)) rest)
           c
           (fun x => agree_all k (fun tail => prefix (String x tail)) rest));
    auto.
Qed.

Lemma agree_digits (d : string) :
  Dom.all_in Js.isDigit d = true -> agree d = true.
Proof.
  pose proof agree_short as Hs.
  repeat (apply andb_true_iff in Hs as [Hs ?]).
  intros Hd.
  destruct d as [|a [|b [|c [|e rest]]]]; simpl in Hd;
    repeat match goal with
           | H : _ && _ = true |- _ => apply andb_true_iff in H as [? H]
           end.
  - assumption.
  - apply (agree_all_step 0 (fun t => t) "" a); assumption.
  - apply (agree_all_step 0 (fun t => String a t) "" b); [|assumption].
    apply (agree_all_step 1 (fun t => t) "" a); assumption.
  - apply (agree_all_step 0 (fun t => String a (String b t)) "" c); [|assumption].
    apply (agree_all_step 1 (fun t => String a t) "" b); [|assumption].
    apply (agree_all_step 2 (fun t => t) "" a); assumption.
  - apply (agree_all_step 0 (fun t => String a (String b (String c t))) rest e);
      [|assumption].
    apply (agree_all_step 1 (fun t => String a (String b t)) rest c); [|assumption].
    apply (agree_all_step 2 (fun t => String a t) rest b); [|assumption].
    apply (agree_all_step 3 (fun t => t) rest a); [|assumption].
    apply agree_four.
Qed.

Lemma first_match_spec (d : string) :
  Dom.all_in Js.isDigit d = true ->
  Utils.first_match Utils.patterns d
  = option_map Spec.brand_name (Spec.detectBrand d).
Proof.
  intros Hd. apply agree_digits in Hd. unfold agree, same_brand in Hd.
  destruct (Utils.first_match Utils.patterns d) as [n|],
           (Spec.detectBrand d) as [b|]; simpl; try discriminate.
  - apply String.eqb_eq in Hd. congruence.
  - reflexivity.
Qed.

Lemma normalizeDigits_no_digit (s : string) :
  Dom.all_in (fun c => negb (Js.isDigit c)) s = true ->
  Utils.normalizeDigits s = "".
Proof.
  unfold Utils.normalizeDigits.
  induction s as [|c rest IH]; simpl; [reflexivity|].
  intros H. apply andb_true_iff in H as [Hc Hrest]. rewrite Hc. auto.
Qed.

End Brand.

(** C6. On the digits of its input, brand detection returns the first of
    visa, mastercard, amex, discover whose prefix test holds, in that
    order, and no brand when none holds; on a digit string that is the
    input itself; the empty input and an input without any digit have no
    brand. *)
Theorem detectCardType_precedence :
  (forall s, Utils.detectCardType s
             = option_map Spec.brand_name (Spec.detectBrand (Utils.normalizeDigits s)))
  /\ (forall s, Dom.all_in Js.isDigit s = true ->
                Utils.detectCardType s
                = option_map Spec.brand_name (Spec.detectBrand s))
  /\ Utils.detectCardType "" = None
  /\ (forall s, Dom.all_in (fun c => negb (Js.isDigit c)) s = true ->
                Utils.detectCardType s = None).
Proof.
  assert (H : forall s, Utils.detectCardType s
             = option_map Spec.brand_name (Spec.detectBrand (Utils.normalizeDigits s))).
  { intros s. unfold Utils.detectCardType.
    destruct s as [|c rest]; [reflexivity|]. simpl negb. cbv iota.
    apply first_match_spec, normalizeDigits_all_digits. }
  repeat split.
  - exact H.
  - intros s Hs. rewrite H, normalizeDigits_fixed by exact Hs. reflexivity.
  - intros s Hs. rewrite H, normalizeDigits_no_digit by exact Hs. reflexivity.
Qed.

Lemma detectCardType_precedence_witness :
  Utils.detectCardType "6011111111111117" = Some "discover"
  /\ Utils.detectCardType "--" = None.
Proof.
  split.
  - apply (proj1 (proj2 detectCardType_precedence) "6011111111111117").
    reflexivity.
  - apply (proj2 (proj2 (proj2 detectCardType_precedence)) "--"). reflexivity.
Defined.

(** ** The transport error classifier of [VizionGatewayClient] *)

Section Classifier.

Import Axios Errors.

Lemma errorMessage_or (m : Js.value) (generic : string) :
  Js.errorMessage (Js.or m (Js.VStr generic))
  = if Js.truthy m then Js.toString m else inr generic.
Proof.
  unfold Js.or. destruct (Js.truthy m) eqn:Hm; [|reflexivity].
  destruct m; try reflexivity; discriminate Hm.
Qed.

(** What a conversion to a string throws is a [TypeError]. *)
Lemma toString_throws_TypeError (v : Js.value) (e : Js.error) :
  Js.toString v = inl e ->
  e = Js.mkJsError "TypeError" "Cannot convert object to primitive value".
Proof.
  revert e.
  induction v as [| | b | text | s | items IH | fields] using Js.value_ind';
    intros e H.
  - discriminate H.
  - discriminate H.
  - destruct b; discriminate H.
  - discriminate H.
  - discriminate H.
  - simpl in H. induction IH as [|x rest Hx _ IHrest]; [discriminate H|].
    destruct (match x with
              | Js.VUndefined | Js.VNull => inr ""%string
              | _ => Js.toString x
              end) as [ex|sx] eqn:Hitem.
    + injection H as <-. apply Hx.
      destruct x; try discriminate Hitem; exact Hitem.
    + destruct rest as [|y rest']; [discriminate H|].
      match type of H with
      | match ?j with _ => _ end = _ => destruct j as [er|sr] eqn:Hj
      end; [|discriminate H].
      injection H as <-. apply IHrest. reflexivity.
  - simpl in H. destruct (Js.has_key _ _); [|discriminate H].
    injection H as <-. reflexivity.
Qed.

(** Reading a property of a body that is neither [null] nor
    [undefined] does not throw. *)
Lemma read_field (body : Js.value) (key : string) :
  body <> Js.VNull -> body <> Js.VUndefined ->
  Client.read body key = inr (Js.field body key).
Proof.
  intros Hn Hu. unfold Client.read, Js.field.
  destruct body; try reflexivity; congruence.
Qed.

End Classifier.

(** C1, as amended.  First match first: status 401 gives AUTHENTICATION
    with the fixed message, whatever the body; status 400 with a body that
    is neither [null] nor [undefined] gives VALIDATION, any other status
    with such a body gives API, in both cases with the body's [errors] as
    details and with the generic message when the body's [message] is
    falsy, and with that [message] converted to a string when it is truthy
    and can be converted; when it cannot (an object with a property
    [toString] of its own, or an array that holds one) the classifier
    throws the [TypeError] of the conversion, no error record; no response
    but a request gives NETWORK with the fixed message; anything else
    gives UNKNOWN with the exception's message when it is not empty and
    the generic message otherwise. *)
Theorem classifier_mapping (error : Axios.AxiosError) :
  (forall r, Axios.response error = Some r -> Axios.status r = 401%Z ->
     Client.onRejected error
     = Errors.Gateway
         (Errors.mkError "Authentication failed. Check your API key and merchant ID."
                         Errors.AUTHENTICATION (Errors.FromBody Js.VUndefined) None))
  /\ (forall r, Axios.response error = Some r -> Axios.status r <> 401%Z ->
        Axios.data r <> Js.VNull -> Axios.data r <> Js.VUndefined ->
        let m := Js.field (Axios.data r) "message" in
        let record (text : string) :=
          Errors.mkError
            text
            (if (Axios.status r =? 400)%Z then Errors.VALIDATION else Errors.API)
            (Errors.FromBody (Js.field (Axios.data r) "errors"))
            None in
        Client.onRejected error
        = if Js.truthy m then
            match Js.toString m with
            | inr text => Errors.Gateway (record text)
            | inl thrown => Errors.Other thrown
            end
          else
            Errors.Gateway
              (record (if (Axios.status r =? 400)%Z
                       then "Invalid request parameters"
                       else "An error occurred while processing your request")))
  /\ (Axios.response error = None -> Axios.request error = true ->
        Client.onRejected error
        = Errors.Gateway
            (Errors.mkError "Network error. Please check your connection."
                            Errors.NETWORK (Errors.FromBody Js.VUndefined) None))
  /\ (Axios.response error = None -> Axios.request error = false ->
        Client.onRejected error
        = Errors.Gateway
            (Errors.mkError
               (if Js.truthy_str (Axios.message error) then Axios.message error
                else "An unexpected error occurred")
               Errors.UNKNOWN (Errors.FromBody Js.VUndefined) None)).
Proof.
  unfold Client.onRejected. repeat split.
  - intros r Hr Hs. rewrite Hr, Hs. reflexivity.
  - intros r Hr Hs Hn Hu. rewrite Hr.
    apply Z.eqb_neq in Hs. rewrite Hs.
    rewrite !read_field by assumption. cbn [Js.bind].
    destruct (Axios.status r =? 400)%Z; unfold Errors.new;
      rewrite errorMessage_or;
      destruct (Js.truthy (Js.field (Axios.data r) "message"));
      try reflexivity;
      destruct (Js.toString (Js.field (Axios.data r) "message")); reflexivity.
  - intros Hr Hq. rewrite Hr, Hq. reflexivity.
  - intros Hr Hq. rewrite Hr, Hq. unfold Errors.new.
    rewrite errorMessage_or. simpl.
    destruct (Axios.message error); reflexivity.
Qed.

Lemma classifier_mapping_witness :
  Client.onRejected
    (Axios.mkAxiosError
       (Some (Axios.mkResponse 400 (Js.VObj [("message", Js.VStr "bad field")])))
       true "Request failed with status code 400")
  = Errors.Gateway
      (Errors.mkError "bad field" Errors.VALIDATION (Errors.FromBody Js.VUndefined)
                      None).
Proof.
  apply (proj1 (proj2 (classifier_mapping
           (Axios.mkAxiosError
              (Some (Axios.mkResponse 400 (Js.VObj [("message", Js.VStr "bad field")])))
              true "Request failed with status code 400")))
           (Axios.mkResponse 400 (Js.VObj [("message", Js.VStr "bad field")]))
           eq_refl);
    intros H; discriminate H.
Defined.

(** C1 as stated fails: a status 400 whose body has an empty [message] is
    given the generic message, not the field that is present. *)
Lemma classifier_message_if_present_fails :
  ~ (forall error, Client.onRejected error = Errors.Gateway (SpecErrors.classify error)).
Proof.
  intros H.
  specialize (H (Axios.mkAxiosError
                   (Some (Axios.mkResponse 400 (Js.VObj [("message", Js.VStr "")])))
                   true "Request failed with status code 400")).
  vm_compute in H. discriminate H.
Qed.

(** A [null] body with a status other than 401 makes the interceptor
    throw a [TypeError], which the operation then wraps. *)
Example classifier_null_body :
  Client.onRejected
    (Axios.mkAxiosError (Some (Axios.mkResponse 400 Js.VNull)) true "")
  = Errors.Other
      (Js.mkJsError "TypeError" "Cannot read properties of null (reading 'message')")
  /\ Client.processCardPayment
       (Axios.Rejected
          (Axios.mkAxiosError (Some (Axios.mkResponse 400 Js.VNull)) true ""))
     = inl (Errors.Gateway
              (Errors.mkError "Failed to process card payment"
                 Errors.PAYMENT_PROCESSING
                 (Errors.Caught
                    (Js.mkJsError "TypeError"
                       "Cannot read properties of null (reading 'message')"))
                 None)).
Proof. split; reflexivity. Qed.

(** A body whose [message] cannot be converted to a string makes the
    interceptor throw the [TypeError] of the conversion, which the
    operation then wraps; a number is converted to the text it prints
    as, and an array to its elements joined. *)
Example classifier_unconvertible_message :
  let error :=
    Axios.mkAxiosError
      (Some (Axios.mkResponse 400
               (Js.VObj [("message", Js.VObj [("toString", Js.VNum "1")])])))
      true "Request failed with status code 400" in
  Client.onRejected error
  = Errors.Other
      (Js.mkJsError "TypeError" "Cannot convert object to primitive value")
  /\ Client.processCardPayment (Axios.Rejected error)
     = inl (Errors.Gateway
              (Errors.mkError "Failed to process card payment"
                 Errors.PAYMENT_PROCESSING
                 (Errors.Caught
                    (Js.mkJsError "TypeError"
                       "Cannot convert object to primitive value"))
                 None))
  /\ Client.onRejected
       (Axios.mkAxiosError
          (Some (Axios.mkResponse 500
                   (Js.VObj [("message",
                              Js.VArr [Js.VNum "1e+21"; Js.VNull;
                                       Js.VObj [("reason", Js.VStr "x")]])])))
          true "Request failed with status code 500")
     = Errors.Gateway
         (Errors.mkError "1e+21,,[object Object]" Errors.API
                         (Errors.FromBody Js.VUndefined) None).
Proof. repeat split. Qed.

(** ** Errors crossing the operations *)

Section Operations.

Lemma is_kindb_spec (v : Js.value) :
  SpecErrors.is_kindb v = true <-> SpecErrors.is_kind v.
Proof.
  unfold SpecErrors.is_kind. split.
  - destruct v; try discriminate. unfold SpecErrors.is_kindb. intros H.
    apply existsb_exists in H as (k & _ & Hk).
    apply String.eqb_eq in Hk. exists k. congruence.
  - intros [k ->]. destruct k; reflexivity.
Qed.

(** The client's enumeration lies inside the specification's. *)
Lemma client_type_is_kind (t : Errors.ErrorType) :
  SpecErrors.is_kind (Js.VStr (Errors.ErrorType_value t)).
Proof. apply is_kindb_spec. destruct t; reflexivity. Qed.

(** Whatever a client operation throws is a [VizionGatewayError]. *)
Lemma client_throws_gateway (op : Client.operation) (o : Axios.outcome)
      (e : Errors.exn) :
  Client.run op o = inl e -> exists g, e = Errors.Gateway g.
Proof.
  destruct op, o as [r|err]; simpl;
    unfold Client.processCardPayment, Client.getTransaction,
           Client.listTransactions, Client.refundTransaction, Client.read;
    simpl.
  all: try (destruct (Client.onRejected err); simpl; intros H;
            injection H as <-; eauto).
  all: destruct (Axios.data r); simpl; intros H; try discriminate H;
    injection H as <-; eauto.
Qed.

(** The value the service interceptor reads from is never [null] or
    [undefined]. *)
Lemma errorResponse_readable (error : Axios.AxiosError) (key : string) :
  Service.read (Service.errorResponse error) key
  = inr (Js.field (Service.errorResponse error) key).
Proof.
  unfold Service.read, Js.field, Service.errorResponse, Js.or.
  destruct (Js.truthy _) eqn:Ht; [|reflexivity].
  destruct (match Axios.response error with
            | Some r => Axios.data r
            | None => Js.VUndefined
            end); try reflexivity; discriminate Ht.
Qed.

(** The service interceptor throws what the constructor gives: the
    record, or the [TypeError] of the message's conversion. *)
Lemma service_onRejected_raise (error : Axios.AxiosError) :
  Service.onRejected error
  = SdkErrors.raise
      (SdkErrors.new
         (Js.field (Service.errorResponse error) "message")
         (Js.or (Js.field (Service.errorResponse error) "code")
                (Js.VStr "unknown_error"))
         (Service.status_or_500 error)).
Proof.
  unfold Service.onRejected. rewrite !errorResponse_readable. reflexivity.
Qed.

(** A rejected request reaches the catch block of the operation with
    what the interceptor threw. *)
Lemma service_run_rejected (op : Service.operation) (error : Axios.AxiosError) :
  Service.run op (Axios.Rejected error)
  = inl (Service.rethrow_or_wrap (fst (SpecErrors.service_scope op))
                                 (snd (SpecErrors.service_scope op))
                                 (Service.onRejected error)).
Proof. destruct op; reflexivity. Qed.

(** What the catch block of a service operation wraps with is an error
    record. *)
Lemma service_wrap_record (msg : string) (t : SdkErrors.ErrorType) (x : Js.error) :
  Service.rethrow_or_wrap msg t (SdkErrors.Other x)
  = SdkErrors.Gateway (SdkErrors.mkError msg (SdkErrors.of_type t) 500).
Proof. reflexivity. Qed.

End Operations.

(** C3, as amended.  An error record that the classifier produced leaves
    every client operation as it is, kind [API] and [UNKNOWN] included;
    only a thrown value that is not an error record is wrapped, with the
    operation's fixed message and kind and the value as details; in
    [PaymentService] likewise a record of the interceptor leaves every
    operation as it is, and what the interceptor throws instead of a
    record (the [TypeError] of a body message that cannot be converted to
    a string) is wrapped with the operation's fixed message and kind and
    status 500. *)
Theorem operations_keep_classification :
  (forall op error g,
     Client.onRejected error = Errors.Gateway g ->
     Client.run op (Axios.Rejected error) = inl (Errors.Gateway g))
  /\ (forall op error x,
        Client.onRejected error = Errors.Other x ->
        Client.run op (Axios.Rejected error)
        = inl (Errors.Gateway
                 (Errors.mkError (fst (SpecErrors.client_scope op))
                                 (snd (SpecErrors.client_scope op))
                                 (Errors.Caught x) None)))
  /\ (forall op error g,
        Service.onRejected error = SdkErrors.Gateway g ->
        Service.run op (Axios.Rejected error) = inl (SdkErrors.Gateway g))
  /\ (forall op error x,
        Service.onRejected error = SdkErrors.Other x ->
        Service.run op (Axios.Rejected error)
        = inl (SdkErrors.Gateway
                 (SdkErrors.mkError
                    (fst (SpecErrors.service_scope op))
                    (SdkErrors.of_type (snd (SpecErrors.service_scope op)))
                    500))).
Proof.
  repeat split.
  - intros op error g H. destruct op; simpl;
      unfold Client.processCardPayment, Client.getTransaction,
             Client.listTransactions, Client.refundTransaction; simpl;
      rewrite H; reflexivity.
  - intros op error x H. destruct op; simpl;
      unfold Client.processCardPayment, Client.getTransaction,
             Client.listTransactions, Client.refundTransaction; simpl;
      rewrite H; reflexivity.
  - intros op error g H. rewrite service_run_rejected, H. reflexivity.
  - intros op error x H. rewrite service_run_rejected, H. reflexivity.
Qed.

Lemma operations_keep_classification_witness :
  Client.run Client.ProcessCardPayment
    (Axios.Rejected
       (Axios.mkAxiosError
          (Some (Axios.mkResponse 500 (Js.VObj [("message", Js.VStr "Gateway down")])))
          true "Request failed with status code 500"))
  = inl (Errors.Gateway
           (Errors.mkError "Gateway down" Errors.API (Errors.FromBody Js.VUndefined)
                           None))
  /\ Client.run Client.GetTransaction
       (Axios.Rejected
          (Axios.mkAxiosError (Some (Axios.mkResponse 404 Js.VNull)) true ""))
     = inl (Errors.Gateway
              (Errors.mkError "Failed to retrieve transaction" Errors.API
                 (Errors.Caught
                    (Js.mkJsError "TypeError"
                       "Cannot read properties of null (reading 'message')"))
                 None))
  /\ Service.run Service.ProcessCardPayment
       (Axios.Rejected
          (Axios.mkAxiosError
             (Some (Axios.mkResponse 402
                      (Js.VObj [("message", Js.VStr "Card declined");
                                ("code", Js.VStr "card_declined")])))
             true "Request failed with status code 402"))
     = inl (SdkErrors.Gateway
              (SdkErrors.mkError "Card declined" (Js.VStr "card_declined") 402))
  /\ Service.run Service.ProcessRefund
       (Axios.Rejected
          (Axios.mkAxiosError
             (Some (Axios.mkResponse 422
                      (Js.VObj [("message", Js.VObj [("toString", Js.VNum "1")]);
                                ("code", Js.VStr "invalid_amount")])))
             true "Request failed with status code 422"))
     = inl (SdkErrors.Gateway
              (SdkErrors.mkError "Failed to process refund"
                                 (Js.VStr "refund_processing_error") 500)).
Proof.
  split; [|split; [|split]].
  - apply (proj1 operations_keep_classification Client.ProcessCardPayment).
    reflexivity.
  - apply (proj1 (proj2 operations_keep_classification) Client.GetTransaction
             (Axios.mkAxiosError (Some (Axios.mkResponse 404 Js.VNull)) true "")).
    reflexivity.
  - apply (proj1 (proj2 (proj2 operations_keep_classification))
             Service.ProcessCardPayment).
    reflexivity.
  - apply (proj2 (proj2 (proj2 operations_keep_classification))
             Service.ProcessRefund
             (Axios.mkAxiosError
                (Some (Axios.mkResponse 422
                         (Js.VObj [("message", Js.VObj [("toString", Js.VNum "1")]);
                                   ("code", Js.VStr "invalid_amount")])))
                true "Request failed with status code 422")
             (Js.mkJsError "TypeError" "Cannot convert object to primitive value")).
    reflexivity.
Defined.

(** C3 as stated fails: a status 500 is classified [API] and leaves
    [processCardPayment] as [API]. *)
Lemma relabelling_fails : ~ SpecErrors.relabels_generic_failures.
Proof.
  intros H.
  destruct (H Client.ProcessCardPayment
              (Axios.mkAxiosError
                 (Some (Axios.mkResponse 500
                          (Js.VObj [("message", Js.VStr "Gateway down")])))
                 true "Request failed with status code 500")
              _ eq_refl (or_introl eq_refl)) as (g' & Hrun & Hkind & _).
  vm_compute in Hrun. injection Hrun as <-. discriminate Hkind.
Qed.

(** C4. A [VizionGatewayError] that reaches the catch block of an
    operation is thrown again as it is: by the catch blocks themselves, by
    the four operations of the client and of the service when the request
    rejects with one, and by the forms, whose error callback is handed
    that same record. *)
Theorem typed_errors_rethrown_unchanged :
  (forall msg t g, Client.rethrow_or_wrap msg t (Errors.Gateway g) = Errors.Gateway g)
  /\ (forall msg t g,
        Service.rethrow_or_wrap msg t (SdkErrors.Gateway g) = SdkErrors.Gateway g)
  /\ (forall op o g,
        Client.http o = inl (Errors.Gateway g) ->
        Client.run op o = inl (Errors.Gateway g))
  /\ (forall op o g,
        Service.apiClient o = inl (SdkErrors.Gateway g) ->
        Service.run op o = inl (SdkErrors.Gateway g))
  /\ (forall w g cb,
        SdkForm.onError (SdkForm.config (SdkForm.form w)) = Some cb ->
        SdkForm.notices (SdkForm.caught (SdkErrors.Gateway g) w)
        = (SdkForm.notices w ++ [SdkForm.Failed g])%list)
  /\ (forall w g cb,
        ClientForm.onError (ClientForm.options (ClientForm.form w)) = Some cb ->
        ClientForm.notices (ClientForm.caught (Errors.Gateway g) w)
        = (ClientForm.notices w ++ [ClientForm.Failed (Errors.Gateway g)])%list).
Proof.
  repeat split.
  - intros op o g H. destruct op; simpl;
      unfold Client.processCardPayment, Client.getTransaction,
             Client.listTransactions, Client.refundTransaction;
      rewrite H; reflexivity.
  - intros op o g H. destruct op; simpl;
      unfold Service.processCardPayment, Service.getTransaction,
             Service.listTransactions, Service.processRefund;
      rewrite H; reflexivity.
  - intros w g cb H. unfold SdkForm.caught. rewrite H.
    destruct (cb g); reflexivity.
  - intros w g cb H. unfold ClientForm.caught. simpl. rewrite H. reflexivity.
Qed.

Lemma typed_errors_rethrown_unchanged_witness :
  Client.run Client.RefundTransaction
    (Axios.Rejected (Axios.mkAxiosError None true "Network Error"))
  = inl (Errors.Gateway
           (Errors.mkError "Network error. Please check your connection."
                           Errors.NETWORK (Errors.FromBody Js.VUndefined) None)).
Proof.
  apply (proj1 (proj2 (proj2 typed_errors_rethrown_unchanged))
           Client.RefundTransaction).
  reflexivity.
Defined.

(** C5, as amended.  Whatever a client operation throws is an error
    record whose type is in the enumeration.  A transport failure leaves a
    [PaymentService] operation as an error record; when the body's
    [message] can be converted to a string its code is the [code] of the
    response body when that is truthy and ["unknown_error"] otherwise, and
    when it cannot the code is the kind of the operation; so the code is
    in the enumeration exactly when the message cannot be converted or
    the body's code is falsy or is itself in the enumeration. *)
Theorem surfaced_kinds :
  (forall op o e,
     Client.run op o = inl e ->
     exists g, e = Errors.Gateway g
               /\ SpecErrors.is_kind (Js.VStr (Errors.ErrorType_value (Errors.type g))))
  /\ (forall op o e,
        Service.run op o = inl e ->
        exists error g,
          o = Axios.Rejected error /\ e = SdkErrors.Gateway g
          /\ let c := Js.field (Service.errorResponse error) "code" in
             let m := Js.field (Service.errorResponse error) "message" in
             SdkErrors.code g
             = match Js.errorMessage m with
               | inr _ => if Js.truthy c then c else Js.VStr "unknown_error"
               | inl _ => SdkErrors.of_type (snd (SpecErrors.service_scope op))
               end
             /\ (SpecErrors.is_kind (SdkErrors.code g)
                 <-> (exists thrown, Js.errorMessage m = inl thrown)
                     \/ Js.truthy c = false \/ SpecErrors.is_kind c)).
Proof.
  split.
  - intros op o e H. destruct (client_throws_gateway op o e H) as [g ->].
    exists g. split; [reflexivity|apply client_type_is_kind].
  - intros op [r|error] e H.
    + destruct op; discriminate H.
    + rewrite service_run_rejected, service_onRejected_raise in H.
      injection H as <-. exists error. unfold SdkErrors.new. cbv zeta.
      destruct (Js.errorMessage (Js.field (Service.errorResponse error) "message"))
        as [thrown|text].
      * eexists. split; [reflexivity|]. split; [reflexivity|].
        split; [reflexivity|]. split; [eauto|]. intros _.
        apply is_kindb_spec. destruct op; reflexivity.
      * eexists. split; [reflexivity|]. split; [reflexivity|].
        unfold Js.or. simpl.
        split; [reflexivity|].
        destruct (Js.truthy (Js.field (Service.errorResponse error) "code")) eqn:Ht.
        -- split; [auto|].
           intros [[thrown Hthrown]|[Hf|Hk]];
             [discriminate Hthrown|discriminate Hf|exact Hk].
        -- split; [auto|]. intros _. exists SpecErrors.UNKNOWN. reflexivity.
Qed.

Lemma surfaced_kinds_witness :
  (exists g,
     Errors.Gateway
       (Errors.mkError "Authentication failed. Check your API key and merchant ID."
                       Errors.AUTHENTICATION (Errors.FromBody Js.VUndefined) None)
     = Errors.Gateway g
     /\ SpecErrors.is_kind (Js.VStr (Errors.ErrorType_value (Errors.type g))))
  /\ (exists g,
        Service.onRejected (Axios.mkAxiosError None true "Network Error")
        = SdkErrors.Gateway g
        /\ SpecErrors.is_kind (SdkErrors.code g))
  /\ (exists g,
        Service.run Service.ProcessRefund
          (Axios.Rejected
             (Axios.mkAxiosError
                (Some (Axios.mkResponse 422
                         (Js.VObj [("message", Js.VArr [Js.VObj [("toString", Js.VNull)]]);
                                   ("code", Js.VStr "invalid_amount")])))
                true "Request failed with status code 422"))
        = inl (SdkErrors.Gateway g)
        /\ SdkErrors.code g = Js.VStr "refund_processing_error"
        /\ SpecErrors.is_kind (SdkErrors.code g)).
Proof.
  split; [|split].
  - apply (proj1 surfaced_kinds Client.ListTransactions
             (Axios.Rejected
                (Axios.mkAxiosError (Some (Axios.mkResponse 401 Js.VNull)) true ""))).
    reflexivity.
  - destruct (proj2 surfaced_kinds Service.GetTransaction
                (Axios.Rejected (Axios.mkAxiosError None true "Network Error"))
                _ eq_refl) as (error & g & Ho & He & Hc & Hiff).
    exists g. split; [injection Ho as <-; exact He|].
    apply Hiff. right. left. injection Ho as <-. reflexivity.
  - destruct (proj2 surfaced_kinds Service.ProcessRefund
                (Axios.Rejected
                   (Axios.mkAxiosError
                      (Some (Axios.mkResponse 422
                               (Js.VObj [("message",
                                          Js.VArr [Js.VObj [("toString", Js.VNull)]]);
                                         ("code", Js.VStr "invalid_amount")])))
                      true "Request failed with status code 422"))
                _ eq_refl) as (error & g & Ho & He & Hc & Hiff).
    exists g. split; [exact (f_equal inl He)|].
    injection Ho as <-. split; [exact Hc|].
    apply Hiff. left. eexists. reflexivity.
Defined.

(** C5 as stated fails: the code of a declined payment's body reaches
    the caller as the kind. *)
Lemma service_kind_outside_enumeration : ~ SpecErrors.service_kinds_closed.
Proof.
  intros H.
  destruct (H Service.ProcessCardPayment
              (Axios.Rejected
                 (Axios.mkAxiosError
                    (Some (Axios.mkResponse 402
                             (Js.VObj [("message", Js.VStr "Card declined");
                                       ("code", Js.VStr "card_declined")])))
                    true "Request failed with status code 402"))
              _ eq_refl) as (g & Hg & Hk).
  injection Hg as <-. apply is_kindb_spec in Hk. discriminate Hk.
Qed.

(** ** The submit handler of the client form *)

Section ClientFormProofs.

Import ClientForm Traces.

Lemma digit_not_space (c : ascii) : Js.isDigit c = true -> Js.isSpace c = false.
Proof.
  intros H. apply digit_cases in H. simpl in H.
  repeat (destruct H as [<- | H]; [reflexivity|]). contradiction.
Qed.

(** Grouping in fours is undone by removing the white space. *)
Lemma group4_reversible (d : string) :
  Dom.all_in Js.isDigit d = true ->
  forall k, Js.removeAll Js.isSpace (Dom.group4 d k) = d.
Proof.
  induction d as [|c rest IH]; intros Hd k; [reflexivity|].
  simpl in Hd. apply andb_true_iff in Hd as [Hc Hrest].
  pose proof (digit_not_space c Hc) as Hsp.
  simpl. destruct (k =? 4)%nat; simpl; rewrite ?Hsp; f_equal; auto.
Qed.

Lemma caught_inFlight (error : Errors.exn) (w : world) :
  inFlight (caught error w) = inFlight w.
Proof. unfold caught. simpl. destruct (onError _); reflexivity. Qed.

Lemma caught_calls (error : Errors.exn) (w : world) :
  calls (caught error w) = calls w.
Proof. unfold caught. simpl. destruct (onError _); reflexivity. Qed.

(** When a request settles the flag is cleared and one request fewer is
    outstanding, whatever the outcome and whatever the callbacks do. *)
Lemma settled_flag (o : Axios.outcome) (w : world) :
  isSubmitting (form (handleSubmit_settled o w)) = false
  /\ inFlight (handleSubmit_settled o w) = pred (inFlight w).
Proof.
  unfold handleSubmit_settled. split; [reflexivity|]. cbn [inFlight]. f_equal.
  destruct (Client.processCardPayment o) as [error|result];
    [apply caught_inFlight|].
  destruct (onSuccess (options (form w))) as [cb|]; [|reflexivity].
  destruct (cb result); [rewrite caught_inFlight|]; reflexivity.
Qed.

Lemma step_flag_counts (w : world) (e : event) :
  flag_counts w -> flag_counts (step w e).
Proof.
  unfold flag_counts. intros H. destruct e; cbn [step].
  - unfold handleCardNumberInput. cbv zeta.
    match goal with
    | |- context [Utils.detectCardType ?v] => destruct (Utils.detectCardType v)
    end; exact H.
  - exact H.
  - exact H.
  - unfold handleSubmit.
    destruct (isSubmitting (form w)) eqn:Hs; [rewrite Hs; exact H|].
    destruct (checkValidity (clearError (form w))); simpl; [|rewrite Hs]; lia.
  - destruct (inFlight w) as [|n] eqn:Hn; [rewrite Hn; exact H|].
    destruct (settled_flag o w) as [-> ->]. rewrite Hn.
    destruct (isSubmitting (form w)); simpl; lia.
Qed.

Lemma run_flag_counts (events : list event) (w : world) :
  flag_counts w -> flag_counts (run w events).
Proof.
  unfold run. revert w.
  induction events as [|e events IH]; intros w H; simpl; auto.
  apply IH, step_flag_counts, H.
Qed.

(** *** The card input and its custom validity *)

Lemma step_card_not_blank (w : world) (e : event) :
  card_not_blank w -> card_not_blank (step w e).
Proof.
  unfold card_not_blank, entered, cardDetails_of. intros H.
  destruct e; cbn [step].
  - unfold handleCardNumberInput. cbv zeta.
    assert (Hv : forall d, Dom.all_in Js.isDigit d = true ->
               Js.removeAll Js.isSpace
                 (if (0 <? String.length d)%nat then Dom.group4 d 0 else d) = ""
               -> (if (0 <? String.length d)%nat then Dom.group4 d 0 else d) = "").
    { intros d Hd. destruct d as [|c rest]; [reflexivity|].
      cbn [String.length Nat.ltb Nat.leb].
      rewrite group4_reversible by exact Hd. discriminate. }
    specialize (Hv _ (normalizeDigits_all_digits typed)).
    match goal with
    | |- context [Utils.detectCardType ?v] => destruct (Utils.detectCardType v)
    end; exact Hv.
  - exact H.
  - exact H.
  - unfold handleSubmit.
    destruct (isSubmitting (form w)); [exact H|].
    destruct (checkValidity (clearError (form w))); exact H.
  - destruct (inFlight w); [exact H|].
    unfold handleSubmit_settled. cbn [form set_submitting fields cardNumber].
    destruct (Client.processCardPayment o) as [error|result].
    + unfold caught. simpl. destruct (onError _); exact H.
    + destruct (onSuccess (options (form w))) as [cb|]; [|reflexivity].
      destruct (cb result); [|reflexivity].
      unfold caught. simpl. destruct (onError _); exact H.
Qed.

Lemma run_card_not_blank (events : list event) (w : world) :
  card_not_blank w -> card_not_blank (run w events).
Proof.
  unfold run. revert w.
  induction events as [|e events IH]; intros w H; simpl; auto.
  apply IH, step_card_not_blank, H.
Qed.

(** The blur handler flags a number that the validator rejects. *)
Lemma blur_flags (w : world) : rejected_is_flagged (step w BlurCardNumber).
Proof.
  unfold rejected_is_flagged, entered, cardDetails_of. cbn.
  intros -> ->. reflexivity.
Qed.

Lemma step_rejected_is_flagged (w : world) (e : event) :
  keeps_card_number e = true ->
  rejected_is_flagged w -> rejected_is_flagged (step w e).
Proof.
  unfold rejected_is_flagged, entered, cardDetails_of. intros He H.
  destruct e; cbn [step]; try discriminate He.
  - apply blur_flags.
  - exact H.
  - unfold handleSubmit.
    destruct (isSubmitting (form w)); [exact H|].
    destruct (checkValidity (clearError (form w))); exact H.
  - destruct (inFlight w); [exact H|].
    unfold handleSubmit_settled. cbn [form set_submitting fields cardNumber].
    destruct (Client.processCardPayment o) as [error|result].
    + unfold caught. simpl. destruct (onError _); exact H.
    + destruct (onSuccess (options (form w))) as [cb|]; [|discriminate].
      destruct (cb result); [|discriminate].
      unfold caught. simpl. destruct (onError _); exact H.
Qed.

Lemma run_rejected_is_flagged (events : list event) (w : world) :
  forallb keeps_card_number events = true ->
  rejected_is_flagged w -> rejected_is_flagged (run w events).
Proof.
  unfold run. revert w.
  induction events as [|e events IH]; intros w He H; simpl; auto.
  simpl in He. apply andb_true_iff in He as [He Hes].
  apply IH; [exact Hes|]. apply step_rejected_is_flagged; assumption.
Qed.

(** A submit on a form whose card input is invalid does nothing but
    clear the error line. *)
Lemma submit_blocked (w : world) :
  Dom.valid (Some (Dom.pattern (fun c => Js.isDigit c || Js.isSpace c) 13 19))
            (cardNumberValidity (form w)) (f_cardNumber (fields (form w)))
  = false ->
  calls (step w Submit) = calls w
  /\ inFlight (step w Submit) = inFlight w
  /\ isSubmitting (form (step w Submit)) = isSubmitting (form w).
Proof.
  intros Hv. cbn [step]. unfold handleSubmit.
  destruct (isSubmitting (form w)) eqn:Hs; [auto|].
  unfold checkValidity. cbn [clearError fields cardNumberValidity].
  rewrite Hv, andb_false_r. simpl. auto.
Qed.

End ClientFormProofs.

(** C8, as amended.  In the form built on the client, after any sequence
    of events at most one request is outstanding, and exactly when the
    flag is set; a submit while one is outstanding changes nothing, so it
    sends no second request; and when the request settles, with a response
    or with a failure, the flag is false and nothing is outstanding.  In
    the form built on the payment service every submit on a mounted form
    sends a request and disables the button, which is enabled again when a
    request settles. *)
Theorem client_form_reentrancy
        (opts : ClientForm.PaymentFormOptions) (events : list ClientForm.event) :
  let w := ClientForm.run (ClientForm.create opts) events in
  ClientForm.inFlight w <= 1
  /\ (ClientForm.isSubmitting (ClientForm.form w) = true <-> ClientForm.inFlight w = 1)
  /\ (ClientForm.inFlight w = 1 -> ClientForm.step w ClientForm.Submit = w)
  /\ (forall o,
        ClientForm.isSubmitting
          (ClientForm.form (ClientForm.step w (ClientForm.Settle o))) = false
        /\ ClientForm.inFlight (ClientForm.step w (ClientForm.Settle o)) = 0
        /\ ClientForm.calls (ClientForm.step w (ClientForm.Settle o))
           = ClientForm.calls w)
  /\ (forall v : SdkForm.world,
        SdkForm.mounted (SdkForm.form v) = true ->
        SdkForm.inFlight (SdkForm.step v SdkForm.Submit) = S (SdkForm.inFlight v)
        /\ List.length (SdkForm.calls (SdkForm.step v SdkForm.Submit))
           = S (List.length (SdkForm.calls v))
        /\ SdkForm.submitDisabled (SdkForm.form (SdkForm.step v SdkForm.Submit)) = true)
  /\ (forall (v : SdkForm.world) o,
        SdkForm.submitDisabled
          (SdkForm.form (SdkForm.handleSubmit_settled o v)) = false).
Proof.
  intros w.
  assert (Hsdk : forall v : SdkForm.world,
            SdkForm.mounted (SdkForm.form v) = true ->
            SdkForm.inFlight (SdkForm.step v SdkForm.Submit) = S (SdkForm.inFlight v)
            /\ List.length (SdkForm.calls (SdkForm.step v SdkForm.Submit))
               = S (List.length (SdkForm.calls v))
            /\ SdkForm.submitDisabled
                 (SdkForm.form (SdkForm.step v SdkForm.Submit)) = true).
  { intros v Hm. cbn [SdkForm.step]. unfold SdkForm.handleSubmit. rewrite Hm.
    cbn. rewrite length_app. cbn. repeat split; lia. }
  assert (H : Traces.flag_counts w)
    by (apply run_flag_counts; reflexivity).
  unfold Traces.flag_counts in H.
  destruct (ClientForm.isSubmitting (ClientForm.form w)) eqn:Hs.
  - repeat split; try lia; try reflexivity; try (apply Hsdk; assumption).
    + intros _. cbn [ClientForm.step]. unfold ClientForm.handleSubmit.
      rewrite Hs. reflexivity.
    + cbn [ClientForm.step]. rewrite H. apply settled_flag.
    + cbn [ClientForm.step]. rewrite H.
      rewrite (proj2 (settled_flag o w)). rewrite H. reflexivity.
    + cbn [ClientForm.step]. rewrite H.
      unfold ClientForm.handleSubmit_settled. cbn [ClientForm.calls].
      destruct (Client.processCardPayment o) as [error|result];
        [apply caught_calls|].
      destruct (ClientForm.onSuccess _) as [cb|]; [|reflexivity].
      destruct (cb result); [rewrite caught_calls|]; reflexivity.
  - repeat split; try lia; try discriminate; try (apply Hsdk; assumption).
    all: cbn [ClientForm.step]; rewrite H; auto.
Qed.

Lemma client_form_reentrancy_witness :
  let w := ClientForm.run (ClientForm.create Traces.sample_options)
             [ClientForm.TypeCardNumber "4242424242424242";
              ClientForm.BlurCardNumber;
              ClientForm.Fill (ClientForm.mkFields "Jane Doe" "" "12" "2030" "123");
              ClientForm.Submit] in
  ClientForm.inFlight w = 1
  /\ List.length (ClientForm.calls w) = 1
  /\ ClientForm.step w ClientForm.Submit = w.
Proof.
  intros w. split; [reflexivity|]. split; [reflexivity|].
  apply (proj1 (proj2 (proj2
           (client_form_reentrancy Traces.sample_options
              [ClientForm.TypeCardNumber "4242424242424242";
               ClientForm.BlurCardNumber;
               ClientForm.Fill (ClientForm.mkFields "Jane Doe" "" "12" "2030" "123");
               ClientForm.Submit])))).
  reflexivity.
Defined.

(** C8 as stated fails on the form built on the payment service: it has
    no flag, and two submit events send two requests. *)
Lemma sdk_form_stacks_submissions :
  ~ (forall cfg events,
       SdkForm.inFlight (SdkForm.run (SdkForm.create cfg) events) <= 1).
Proof.
  intros H.
  specialize (H Traces.sample_config
                [SdkForm.TypeCardNumber "4242424242424242";
                 SdkForm.Fill "12 / 30" "123" "Jane Doe";
                 SdkForm.Submit; SdkForm.Submit]).
  vm_compute in H. lia.
Qed.

Example sdk_form_two_requests :
  let w := SdkForm.run (SdkForm.create Traces.sample_config)
             [SdkForm.TypeCardNumber "4242424242424242";
              SdkForm.Fill "12 / 30" "123" "Jane Doe";
              SdkForm.Submit; SdkForm.Submit] in
  List.length (SdkForm.calls w) = 2 /\ SdkForm.inFlight w = 2.
Proof. split; reflexivity. Qed.

(** C7, as amended.  In the form built on the client, once the card
    input has lost focus and has not been typed into since, a submit of a
    number that the Luhn validator rejects builds no card details and
    sends nothing: the calls made, the requests outstanding and the flag
    are as before.  In the form built on the payment service every submit
    on a mounted form sends a request whose card number is the input with
    its white space removed. *)
Theorem client_form_blocks_rejected_number
        (opts : ClientForm.PaymentFormOptions)
        (before after : list ClientForm.event) :
  forallb Traces.keeps_card_number after = true ->
  let w := ClientForm.run (ClientForm.create opts)
             (before ++ ClientForm.BlurCardNumber :: after) in
  (Utils.validateCardNumber (Traces.entered w) = false ->
   ClientForm.calls (ClientForm.step w ClientForm.Submit) = ClientForm.calls w
   /\ ClientForm.inFlight (ClientForm.step w ClientForm.Submit) = ClientForm.inFlight w
   /\ ClientForm.isSubmitting (ClientForm.form (ClientForm.step w ClientForm.Submit))
      = ClientForm.isSubmitting (ClientForm.form w))
  /\ (forall v : SdkForm.world,
        SdkForm.mounted (SdkForm.form v) = true ->
        exists r,
          SdkForm.calls (SdkForm.step v SdkForm.Submit)
          = (SdkForm.calls v ++ [r])%list
          /\ SdkForm.number (SdkForm.card r)
             = Js.removeAll Js.isSpace (SdkForm.cardNumberInput (SdkForm.form v))).
Proof.
  intros Hafter w. split.
  2:{ clear. intros v Hm. eexists. cbn [SdkForm.step].
      unfold SdkForm.handleSubmit. rewrite Hm. cbn [negb SdkForm.calls].
      split; [reflexivity|].
      unfold SdkForm.paymentRequest_of, SdkForm.parseExpiry. reflexivity. }
  intros Hrej.
  assert (Hblank : Traces.card_not_blank w).
  { apply run_card_not_blank. intros _. reflexivity. }
  assert (Hflag : Traces.rejected_is_flagged w).
  { unfold w, ClientForm.run. rewrite fold_left_app. cbn [fold_left].
    apply run_rejected_is_flagged; [exact Hafter|apply blur_flags]. }
  apply submit_blocked. unfold Dom.valid.
  destruct (Js.truthy_str (Traces.entered w)) eqn:He.
  - rewrite (Hflag He Hrej). apply andb_false_r.
  - unfold Traces.card_not_blank in Hblank.
    destruct (Traces.entered w) eqn:Hentered; [|discriminate He].
    rewrite (Hblank eq_refl). reflexivity.
Qed.

Lemma client_form_blocks_rejected_number_witness :
  let w := ClientForm.run (ClientForm.create Traces.sample_options)
             ([ClientForm.TypeCardNumber "4242424242424241"]
              ++ ClientForm.BlurCardNumber
                 :: [ClientForm.Fill (ClientForm.mkFields "Jane Doe" "" "12" "2030" "123")]) in
  Traces.entered w = "4242424242424241"
  /\ ClientForm.calls (ClientForm.step w ClientForm.Submit) = []
  /\ ClientForm.inFlight (ClientForm.step w ClientForm.Submit) = 0
  /\ ClientForm.isSubmitting (ClientForm.form (ClientForm.step w ClientForm.Submit))
     = false.
Proof.
  intros w. split; [reflexivity|].
  apply (proj1 (client_form_blocks_rejected_number Traces.sample_options
                  [ClientForm.TypeCardNumber "4242424242424241"]
                  [ClientForm.Fill (ClientForm.mkFields "Jane Doe" "" "12" "2030" "123")]
                  eq_refl)).
  reflexivity.
Defined.

(** C7 as stated fails on the form built on the payment service: its
    submit handler never calls the validator and sends the number. *)
Lemma sdk_form_submits_rejected_number :
  ~ (forall cfg events,
       let w := SdkForm.run (SdkForm.create cfg) events in
       Utils.validateCardNumber (SdkForm.cardNumberInput (SdkForm.form w)) = false ->
       SdkForm.calls (SdkForm.step w SdkForm.Submit) = SdkForm.calls w).
Proof.
  intros H.
  specialize (H Traces.sample_config
                [SdkForm.TypeCardNumber "4242424242424241";
                 SdkForm.Fill "12 / 30" "123" "Jane Doe"]
                eq_refl).
  vm_compute in H. discriminate H.
Qed.

Example sdk_form_request_sent :
  SdkForm.calls
    (SdkForm.run (SdkForm.create Traces.sample_config)
       [SdkForm.TypeCardNumber "4242424242424241";
        SdkForm.Fill "12 / 30" "123" "Jane Doe";
        SdkForm.Submit])
  = [SdkForm.mkRequest
       (SdkForm.payment Traces.sample_config)
       (SdkForm.mkCard "4242424242424241" "12" "30" "123" "Jane Doe")].
Proof. reflexivity. Qed.

(** On the client form the validity is refreshed on blur only: a submit
    that comes before the card input loses focus sends the number. *)
Example client_form_submit_before_blur :
  let w := ClientForm.run (ClientForm.create Traces.sample_options)
             [ClientForm.TypeCardNumber "4242424242424241";
              ClientForm.Fill (ClientForm.mkFields "Jane Doe" "" "12" "2030" "123");
              ClientForm.Submit] in
  Utils.validateCardNumber (Traces.entered w) = false
  /\ List.length (ClientForm.calls w) = 1.
Proof. split; reflexivity. Qed.

(** ** The examples of the specification *)

Example validate_examples :
  Utils.validateCardNumber "4242424242424242" = true
  /\ Utils.validateCardNumber "4242424242424241" = false
  /\ Utils.validateCardNumber "4242 4242-4242 4242" = true
  /\ Utils.validateCardNumber "123" = false
  /\ Utils.validateCardNumber "" = false.
Proof. repeat split; reflexivity. Qed.

Example detect_examples :
  Utils.detectCardType "4242424242424242" = Some "visa"
  /\ Utils.detectCardType "5105105105105100" = Some "mastercard"
  /\ Utils.detectCardType "378282246310005" = Some "amex"
  /\ Utils.detectCardType "6011111111111117" = Some "discover"
  /\ Utils.detectCardType "6221" = Some "discover"
  /\ Utils.detectCardType "6431" = None
  /\ Utils.detectCardType "1111" = None.
Proof. repeat split; reflexivity. Qed.

Example classify_examples :
  Client.onRejected
    (Axios.mkAxiosError (Some (Axios.mkResponse 401 Js.VNull)) true "")
  = Errors.Gateway
      (Errors.mkError "Authentication failed. Check your API key and merchant ID."
                      Errors.AUTHENTICATION (Errors.FromBody Js.VUndefined) None)
  /\ Client.onRejected (Axios.mkAxiosError None true "Network Error")
     = Errors.Gateway
         (Errors.mkError "Network error. Please check your connection."
                         Errors.NETWORK (Errors.FromBody Js.VUndefined) None)
  /\ Client.onRejected (Axios.mkAxiosError None false "")
     = Errors.Gateway
         (Errors.mkError "An unexpected error occurred"
                         Errors.UNKNOWN (Errors.FromBody Js.VUndefined) None).
Proof. repeat split; reflexivity. Qed.

(* ================================================================== *)
(** * Further properties of the sources *)

(** ** What the Luhn check catches *)

Section LuhnStrength.

Lemma validate_digits (d : string) :
  Dom.all_in Js.isDigit d = true ->
  Utils.validateCardNumber d
  = (13 <=? String.length d)%nat && (String.length d <=? 19)%nat
    && (Spec.luhn_checksum d =? 0)%Z.
Proof.
  intros Hd. unfold Utils.validateCardNumber.
  destruct d as [|c rest]; [reflexivity|].
  cbn [Js.truthy_str negb]. cbv zeta.
  rewrite (normalizeDigits_fixed _ Hd).
  rewrite luhn_loop_checksum by exact Hd.
  destruct (String.length (String c rest) <? 13)%nat eqn:E1;
    [apply Nat.ltb_lt in E1|apply Nat.ltb_ge in E1].
  - replace (13 <=? String.length (String c rest))%nat with false
      by (symmetry; apply Nat.leb_gt; exact E1).
    reflexivity.
  - replace (13 <=? String.length (String c rest))%nat with true
      by (symmetry; apply Nat.leb_le; exact E1).
    destruct (19 <? String.length (String c rest))%nat eqn:E2;
      [apply Nat.ltb_lt in E2|apply Nat.ltb_ge in E2].
    + replace (String.length (String c rest) <=? 19)%nat with false
        by (symmetry; apply Nat.leb_gt; exact E2).
      reflexivity.
    + replace (String.length (String c rest) <=? 19)%nat with true
        by (symmetry; apply Nat.leb_le; exact E2).
      reflexivity.
Qed.

Lemma luhn_sum_app (l1 l2 : list Z) (b : bool) :
  Spec.luhn_sum (l1 ++ l2) b
  = (Spec.luhn_sum l1 b + Spec.luhn_sum l2 (xorb b (Nat.odd (List.length l1))))%Z.
Proof.
  revert b. induction l1 as [|x l1 IH]; intros b.
  - cbn [app Spec.luhn_sum List.length Nat.odd Nat.even negb].
    rewrite xorb_false_r. lia.
  - cbn [app Spec.luhn_sum List.length]. rewrite IH.
    replace (xorb (negb b) (Nat.odd (List.length l1)))
      with (xorb b (Nat.odd (S (List.length l1)))).
    + lia.
    + rewrite Nat.odd_succ, <- Nat.negb_odd.
      destruct b, (Nat.odd (List.length l1)); reflexivity.
Qed.

Lemma list_ascii_app (s1 s2 : string) :
  list_ascii_of_string (s1 ++ s2)
  = (list_ascii_of_string s1 ++ list_ascii_of_string s2)%list.
Proof. induction s1 as [|c s1 IH]; simpl; congruence. Qed.

(** The Luhn sum of a digit string, split at one of its digits. *)
Lemma luhn_sum_at (pre post : string) (c : ascii) :
  Spec.luhn_sum (Spec.digits_from_right (pre ++ String c post)) false
  = (Spec.luhn_sum (Spec.digits_from_right post) false
     + Shapes.luhn_term (Nat.odd (String.length post)) (Js.digitValue c)
     + Spec.luhn_sum (Spec.digits_from_right pre)
                     (negb (Nat.odd (String.length post))))%Z.
Proof.
  unfold Spec.digits_from_right.
  rewrite list_ascii_app. cbn [list_ascii_of_string].
  rewrite map_app, rev_app_distr. cbn [map rev].
  rewrite <- app_assoc. cbn [app].
  rewrite luhn_sum_app. cbn [Spec.luhn_sum].
  rewrite length_rev, length_map, length_list_ascii.
  cbn [xorb]. unfold Shapes.luhn_term. lia.
Qed.

Lemma luhn_term_range (b : bool) (v : Z) :
  (0 <= v <= 9)%Z -> (0 <= Shapes.luhn_term b v <= 9)%Z.
Proof.
  intros H. unfold Shapes.luhn_term.
  destruct b; [|lia].
  destruct (9 <? 2 * v)%Z eqn:E; [apply Z.ltb_lt in E|apply Z.ltb_ge in E]; lia.
Qed.

(** Doubling with the subtraction of 9 permutes the ten digits. *)
Lemma luhn_term_injective (b : bool) (v w : Z) :
  (0 <= v <= 9)%Z -> (0 <= w <= 9)%Z ->
  Shapes.luhn_term b v = Shapes.luhn_term b w -> v = w.
Proof.
  intros Hv Hw. unfold Shapes.luhn_term.
  destruct b; [|auto].
  destruct (9 <? 2 * v)%Z eqn:E1; [apply Z.ltb_lt in E1|apply Z.ltb_ge in E1];
    (destruct (9 <? 2 * w)%Z eqn:E2; [apply Z.ltb_lt in E2|apply Z.ltb_ge in E2]);
    lia.
Qed.

Lemma digitValue_injective (a b : ascii) :
  Js.digitValue a = Js.digitValue b -> a = b.
Proof.
  unfold Js.digitValue. intros H.
  assert (Hn : nat_of_ascii a = nat_of_ascii b) by lia.
  rewrite <- (ascii_nat_embedding a), <- (ascii_nat_embedding b), Hn.
  reflexivity.
Qed.

Lemma all_in_app (cls : ascii -> bool) (s1 s2 : string) :
  Dom.all_in cls (s1 ++ s2) = Dom.all_in cls s1 && Dom.all_in cls s2.
Proof.
  induction s1 as [|c s1 IH]; simpl; [reflexivity|].
  rewrite IH, andb_assoc. reflexivity.
Qed.

Lemma length_app_string (s1 s2 : string) :
  String.length (s1 ++ s2) = String.length s1 + String.length s2.
Proof. induction s1 as [|c s1 IH]; simpl; congruence. Qed.

Lemma digit_char_value (c : ascii) :
  Js.isDigit c = true -> c = Prefixes.digit_char (Z.to_nat (Js.digitValue c)).
Proof.
  intros H. apply digit_cases in H. simpl in H.
  repeat (destruct H as [<- | H]; [reflexivity|]). contradiction.
Qed.

Lemma digit_char_digit (k : Z) :
  (0 <= k <= 9)%Z ->
  Js.isDigit (Prefixes.digit_char (Z.to_nat k)) = true
  /\ Js.digitValue (Prefixes.digit_char (Z.to_nat k)) = k.
Proof.
  intros H.
  assert (Hk : (k = 0 \/ k = 1 \/ k = 2 \/ k = 3 \/ k = 4 \/ k = 5 \/ k = 6
                \/ k = 7 \/ k = 8 \/ k = 9)%Z) by lia.
  repeat (destruct Hk as [-> | Hk]; [split; reflexivity|]).
  subst. split; reflexivity.
Qed.

End LuhnStrength.

(** X1. Replacing one digit of an accepted number by a different digit
    always gives a number that is rejected. *)
Theorem luhn_detects_single_digit_error (pre post : string) (a b : ascii) :
  Dom.all_in Js.isDigit (pre ++ String a post) = true ->
  Js.isDigit b = true ->
  a <> b ->
  Utils.validateCardNumber (pre ++ String a post) = true ->
  Utils.validateCardNumber (pre ++ String b post) = false.
Proof.
  intros Hd Hb Hab Hvalid.
  rewrite all_in_app in Hd. apply andb_true_iff in Hd as [Hpre Hd].
  cbn [Dom.all_in] in Hd. apply andb_true_iff in Hd as [Ha Hpost].
  assert (Hd1 : Dom.all_in Js.isDigit (pre ++ String a post) = true)
    by (rewrite all_in_app; cbn [Dom.all_in]; rewrite Hpre, Ha, Hpost; reflexivity).
  assert (Hd2 : Dom.all_in Js.isDigit (pre ++ String b post) = true)
    by (rewrite all_in_app; cbn [Dom.all_in]; rewrite Hpre, Hb, Hpost; reflexivity).
  rewrite validate_digits in Hvalid by exact Hd1.
  rewrite validate_digits by exact Hd2.
  apply andb_true_iff in Hvalid as [_ Hsum]. apply Z.eqb_eq in Hsum.
  apply andb_false_iff. right. apply Z.eqb_neq. intros Hsum'.
  unfold Spec.luhn_checksum in Hsum, Hsum'.
  rewrite luhn_sum_at in Hsum, Hsum'.
  pose proof (digitValue_range a Ha) as Ra.
  pose proof (digitValue_range b Hb) as Rb.
  pose proof (luhn_term_range (Nat.odd (String.length post)) _ Ra) as Ta.
  pose proof (luhn_term_range (Nat.odd (String.length post)) _ Rb) as Tb.
  assert (Heq : Shapes.luhn_term (Nat.odd (String.length post)) (Js.digitValue a)
                = Shapes.luhn_term (Nat.odd (String.length post)) (Js.digitValue b)).
  { revert Hsum Hsum' Ta Tb.
    generalize (Shapes.luhn_term (Nat.odd (String.length post)) (Js.digitValue a)).
    generalize (Shapes.luhn_term (Nat.odd (String.length post)) (Js.digitValue b)).
    generalize (Spec.luhn_sum (Spec.digits_from_right post) false).
    generalize (Spec.luhn_sum (Spec.digits_from_right pre)
                              (negb (Nat.odd (String.length post)))).
    intros s2 s1 tb ta H1 H2 Ta Tb.
    apply Z.mod_divide in H1; [|lia]. apply Z.mod_divide in H2; [|lia].
    destruct H1 as [q1 H1], H2 as [q2 H2]. lia. }
  apply luhn_term_injective in Heq; [|assumption|assumption].
  apply Hab, digitValue_injective, Heq.
Qed.

Lemma luhn_detects_single_digit_error_witness :
  Utils.validateCardNumber "4242424242424242" = true
  /\ Utils.validateCardNumber "4242424742424242" = false.
Proof.
  split; [reflexivity|].
  apply (luhn_detects_single_digit_error "4242424" "42424242" "2" "7");
    [reflexivity|reflexivity|discriminate|reflexivity].
Defined.

(** X2. A payload of 12 to 18 digits is completed to an accepted number
    by exactly one check digit. *)
Theorem luhn_check_digit_unique (payload : string) :
  Dom.all_in Js.isDigit payload = true ->
  12 <= String.length payload <= 18 ->
  Js.isDigit (Shapes.check_digit payload) = true
  /\ forall c, Js.isDigit c = true ->
       (Utils.validateCardNumber (payload ++ String c "") = true
        <-> c = Shapes.check_digit payload).
Proof.
  intros Hp Hlen.
  assert (Hs : (0 <= Spec.luhn_sum (Spec.digits_from_right payload) true)%Z)
    by (apply luhn_sum_nonneg, digits_from_right_range, Hp).
  unfold Shapes.check_digit.
  set (s := Spec.luhn_sum (Spec.digits_from_right payload) true) in *.
  assert (Hk : (0 <= (10 - s mod 10) mod 10 <= 9)%Z)
    by (pose proof (Z.mod_pos_bound (10 - s mod 10) 10); lia).
  destruct (digit_char_digit _ Hk) as [Hkd Hkv].
  split; [exact Hkd|]. intros c Hc.
  assert (Hd : Dom.all_in Js.isDigit (payload ++ String c "") = true)
    by (rewrite all_in_app; cbn [Dom.all_in]; rewrite Hp, Hc; reflexivity).
  rewrite validate_digits by exact Hd.
  rewrite length_app_string. cbn [String.length].
  replace (13 <=? String.length payload + 1)%nat with true
    by (symmetry; apply Nat.leb_le; lia).
  replace (String.length payload + 1 <=? 19)%nat with true
    by (symmetry; apply Nat.leb_le; lia).
  cbn [andb]. rewrite Z.eqb_eq.
  unfold Spec.luhn_checksum. rewrite luhn_sum_at.
  cbn [String.length Nat.odd Nat.even negb Spec.digits_from_right
       list_ascii_of_string map rev Spec.luhn_sum].
  fold (Spec.digits_from_right payload). fold s.
  unfold Shapes.luhn_term.
  pose proof (digitValue_range c Hc) as Rc.
  split.
  - intros H. rewrite (digit_char_value c Hc). f_equal. f_equal.
    revert H. generalize (Js.digitValue c) Rc. intros v Rv H.
    Z.div_mod_to_equations. lia.
  - intros ->. rewrite Hkv. Z.div_mod_to_equations. lia.
Qed.

Lemma luhn_check_digit_unique_witness :
  Shapes.check_digit "424242424242424" = "2"%char
  /\ Utils.validateCardNumber "4242424242424242" = true.
Proof.
  split; [reflexivity|].
  refine (proj2 (proj2 (luhn_check_digit_unique "424242424242424" eq_refl _)
                       "2"%char eq_refl) eq_refl).
  cbn. lia.
Defined.

(** ** The brand patterns *)

Section BrandPatterns.

Import Permutation.

(** Each pattern fixes the first character of what it matches. *)
Lemma pattern_first_char (n : string) (r : Utils.regex) (s : string) :
  In (n, r) Utils.patterns -> Utils.test r s = true ->
  exists rest,
    (n = "visa" /\ s = String "4" rest) \/ (n = "mastercard" /\ s = String "5" rest)
    \/ (n = "amex" /\ s = String "3" rest) \/ (n = "discover" /\ s = String "6" rest).
Proof.
  intros Hin Ht. unfold Utils.patterns in Hin. simpl in Hin.
  destruct s as [|c rest]; [|exists rest].
  - repeat (destruct Hin as [Hin|Hin]; [injection Hin as <- <-; discriminate Ht|]).
    contradiction.
  - destruct Hin as [Hin|[Hin|[Hin|[Hin|[]]]]]; injection Hin as <- <-;
      unfold Utils.test in Ht; simpl in Ht.
    + left. destruct (Ascii.eqb c "4") eqn:E; [|discriminate Ht].
      apply Ascii.eqb_eq in E. subst. auto.
    + right. left. destruct (Ascii.eqb c "5") eqn:E; [|discriminate Ht].
      apply Ascii.eqb_eq in E. subst. auto.
    + right. right. left. destruct (Ascii.eqb c "3") eqn:E; [|discriminate Ht].
      apply Ascii.eqb_eq in E. subst. auto.
    + right. right. right. destruct (Ascii.eqb c "6") eqn:E; [|discriminate Ht].
      apply Ascii.eqb_eq in E. subst. auto.
Qed.

(** No string is matched by the patterns of two brands. *)
Lemma patterns_exclusive (s n1 n2 : string) (r1 r2 : Utils.regex) :
  In (n1, r1) Utils.patterns -> In (n2, r2) Utils.patterns ->
  Utils.test r1 s = true -> Utils.test r2 s = true -> n1 = n2.
Proof.
  intros H1 H2 T1 T2.
  destruct (pattern_first_char _ _ _ H1 T1) as [rest1 C1].
  destruct (pattern_first_char _ _ _ H2 T2) as [rest2 C2].
  destruct C1 as [[-> E1]|[[-> E1]|[[-> E1]|[-> E1]]]];
    destruct C2 as [[-> E2]|[[-> E2]|[[-> E2]|[-> E2]]]];
    try reflexivity; rewrite E1 in E2; discriminate E2.
Qed.

Lemma first_match_some (entries : list (string * Utils.regex)) (s n : string) :
  Utils.first_match entries s = Some n ->
  exists r, In (n, r) entries /\ Utils.test r s = true.
Proof.
  induction entries as [|[m r] rest IH]; simpl; [discriminate|].
  destruct (Utils.test r s) eqn:E.
  - intros H. injection H as <-. eauto.
  - intros H. destruct (IH H) as (r' & Hin & Ht). eauto.
Qed.

Lemma first_match_none (entries : list (string * Utils.regex)) (s : string) :
  Utils.first_match entries s = None ->
  forall n r, In (n, r) entries -> Utils.test r s = false.
Proof.
  induction entries as [|[m r] rest IH]; simpl; [contradiction|].
  destruct (Utils.test r s) eqn:E; [discriminate|].
  intros H n r' [Hin|Hin]; [injection Hin as <- <-; exact E|eauto].
Qed.

Lemma first_match_prefix (d : string) :
  Utils.first_match Utils.patterns d
  = Utils.first_match Utils.patterns (substring 0 4 d).
Proof. destruct d as [|a [|b [|c [|e rest]]]]; reflexivity. Qed.

Lemma detect_first_match (s : string) :
  Utils.detectCardType s = Utils.first_match Utils.patterns (Utils.normalizeDigits s).
Proof. destruct s; reflexivity. Qed.

Lemma all_in_substring (cls : ascii -> bool) (s : string) (n m : nat) :
  Dom.all_in cls s = true -> Dom.all_in cls (substring n m s) = true.
Proof.
  revert n m. induction s as [|c rest IH]; intros n m H.
  - destruct n, m; reflexivity.
  - simpl in H. apply andb_true_iff in H as [Hc Hrest].
    destruct n as [|n]; [destruct m as [|m]|]; simpl;
      rewrite ?Hc; simpl; auto.
Qed.

End BrandPatterns.

(** X3. No input is matched by the patterns of two brands, so the brand
    found does not depend on the order in which the patterns are tried. *)
Theorem detection_is_order_free (entries : list (string * Utils.regex)) (s : string) :
  Permutation.Permutation entries Utils.patterns ->
  Utils.first_match entries s = Utils.first_match Utils.patterns s.
Proof.
  intros Hperm.
  destruct (Utils.first_match entries s) as [n|] eqn:E1;
    destruct (Utils.first_match Utils.patterns s) as [m|] eqn:E2; try reflexivity.
  - apply first_match_some in E1 as (r1 & H1 & T1).
    apply first_match_some in E2 as (r2 & H2 & T2).
    f_equal. apply (patterns_exclusive s n m r1 r2); try assumption.
    apply (Permutation.Permutation_in _ Hperm H1).
  - apply first_match_some in E1 as (r1 & H1 & T1).
    eapply Permutation.Permutation_in in H1; [|exact Hperm].
    rewrite (first_match_none _ _ E2 _ _ H1) in T1. discriminate T1.
  - apply first_match_some in E2 as (r2 & H2 & T2).
    eapply Permutation.Permutation_in in H2;
      [|apply Permutation.Permutation_sym; exact Hperm].
    rewrite (first_match_none _ _ E1 _ _ H2) in T2. discriminate T2.
Qed.

Lemma detection_is_order_free_witness :
  Utils.first_match (rev Utils.patterns) "378282246310005" = Some "amex".
Proof.
  apply (detection_is_order_free (rev Utils.patterns) "378282246310005").
  apply Permutation.Permutation_sym, Permutation.Permutation_rev.
Defined.

(** X4. The brand of an input is the brand of its first four digits. *)
Theorem brand_decided_by_four_digits (s : string) :
  Utils.detectCardType s
  = Utils.detectCardType (substring 0 4 (Utils.normalizeDigits s)).
Proof.
  rewrite !detect_first_match.
  rewrite (normalizeDigits_fixed (substring 0 4 (Utils.normalizeDigits s)))
    by apply all_in_substring, normalizeDigits_all_digits.
  apply first_match_prefix.
Qed.

(** ** The card input of the two forms *)

Section CardInput.

Lemma space_not_digit : Js.isDigit " " = false.
Proof. reflexivity. Qed.

(** Normalising grouped digits gives the digits back. *)
Lemma normalize_group4 (d : string) :
  Dom.all_in Js.isDigit d = true ->
  forall k, Utils.normalizeDigits (Dom.group4 d k) = d.
Proof.
  unfold Utils.normalizeDigits.
  induction d as [|c rest IH]; intros Hd k; [reflexivity|].
  simpl in Hd. apply andb_true_iff in Hd as [Hc Hrest].
  simpl. destruct (k =? 4)%nat; simpl; rewrite ?Hc; simpl; f_equal; auto.
Qed.

Lemma formatted_strip (d : string) :
  Dom.all_in Js.isDigit d = true ->
  Js.removeAll Js.isSpace (Shapes.formatted d) = d
  /\ Utils.normalizeDigits (Shapes.formatted d) = d.
Proof.
  intros Hd. unfold Shapes.formatted.
  destruct (0 <? String.length d)%nat.
  - split; [apply group4_reversible|apply normalize_group4]; exact Hd.
  - destruct d; [split; reflexivity|].
    split; [|apply normalizeDigits_fixed; exact Hd].
    clear - Hd. induction (String a d) as [|c rest IH]; [reflexivity|].
    simpl in Hd. apply andb_true_iff in Hd as [Hc Hrest].
    simpl. rewrite (digit_not_space c Hc). f_equal. auto.
Qed.

(** What the two input handlers leave in the card input. *)
Lemma client_input_value (typed : string) (f : ClientForm.PaymentForm) :
  ClientForm.f_cardNumber
    (ClientForm.fields (ClientForm.handleCardNumberInput typed f))
  = Shapes.formatted (Utils.normalizeDigits typed).
Proof.
  unfold ClientForm.handleCardNumberInput. cbv zeta.
  match goal with
  | |- context [Utils.detectCardType ?v] => destruct (Utils.detectCardType v)
  end; reflexivity.
Qed.

Lemma sdk_input_value (typed : string) (f : SdkForm.PaymentForm) :
  SdkForm.cardNumberInput (SdkForm.formatCardNumber typed f)
  = Shapes.formatted (Utils.normalizeDigits typed).
Proof. reflexivity. Qed.

Lemma div4_step (n : nat) : (n + 4) / 4 = S (n / 4).
Proof.
  change (n + 4) with (n + 1 * 4).
  rewrite Nat.div_add by discriminate. lia.
Qed.

(** The length of grouped digits, with [k] characters in the group that
    is being filled. *)
Lemma group4_length (d : string) :
  forall k, k <= 4 ->
    String.length (Dom.group4 d k) = String.length d + (String.length d + k - 1) / 4.
Proof.
  induction d as [|c rest IH]; intros k Hk.
  - cbn [Dom.group4 String.length]. rewrite Nat.div_small by lia. reflexivity.
  - cbn [Dom.group4 String.length].
    destruct (k =? 4)%nat eqn:E;
      [apply Nat.eqb_eq in E|apply Nat.eqb_neq in E]; cbn [String.length].
    + subst k. rewrite IH by lia.
      replace (String.length rest + 1 - 1) with (String.length rest) by lia.
      replace (S (String.length rest) + 4 - 1) with (String.length rest + 4) by lia.
      rewrite div4_step. lia.
    + rewrite IH by lia.
      replace (S (String.length rest) + k - 1) with (String.length rest + S k - 1)
        by lia.
      reflexivity.
Qed.

Lemma formatted_length (d : string) :
  String.length (Shapes.formatted d)
  = String.length d + (String.length d - 1) / 4.
Proof.
  unfold Shapes.formatted.
  destruct (0 <? String.length d)%nat eqn:E.
  - rewrite group4_length by lia. rewrite Nat.add_0_r. reflexivity.
  - apply Nat.ltb_ge in E. destruct d; [reflexivity|simpl in E; lia].
Qed.

(** The validator on a string and on its digits (the fact of C10, for
    use below). *)
Lemma validate_normalized (s : string) :
  Utils.validateCardNumber (Utils.normalizeDigits s) = Utils.validateCardNumber s.
Proof.
  unfold Utils.validateCardNumber. rewrite normalizeDigits_idem.
  destruct s as [|c rest]; [reflexivity|].
  destruct (Utils.normalizeDigits (String c rest)) eqn:Hd; reflexivity.
Qed.

End CardInput.

(** X5. In both forms the card number that a submit hands on is exactly
    the digits of the text typed into the card input: the grouping that
    the input handler adds is undone by the submit handler. *)
Theorem card_number_sent_is_digits_typed (typed : string) :
  (forall f, ClientForm.cardNumber
               (ClientForm.cardDetails_of (ClientForm.handleCardNumberInput typed f))
             = Utils.normalizeDigits typed)
  /\ (forall f, SdkForm.number
                  (SdkForm.card
                     (SdkForm.paymentRequest_of (SdkForm.formatCardNumber typed f)))
                = Utils.normalizeDigits typed).
Proof.
  split; intros f.
  - unfold ClientForm.cardDetails_of. cbn [ClientForm.cardNumber].
    rewrite client_input_value.
    apply formatted_strip, normalizeDigits_all_digits.
  - unfold SdkForm.paymentRequest_of, SdkForm.parseExpiry.
    cbn [SdkForm.card SdkForm.number]. rewrite sdk_input_value.
    apply formatted_strip, normalizeDigits_all_digits.
Qed.

(** X6. The card input handler is stable: run on the text it produced it
    leaves that text as it is; and the text it produces for [n] digits
    has [n + (n - 1) / 4] characters, so it fits the 19 characters of the
    input exactly when there are at most 16 digits. *)
Theorem card_format_stable
        (typed : string) (f : ClientForm.PaymentForm) (g : SdkForm.PaymentForm) :
  let shown := ClientForm.f_cardNumber
                 (ClientForm.fields (ClientForm.handleCardNumberInput typed f)) in
  let n := String.length (Utils.normalizeDigits typed) in
  SdkForm.cardNumberInput (SdkForm.formatCardNumber typed g) = shown
  /\ ClientForm.f_cardNumber
       (ClientForm.fields (ClientForm.handleCardNumberInput shown f)) = shown
  /\ SdkForm.cardNumberInput (SdkForm.formatCardNumber shown g) = shown
  /\ String.length shown = n + (n - 1) / 4
  /\ (String.length shown <= 19 <-> n <= 16).
Proof.
  intros shown n. unfold shown.
  rewrite !client_input_value, !sdk_input_value.
  pose proof (normalizeDigits_all_digits typed) as Hd.
  rewrite (proj2 (formatted_strip _ Hd)).
  repeat split; try reflexivity.
  - apply formatted_length.
  - rewrite formatted_length. fold n. intros H.
    pose proof (Nat.div_mod_eq (n - 1) 4) as Hq.
    pose proof (Nat.mod_upper_bound (n - 1) 4 ltac:(discriminate)) as Hr. lia.
  - rewrite formatted_length. fold n. intros H.
    pose proof (Nat.div_mod_eq (n - 1) 4) as Hq.
    pose proof (Nat.mod_upper_bound (n - 1) 4 ltac:(discriminate)) as Hr. lia.
Qed.

(** X7. After typing and leaving the card input, the custom validity of
    the input is the error text exactly when the typed text has a digit
    and the validator rejects it. *)
Theorem blur_validity_follows_validator (typed : string) (f : ClientForm.PaymentForm) :
  ClientForm.cardNumberValidity
    (ClientForm.validateCardNumber (ClientForm.handleCardNumberInput typed f))
  = if Js.truthy_str (Utils.normalizeDigits typed)
       && negb (Utils.validateCardNumber typed)
    then "Invalid card number" else "".
Proof.
  unfold ClientForm.validateCardNumber. cbn [ClientForm.cardNumberValidity].
  rewrite client_input_value.
  rewrite (proj1 (formatted_strip _ (normalizeDigits_all_digits typed))).
  rewrite validate_normalized. reflexivity.
Qed.

Lemma card_format_stable_witness :
  String.length
    (ClientForm.f_cardNumber
       (ClientForm.fields
          (ClientForm.handleCardNumberInput "4242-4242-4242-4242"
             (ClientForm.form (ClientForm.create Traces.sample_options))))) <= 19.
Proof.
  apply (proj2 (proj2 (proj2 (proj2
           (card_format_stable "4242-4242-4242-4242"
              (ClientForm.form (ClientForm.create Traces.sample_options))
              (SdkForm.form (SdkForm.create Traces.sample_config))))))).
  vm_compute. repeat constructor.
Defined.

(** ** What the client form sends *)

Section ClientCalls.

Import ClientForm Shapes.

Lemma pattern_facts (cls : ascii -> bool) (lo hi : nat) (v : string) :
  Dom.pattern cls lo hi v = true ->
  Dom.all_in cls v = true /\ lo <= String.length v <= hi.
Proof.
  unfold Dom.pattern. intros H.
  apply andb_true_iff in H as [H Hhi]. apply andb_true_iff in H as [Hall Hlo].
  apply Nat.leb_le in Hhi, Hlo. auto.
Qed.

Lemma valid_facts (p : string -> bool) (custom value : string) :
  Dom.valid (Some p) custom value = true ->
  value <> "" /\ p value = true /\ custom = "".
Proof.
  unfold Dom.valid. intros H.
  apply andb_true_iff in H as [H Hc]. apply andb_true_iff in H as [Hv Hp].
  repeat split; auto.
  - intros ->. discriminate Hv.
  - destruct custom; [reflexivity|discriminate Hc].
Qed.

(** Reading on from [Some a], a digit string gives a number whose
    leading part is [a]. *)
Lemma leadingDigits_bounds (s : string) :
  Dom.all_in Js.isDigit s = true ->
  forall a, (0 <= a)%Z ->
    exists z, Js.leadingDigits s (Some a) = Some z
              /\ (a * 10 ^ Z.of_nat (String.length s) <= z
                  < (a + 1) * 10 ^ Z.of_nat (String.length s))%Z.
Proof.
  induction s as [|c rest IH]; intros Hs a Ha.
  - exists a. split; [reflexivity|]. cbn [String.length]. simpl. lia.
  - cbn [Dom.all_in] in Hs. apply andb_true_iff in Hs as [Hc Hrest].
    cbn [Js.leadingDigits]. rewrite Hc.
    pose proof (digitValue_range c Hc) as Rc.
    destruct (IH Hrest (10 * a + Js.digitValue c)%Z ltac:(lia)) as (z & Hz & Hb).
    exists z. split; [exact Hz|].
    cbn [String.length]. rewrite Nat2Z.inj_succ, Z.pow_succ_r by lia.
    assert (Hp : (0 < 10 ^ Z.of_nat (String.length rest))%Z)
      by (apply Z.pow_pos_nonneg; lia).
    nia.
Qed.

(** [parseInt] of a non-empty digit string is a number below the power
    of ten of its length. *)
Lemma parseInt_digits (s : string) :
  Dom.all_in Js.isDigit s = true -> s <> "" ->
  exists z, Js.parseInt s = Js.Num z
            /\ (0 <= z < 10 ^ Z.of_nat (String.length s))%Z.
Proof.
  intros Hs Hne. destruct s as [|c rest]; [contradiction|].
  cbn [Dom.all_in] in Hs. apply andb_true_iff in Hs as [Hc Hrest].
  pose proof (digitValue_range c Hc) as Rc.
  destruct (leadingDigits_bounds rest Hrest (Js.digitValue c) ltac:(lia))
    as (z & Hz & Hb).
  exists z. split.
  - assert (Hparse : Js.parseInt (String c rest)
                     = match Js.leadingDigits (String c rest) None with
                       | Some z => Js.Num z
                       | None => Js.NaN
                       end).
    { apply digit_cases in Hc. simpl in Hc.
      repeat (destruct Hc as [<- | Hc]; [reflexivity|]). contradiction. }
    rewrite Hparse. cbn [Js.leadingDigits].
    replace (Js.isDigit c) with true
      by (symmetry; apply digit_cases in Hc; simpl in Hc;
          repeat (destruct Hc as [<- | Hc]; [reflexivity|]); contradiction).
    replace (10 * 0 + Js.digitValue c)%Z with (Js.digitValue c) by lia.
    rewrite Hz. reflexivity.
  - cbn [String.length]. rewrite Nat2Z.inj_succ, Z.pow_succ_r by lia.
    assert (Hp : (0 < 10 ^ Z.of_nat (String.length rest))%Z)
      by (apply Z.pow_pos_nonneg; lia).
    nia.
Qed.

Lemma parse_between (s : string) (lo hi : nat) (bound : Z) :
  Dom.pattern Js.isDigit lo hi s = true -> 1 <= lo ->
  (10 ^ Z.of_nat hi = bound + 1)%Z ->
  num_between 0 bound (Js.parseInt s).
Proof.
  intros Hp Hlo Hb. apply pattern_facts in Hp as [Hall Hlen].
  destruct (parseInt_digits s Hall) as (z & Hz & Hr).
  - intros ->. simpl in Hlen. lia.
  - exists z. split; [exact Hz|].
    assert (10 ^ Z.of_nat (String.length s) <= 10 ^ Z.of_nat hi)%Z
      by (apply Z.pow_le_mono_r; lia).
    lia.
Qed.

(** A valid card input holds 11 to 16 grouped digits. *)
Lemma grouped_valid (text custom : string) :
  grouped text ->
  Dom.valid (Some (Dom.pattern (fun c => Js.isDigit c || Js.isSpace c) 13 19))
            custom text = true ->
  Dom.all_in Js.isDigit (Js.removeAll Js.isSpace text) = true
  /\ 11 <= String.length (Js.removeAll Js.isSpace text) <= 16.
Proof.
  intros (d & Hd & ->) Hv.
  apply valid_facts in Hv as (_ & Hp & _).
  apply pattern_facts in Hp as [_ Hlen].
  rewrite (proj1 (formatted_strip d Hd)). split; [exact Hd|].
  rewrite formatted_length in Hlen.
  pose proof (Nat.div_mod_eq (String.length d - 1) 4) as Hq.
  pose proof (Nat.mod_upper_bound (String.length d - 1) 4 ltac:(discriminate)) as Hr.
  lia.
Qed.

Lemma grouped_empty : grouped "".
Proof. exists "". split; reflexivity. Qed.

Lemma caught_form_steady (error : Errors.exn) (w : world) :
  options (form (caught error w)) = options (form w)
  /\ fields (form (caught error w)) = fields (form w)
  /\ cardType (form (caught error w)) = cardType (form w).
Proof. unfold caught. simpl. destruct (onError _); auto. Qed.

Lemma step_steady (opts : PaymentFormOptions) (w : world) (e : event) :
  steady opts w -> steady opts (step w e).
Proof.
  unfold steady. intros (Ho & Hg & Hc). destruct e; cbn [step].
  - cbn [with_form form calls]. repeat split.
    + unfold handleCardNumberInput. cbv zeta.
      match goal with
      | |- context [Utils.detectCardType ?v] => destruct (Utils.detectCardType v)
      end; exact Ho.
    + rewrite client_input_value.
      exists (Utils.normalizeDigits typed).
      split; [apply normalizeDigits_all_digits|reflexivity].
    + exact Hc.
  - auto.
  - auto.
  - unfold handleSubmit.
    destruct (isSubmitting (form w)); [auto|].
    destruct (checkValidity (clearError (form w))) eqn:Hv; [|auto].
    cbn [negb form calls set_submitting clearError options fields].
    repeat split; auto.
    apply Forall_app. split; [exact Hc|]. constructor; [|constructor].
    unfold checkValidity in Hv. cbn [clearError fields cardNumberValidity] in Hv.
    repeat (apply andb_true_iff in Hv as [Hv ?]).
    unfold well_formed, cardDetails_of.
    cbn [fst snd cardNumber expiryMonth expiryYear cvv cardholderName
         options fields set_submitting clearError].
    match goal with
    | H : Dom.valid (Some (Dom.pattern (fun c => Js.isDigit c || Js.isSpace c) _ _))
                    _ _ = true |- _ =>
        destruct (grouped_valid _ _ Hg H) as [Hdig Hlen]
    end.
    repeat match goal with
           | H : Dom.valid (Some _) _ _ = true |- _ =>
               apply valid_facts in H as (? & ? & _)
           end.
    repeat match goal with
           | H : Dom.pattern Js.isDigit 3 4 _ = true |- _ =>
               apply pattern_facts in H as [? ?]
           end.
    split; [rewrite Ho; reflexivity|].
    split; [exact Hdig|]. split; [exact Hlen|].
    split; [eapply parse_between; [eassumption|lia|reflexivity]|].
    split; [eapply parse_between; [eassumption|lia|reflexivity]|].
    split; [assumption|]. split; [assumption|].
    intros Hname. rewrite Hname in Hv. discriminate Hv.
  - destruct (inFlight w); [auto|].
    unfold handleSubmit_settled. cbn [form calls set_submitting options fields].
    destruct (Client.processCardPayment o) as [error|result].
    + destruct (caught_form_steady error w) as (-> & -> & _).
      rewrite caught_calls. auto.
    + destruct (onSuccess (options (form w))) as [cb|].
      * destruct (cb result).
        -- destruct (caught_form_steady e (notify w (Succeeded result)))
             as (-> & -> & _).
           rewrite caught_calls. auto.
        -- cbn. repeat split; auto. apply grouped_empty.
      * cbn. repeat split; auto. apply grouped_empty.
Qed.

End ClientCalls.

(** X8. Every call that the client form ever makes carries the payment
    details of its options, a card number of 11 to 16 digits, a month
    between 0 and 99 and a year between 0 and 9999, a security code of 3
    or 4 digits and a cardholder name that is not empty; the Luhn check
    and the range of the month are not among what is guaranteed. *)
Theorem client_form_calls_well_formed
        (opts : ClientForm.PaymentFormOptions) (events : list ClientForm.event) :
  Forall (Shapes.well_formed opts)
         (ClientForm.calls (ClientForm.run (ClientForm.create opts) events)).
Proof.
  assert (H : Shapes.steady opts (ClientForm.run (ClientForm.create opts) events)).
  { unfold ClientForm.run.
    assert (H0 : Shapes.steady opts (ClientForm.create opts))
      by (repeat split; [apply grouped_empty|constructor]).
    revert H0. generalize (ClientForm.create opts).
    induction events as [|e events IH]; intros w Hw; [exact Hw|].
    cbn [fold_left]. apply IH, step_steady, Hw. }
  apply H.
Qed.

(** ** What the forms show and keep when a request settles *)

(** X9. The card-type indicator of the client form is set to the brand of
    the typed text whenever that text has a brand, and is otherwise left
    as it was; no event ever removes it once it is set. *)
Theorem card_type_indicator_sticky (w : ClientForm.world) :
  (forall typed,
     ClientForm.cardType
       (ClientForm.form (ClientForm.step w (ClientForm.TypeCardNumber typed)))
     = match Utils.detectCardType typed with
       | Some t => Some t
       | None => ClientForm.cardType (ClientForm.form w)
       end)
  /\ (forall events,
        ClientForm.cardType (ClientForm.form w) <> None ->
        ClientForm.cardType (ClientForm.form (ClientForm.run w events)) <> None).
Proof.
  split.
  - intros typed. cbn [ClientForm.step ClientForm.with_form ClientForm.form].
    unfold ClientForm.handleCardNumberInput. cbv zeta.
    fold (Shapes.formatted (Utils.normalizeDigits typed)).
    assert (Hd : Utils.detectCardType (Shapes.formatted (Utils.normalizeDigits typed))
                 = Utils.detectCardType typed).
    { rewrite !detect_first_match.
      rewrite (proj2 (formatted_strip _ (normalizeDigits_all_digits typed))).
      reflexivity. }
    rewrite Hd. destruct (Utils.detectCardType typed); reflexivity.
  - intros events. unfold ClientForm.run. revert w.
    induction events as [|e events IH]; intros w Hw; [exact Hw|].
    cbn [fold_left]. apply IH. destruct e; cbn [ClientForm.step].
    + cbn [ClientForm.with_form ClientForm.form].
      unfold ClientForm.handleCardNumberInput. cbv zeta.
      match goal with
      | |- context [Utils.detectCardType ?v] => destruct (Utils.detectCardType v)
      end; [discriminate|exact Hw].
    + exact Hw.
    + exact Hw.
    + unfold ClientForm.handleSubmit.
      destruct (ClientForm.isSubmitting (ClientForm.form w)); [exact Hw|].
      destruct (ClientForm.checkValidity _); exact Hw.
    + destruct (ClientForm.inFlight w); [exact Hw|].
      unfold ClientForm.handleSubmit_settled.
      cbn [ClientForm.form ClientForm.set_submitting ClientForm.cardType].
      destruct (Client.processCardPayment o) as [error|result].
      * rewrite (proj2 (proj2 (caught_form_steady error w))). exact Hw.
      * destruct (ClientForm.onSuccess _) as [cb|]; [|exact Hw].
        destruct (cb result); [|exact Hw].
        rewrite (proj2 (proj2 (caught_form_steady _ _))). exact Hw.
Qed.

Lemma card_type_indicator_sticky_witness :
  ClientForm.cardType
    (ClientForm.form
       (ClientForm.run
          (ClientForm.step (ClientForm.create Traces.sample_options)
                           (ClientForm.TypeCardNumber "4"))
          [ClientForm.TypeCardNumber "1111"]))
  <> None.
Proof.
  apply (proj2 (card_type_indicator_sticky
                  (ClientForm.step (ClientForm.create Traces.sample_options)
                                   (ClientForm.TypeCardNumber "4")))
               [ClientForm.TypeCardNumber "1111"]).
  discriminate.
Defined.

(** X10. When the request of the client form fails, the form shows the
    message of the error record that the client threw, hands that record
    to [onError], keeps what was typed, and is ready for another submit. *)
Theorem client_form_failure_display
        (o : Axios.outcome) (w : ClientForm.world) (error : Errors.exn) :
  Client.processCardPayment o = inl error ->
  let w' := ClientForm.handleSubmit_settled o w in
  exists g,
    error = Errors.Gateway g
    /\ ClientForm.errorShown (ClientForm.form w') = true
    /\ ClientForm.errorText (ClientForm.form w') = Errors.message g
    /\ ClientForm.fields (ClientForm.form w') = ClientForm.fields (ClientForm.form w)
    /\ ClientForm.isSubmitting (ClientForm.form w') = false
    /\ ClientForm.submitDisabled (ClientForm.form w') = false
    /\ ClientForm.notices w'
       = match ClientForm.onError (ClientForm.options (ClientForm.form w)) with
         | Some _ => (ClientForm.notices w ++ [ClientForm.Failed error])%list
         | None => ClientForm.notices w
         end.
Proof.
  intros H w'.
  destruct (client_throws_gateway Client.ProcessCardPayment o error H) as [g ->].
  exists g. unfold w', ClientForm.handleSubmit_settled. rewrite H.
  unfold ClientForm.caught. cbn.
  destruct (ClientForm.onError (ClientForm.options (ClientForm.form w)));
    repeat split; reflexivity.
Qed.

Lemma client_form_failure_display_witness :
  ClientForm.errorText
    (ClientForm.form
       (ClientForm.handleSubmit_settled
          (Axios.Rejected (Axios.mkAxiosError None true "Network Error"))
          (ClientForm.create Traces.sample_options)))
  = "Network error. Please check your connection.".
Proof.
  destruct (client_form_failure_display
              (Axios.Rejected (Axios.mkAxiosError None true "Network Error"))
              (ClientForm.create Traces.sample_options) _ eq_refl)
    as (g & Hg & _ & Ht & _).
  injection Hg as <-. exact Ht.
Defined.

(** X11. When the request of the client form succeeds and the success
    callback, if any, returns, the form is emptied, and a further submit
    sends nothing until the fields are filled again. *)
Theorem client_form_success_then_blocked
        (o : Axios.outcome) (w : ClientForm.world) (result : Js.value) :
  Client.processCardPayment o = inr result ->
  match ClientForm.onSuccess (ClientForm.options (ClientForm.form w)) with
  | Some cb => cb result = None
  | None => True
  end ->
  let w' := ClientForm.handleSubmit_settled o w in
  ClientForm.fields (ClientForm.form w') = ClientForm.mkFields "" "" "" "" ""
  /\ ClientForm.isSubmitting (ClientForm.form w') = false
  /\ ClientForm.calls (ClientForm.step w' ClientForm.Submit) = ClientForm.calls w
  /\ ClientForm.inFlight (ClientForm.step w' ClientForm.Submit)
     = pred (ClientForm.inFlight w).
Proof.
  intros H Hcb w'.
  assert (Hw : ClientForm.fields (ClientForm.form w') = ClientForm.mkFields "" "" "" "" ""
               /\ ClientForm.calls w' = ClientForm.calls w
               /\ ClientForm.inFlight w' = pred (ClientForm.inFlight w)
               /\ ClientForm.isSubmitting (ClientForm.form w') = false).
  { unfold w', ClientForm.handleSubmit_settled. rewrite H.
    destruct (ClientForm.onSuccess (ClientForm.options (ClientForm.form w)))
      as [cb|]; [rewrite Hcb|]; repeat split; reflexivity. }
  destruct Hw as (Hf & Hc & Hi & Hs).
  split; [exact Hf|]. split; [exact Hs|].
  cbn [ClientForm.step]. unfold ClientForm.handleSubmit. rewrite Hs.
  unfold ClientForm.checkValidity.
  cbn [ClientForm.clearError ClientForm.fields]. rewrite Hf.
  cbn. auto.
Qed.

Lemma client_form_success_then_blocked_witness :
  ClientForm.calls
    (ClientForm.step
       (ClientForm.handleSubmit_settled
          (Axios.Fulfilled
             (Axios.mkResponse 200 (Js.VObj [("transaction", Js.VStr "txn_1")])))
          (ClientForm.create Traces.sample_options))
       ClientForm.Submit)
  = [].
Proof.
  apply (client_form_success_then_blocked
           (Axios.Fulfilled
              (Axios.mkResponse 200 (Js.VObj [("transaction", Js.VStr "txn_1")])))
           (ClientForm.create Traces.sample_options) (Js.VStr "txn_1")
           eq_refl I).
Defined.

(** X12. When the request of the form built on the payment service is
    rejected, the payment service throws an error record: the one of its
    interceptor, whose message is that of the response body (empty when
    the body has none), or, when that message cannot be converted to a
    string, the one that [processCardPayment] wraps with.  The form hands
    that record to [onError] first, and shows its message afterwards
    unless the callback threw, in which case the error element is left
    as it was; in every case it keeps the inputs and enables the button
    again. *)
Theorem sdk_form_failure_display (err : Axios.AxiosError) (w : SdkForm.world) :
  SdkForm.mounted (SdkForm.form w) = true ->
  let w' := SdkForm.handleSubmit_settled (Axios.Rejected err) w in
  exists g,
    Service.processCardPayment (Axios.Rejected err) = inl (SdkErrors.Gateway g)
    /\ g = match Js.errorMessage (Js.field (Service.errorResponse err) "message") with
           | inr text =>
               SdkErrors.mkError
                 text
                 (Js.or (Js.field (Service.errorResponse err) "code")
                        (Js.VStr "unknown_error"))
                 (Service.status_or_500 err)
           | inl _ =>
               SdkErrors.mkError "Failed to process card payment"
                                 (Js.VStr "payment_processing_error") 500
           end
    /\ SdkForm.errorMessage (SdkForm.form w')
       = match SdkForm.onError (SdkForm.config (SdkForm.form w)) with
         | Some cb =>
             match cb g with
             | Some _ => SdkForm.errorMessage (SdkForm.form w)
             | None => Some (SdkErrors.message g)
             end
         | None => Some (SdkErrors.message g)
         end
    /\ SdkForm.cardNumberInput (SdkForm.form w') = SdkForm.cardNumberInput (SdkForm.form w)
    /\ SdkForm.submitDisabled (SdkForm.form w') = false
    /\ SdkForm.notices w'
       = match SdkForm.onError (SdkForm.config (SdkForm.form w)) with
         | Some _ => (SdkForm.notices w ++ [SdkForm.Failed g])%list
         | None => SdkForm.notices w
         end.
Proof.
  intros Hm w'.
  pose proof (service_run_rejected Service.ProcessCardPayment err) as Hrun.
  cbn [Service.run SpecErrors.service_scope fst snd] in Hrun.
  rewrite service_onRejected_raise in Hrun. unfold SdkErrors.new in Hrun.
  unfold w', SdkForm.handleSubmit_settled. rewrite Hrun. clear Hrun.
  destruct (Js.errorMessage (Js.field (Service.errorResponse err) "message"))
    as [thrown|text]; cbn [SdkErrors.raise Service.rethrow_or_wrap];
    (eexists; split; [reflexivity|]; split; [reflexivity|]);
    unfold SdkForm.caught, SdkForm.showError;
    destruct (SdkForm.onError (SdkForm.config (SdkForm.form w))) as [cb|];
    cbn; try (destruct (cb _)); cbn; rewrite ?Hm; cbn;
    repeat split; reflexivity.
Qed.

Lemma sdk_form_failure_display_witness :
  SdkForm.errorMessage
    (SdkForm.form
       (SdkForm.handleSubmit_settled
          (Axios.Rejected
             (Axios.mkAxiosError
                (Some (Axios.mkResponse 502 (Js.VStr "Bad Gateway"))) true ""))
          (SdkForm.create Traces.sample_config)))
  = Some ""
  /\ SdkForm.errorMessage
       (SdkForm.form
          (SdkForm.handleSubmit_settled
             (Axios.Rejected
                (Axios.mkAxiosError
                   (Some (Axios.mkResponse 402
                            (Js.VObj [("message", Js.VStr "Card declined")])))
                   true ""))
             (SdkForm.create Traces.throwing_config)))
     = None.
Proof.
  split.
  - destruct (sdk_form_failure_display
                (Axios.mkAxiosError
                   (Some (Axios.mkResponse 502 (Js.VStr "Bad Gateway"))) true "")
                (SdkForm.create Traces.sample_config) eq_refl)
      as (g & _ & Hg & Hm & _).
    rewrite Hm, Hg. reflexivity.
  - destruct (sdk_form_failure_display
                (Axios.mkAxiosError
                   (Some (Axios.mkResponse 402
                            (Js.VObj [("message", Js.VStr "Card declined")])))
                   true "")
                (SdkForm.create Traces.throwing_config) eq_refl)
      as (g & _ & Hg & Hm & _).
    rewrite Hm, Hg. reflexivity.
Defined.

(** ** The operations of the two transport layers *)

(** X13. A fulfilled request makes a client operation return the
    [transaction] of the body (for the list: its [transactions] and
    [has_more]), which is [undefined] when the body lacks the property;
    only a body that is [null] or [undefined] makes it throw, and then the
    record wrapped with the operation's own message and kind around a
    [TypeError]. *)
Theorem client_success_paths (r : Axios.AxiosResponse) :
  (Axios.data r <> Js.VNull -> Axios.data r <> Js.VUndefined ->
   Client.processCardPayment (Axios.Fulfilled r)
   = inr (Js.field (Axios.data r) "transaction")
   /\ Client.getTransaction (Axios.Fulfilled r)
      = inr (Js.field (Axios.data r) "transaction")
   /\ Client.refundTransaction (Axios.Fulfilled r)
      = inr (Js.field (Axios.data r) "transaction")
   /\ Client.listTransactions (Axios.Fulfilled r)
      = inr (Js.VObj [("transactions", Js.field (Axios.data r) "transactions");
                      ("hasMore", Js.field (Axios.data r) "has_more")]))
  /\ (Axios.data r = Js.VNull \/ Axios.data r = Js.VUndefined ->
      forall op, exists te,
        Js.name te = "TypeError"
        /\ Client.run op (Axios.Fulfilled r)
           = inl (Errors.Gateway
                    (Errors.mkError (fst (SpecErrors.client_scope op))
                                    (snd (SpecErrors.client_scope op))
                                    (Errors.Caught te) None))).
Proof.
  split.
  - intros Hn Hu.
    unfold Client.processCardPayment, Client.getTransaction,
           Client.refundTransaction, Client.listTransactions.
    cbn [Client.http Js.bind].
    rewrite !read_field by assumption. repeat split; reflexivity.
  - intros H op.
    destruct op; cbn [Client.run SpecErrors.client_scope fst snd];
      unfold Client.processCardPayment, Client.getTransaction,
             Client.refundTransaction, Client.listTransactions;
      cbn [Client.http Js.bind];
      destruct H as [-> | ->]; eexists; (split; [|reflexivity]); reflexivity.
Qed.

Lemma client_success_paths_witness :
  Client.processCardPayment
    (Axios.Fulfilled (Axios.mkResponse 200 (Js.VObj [("status", Js.VStr "ok")])))
  = inr Js.VUndefined.
Proof.
  apply (proj1 (client_success_paths
                  (Axios.mkResponse 200 (Js.VObj [("status", Js.VStr "ok")]))));
    discriminate.
Defined.

(** With a response whose status is not 401 the client's interceptor
    throws a record of the kind of the status, or something that is not
    a record. *)
Lemma client_interceptor_body (data : Js.value) (generic : string)
      (t : Errors.ErrorType) :
  let thrown :=
    match (m <- Client.read data "message" ;;
           errs <- Client.read data "errors" ;;
           inr (Errors.raise (Errors.new (Js.or m (Js.VStr generic)) t
                                         (Errors.FromBody errs)))) with
    | inl e => e
    | inr e => e
    end in
  (exists g, thrown = Errors.Gateway g /\ Errors.type g = t
             /\ Errors.statusCode g = None)
  \/ (exists e, thrown = Errors.Other e).
Proof.
  unfold Client.read.
  destruct (Js.getProp data "message") as [e|m]; simpl; [right; eauto|].
  destruct (Js.getProp data "errors") as [e|errs]; simpl; [right; eauto|].
  unfold Errors.new.
  destruct (Js.errorMessage (Js.or m (Js.VStr generic))); simpl;
    [right|left]; eauto.
Qed.

(** X14. An error record thrown by a client operation never carries a
    status code, and its kind tells what the transport saw: AUTHENTICATION
    only for a status 401, VALIDATION only for a status 400, NETWORK only
    for a request without a response, UNKNOWN only when there was neither
    a response nor a request. *)
Theorem client_error_kinds
        (op : Client.operation) (o : Axios.outcome) (g : Errors.VizionGatewayError) :
  Client.run op o = inl (Errors.Gateway g) ->
  Errors.statusCode g = None
  /\ (Errors.type g = Errors.AUTHENTICATION ->
      exists err r, o = Axios.Rejected err /\ Axios.response err = Some r
                    /\ Axios.status r = 401%Z)
  /\ (Errors.type g = Errors.VALIDATION ->
      exists err r, o = Axios.Rejected err /\ Axios.response err = Some r
                    /\ Axios.status r = 400%Z)
  /\ (Errors.type g = Errors.NETWORK ->
      exists err, o = Axios.Rejected err /\ Axios.response err = None
                  /\ Axios.request err = true)
  /\ (Errors.type g = Errors.UNKNOWN ->
      exists err, o = Axios.Rejected err /\ Axios.response err = None
                  /\ Axios.request err = false).
Proof.
  intros H.
  destruct o as [r|err].
  - assert (Hw : Errors.statusCode g = None
                 /\ Errors.type g = snd (SpecErrors.client_scope op)).
    { destruct op; cbn [Client.run] in H;
        unfold Client.processCardPayment, Client.getTransaction,
               Client.refundTransaction, Client.listTransactions in H;
        cbn [Client.http Js.bind] in H;
        unfold Client.read in H;
        destruct (Axios.data r); cbn in H; try discriminate H;
        injection H as <-; split; reflexivity. }
    destruct Hw as [Hs Ht]. split; [exact Hs|].
    rewrite Ht. destruct op; repeat split; discriminate.
  - assert (Hrun : Client.run op (Axios.Rejected err)
                   = inl (Client.rethrow_or_wrap
                            (fst (SpecErrors.client_scope op))
                            (snd (SpecErrors.client_scope op))
                            (Client.onRejected err)))
      by (destruct op; reflexivity).
    rewrite Hrun in H. injection H as H. clear Hrun.
    unfold Client.onRejected in H.
    destruct err as [[r|] req msg]; cbn [Axios.response Axios.request] in *.
    + destruct (Axios.status r =? 401)%Z eqn:E401.
      * apply Z.eqb_eq in E401. cbn in H. injection H as <-.
        split; [reflexivity|].
        repeat split; intros Hk; try discriminate Hk;
          repeat eexists; try reflexivity; try eassumption.
      * destruct (Axios.status r =? 400)%Z eqn:E400.
        -- apply Z.eqb_eq in E400.
           destruct (client_interceptor_body
                       (Axios.data r) "Invalid request parameters" Errors.VALIDATION)
             as [(g0 & Hx & Ht & Hs)|(e & Hx)];
             cbv zeta in Hx; rewrite Hx in H; cbn in H; injection H as <-.
           ++ split; [exact Hs|]. rewrite Ht.
              repeat split; intros Hk; try discriminate Hk;
                repeat eexists; try reflexivity; try eassumption.
           ++ split; [reflexivity|].
              destruct op; repeat split; intros Hk; try discriminate Hk;
                repeat eexists; try reflexivity; try eassumption.
        -- destruct (client_interceptor_body
                       (Axios.data r)
                       "An error occurred while processing your request" Errors.API)
             as [(g0 & Hx & Ht & Hs)|(e & Hx)];
             cbv zeta in Hx; rewrite Hx in H; cbn in H; injection H as <-.
           ++ split; [exact Hs|]. rewrite Ht.
              repeat split; intros Hk; discriminate Hk.
           ++ split; [reflexivity|].
              destruct op; repeat split; intros Hk; discriminate Hk.
    + destruct req; [|destruct msg]; cbn in H; injection H as <-;
        (split; [reflexivity|]);
        repeat split; intros Hk; try discriminate Hk;
        repeat eexists; try reflexivity; try eassumption.
Qed.

Lemma client_error_kinds_witness :
  exists err r,
    Axios.Rejected
      (Axios.mkAxiosError (Some (Axios.mkResponse 401 Js.VNull)) true "")
    = Axios.Rejected err
    /\ Axios.response err = Some r /\ Axios.status r = 401%Z.
Proof.
  apply (proj1 (proj2 (client_error_kinds Client.GetTransaction
                         (Axios.Rejected
                            (Axios.mkAxiosError
                               (Some (Axios.mkResponse 401 Js.VNull)) true ""))
                         _ eq_refl))).
  reflexivity.
Defined.

(** X15. What a [PaymentService] operation surfaces: a fulfilled request
    returns the body as it is and never throws; a rejected one throws an
    error record.  Without a response, or with a falsy body, its message
    is ['Unknown error occurred'] and its code ['unknown_error'], so a
    connectivity failure looks like a server error.  With a truthy body
    whose [message] can be converted to a string, the record has that
    message (empty when the body has none), the body's code or
    ['unknown_error'], and the response's status; when the [message]
    cannot be converted, the record is the one the operation wraps with:
    its fixed message, its kind and status 500.  The status of a record
    of the interceptor is 500 when there is no response or the status
    is 0. *)
Theorem service_error_content (op : Service.operation) :
  (forall r, Service.run op (Axios.Fulfilled r) = inr (Axios.data r))
  /\ forall err, exists g,
       Service.run op (Axios.Rejected err) = inl (SdkErrors.Gateway g)
       /\ (Axios.response err = None ->
           g = SdkErrors.mkError "Unknown error occurred"
                                 (Js.VStr "unknown_error") 500)
       /\ (forall r, Axios.response err = Some r ->
             let status := if (Axios.status r =? 0)%Z then 500%Z else Axios.status r in
             (Js.truthy (Axios.data r) = false ->
              g = SdkErrors.mkError "Unknown error occurred"
                                    (Js.VStr "unknown_error") status)
             /\ (Js.truthy (Axios.data r) = true ->
                 g = match Js.errorMessage (Js.field (Axios.data r) "message") with
                     | inr text =>
                         SdkErrors.mkError
                           text
                           (Js.or (Js.field (Axios.data r) "code")
                                  (Js.VStr "unknown_error"))
                           status
                     | inl _ =>
                         SdkErrors.mkError
                           (fst (SpecErrors.service_scope op))
                           (SdkErrors.of_type (snd (SpecErrors.service_scope op)))
                           500
                     end)).
Proof.
  split; [intros r; destruct op; reflexivity|].
  intros err.
  assert (Hg : exists g,
             Service.run op (Axios.Rejected err) = inl (SdkErrors.Gateway g)
             /\ g = match Js.errorMessage
                             (Js.field (Service.errorResponse err) "message") with
                    | inr text =>
                        SdkErrors.mkError
                          text
                          (Js.or (Js.field (Service.errorResponse err) "code")
                                 (Js.VStr "unknown_error"))
                          (Service.status_or_500 err)
                    | inl _ =>
                        SdkErrors.mkError
                          (fst (SpecErrors.service_scope op))
                          (SdkErrors.of_type (snd (SpecErrors.service_scope op)))
                          500
                    end).
  { rewrite service_run_rejected, service_onRejected_raise.
    unfold SdkErrors.new.
    destruct (Js.errorMessage (Js.field (Service.errorResponse err) "message"));
      eexists; split; reflexivity. }
  destruct Hg as (g & Hrun & Hg). exists g. split; [exact Hrun|].
  subst g. unfold Service.errorResponse, Service.status_or_500, Js.or.
  destruct err as [[r|] req msg]; cbn [Axios.response].
  - split; [discriminate|]. intros r' Hr. injection Hr as <-. cbv zeta.
    split; intros Ht; rewrite Ht; reflexivity.
  - split; [reflexivity|]. intros r' Hr. discriminate Hr.
Qed.

Lemma service_error_content_witness :
  exists g,
    Service.run Service.ProcessCardPayment
      (Axios.Rejected (Axios.mkAxiosError None true "Network Error"))
    = inl (SdkErrors.Gateway g)
    /\ g = SdkErrors.mkError "Unknown error occurred" (Js.VStr "unknown_error") 500.
Proof.
  destruct (proj2 (service_error_content Service.ProcessCardPayment)
              (Axios.mkAxiosError None true "Network Error"))
    as (g & Hrun & Hnone & _).
  exists g. split; [exact Hrun|apply Hnone; reflexivity].
Defined.

(** ** The expiry input of the form built on the payment service *)

Section Expiry.

Lemma digit_not_slash (c : ascii) : Js.isDigit c = true -> Ascii.eqb c "/" = false.
Proof.
  intros H. apply digit_cases in H. simpl in H.
  repeat (destruct H as [<- | H]; [reflexivity|]). contradiction.
Qed.

Lemma trim_one (a : ascii) :
  Js.isSpace a = false -> SdkForm.trim (String a "") = String a "".
Proof. intros H. unfold SdkForm.trim. cbn. rewrite H. cbn. rewrite H. reflexivity. Qed.

Lemma trim_two (a b : ascii) :
  Js.isSpace a = false -> Js.isSpace b = false ->
  SdkForm.trim (String a (String b "")) = String a (String b "")
  /\ SdkForm.trim (String a (String b " ")) = String a (String b "")
  /\ SdkForm.trim (String " " (String a (String b ""))) = String a (String b "").
Proof.
  intros Ha Hb. unfold SdkForm.trim.
  assert (Hsp : Js.isSpace " " = true) by reflexivity.
  repeat split;
    repeat (cbn [append Js.skipSpace SdkForm.reverse]; rewrite ?Ha, ?Hb, ?Hsp);
    reflexivity.
Qed.

End Expiry.

(** X16. The expiry handlers compose: for a typed text with at least three
    digits, [parseExpiry] gives back the first two digits as the month and
    the next one or two as the year; with one or two digits the month is
    those digits and the year is empty; a text without any digit is left
    in the input as it was typed. *)
Theorem expiry_round_trip (typed : string) :
  let ds := Utils.normalizeDigits typed in
  (3 <= String.length ds ->
   SdkForm.parseExpiry (SdkInputs.formatExpiry typed)
   = (substring 0 2 ds, substring 2 2 ds))
  /\ (1 <= String.length ds <= 2 ->
      SdkForm.parseExpiry (SdkInputs.formatExpiry typed) = (ds, ""))
  /\ (String.length ds = 0 -> SdkInputs.formatExpiry typed = typed)
  /\ (1 <= String.length ds -> String.length (SdkInputs.formatExpiry typed) <= 7).
Proof.
  intros ds. pose proof (normalizeDigits_all_digits typed) as Hd.
  fold ds in Hd. unfold SdkInputs.formatExpiry. fold ds. cbv zeta.
  destruct ds as [|a [|b [|c rest]]]; cbn [Dom.all_in] in Hd;
    repeat match goal with
           | H : _ && _ = true |- _ => apply andb_true_iff in H as [? H]
           end;
    repeat match goal with
           | H : Js.isDigit ?x = true |- _ =>
               pose proof (digit_not_space x H);
               pose proof (digit_not_slash x H);
               clear H
           end.
  - repeat split; cbn; intros; try lia; reflexivity.
  - repeat split; try (cbn; intros; lia).
    intros _. cbn [String.length Nat.ltb Nat.leb].
    unfold SdkForm.parseExpiry. cbn [SdkForm.split_slash].
    repeat match goal with
           | H : Ascii.eqb _ "/" = false |- _ => rewrite H
           end.
    cbn [SdkForm.split_slash map nth]. rewrite trim_one by assumption.
    reflexivity.
  - repeat split; try (cbn; intros; lia).
    intros _. cbn [String.length Nat.ltb Nat.leb].
    unfold SdkForm.parseExpiry. cbn [SdkForm.split_slash].
    repeat match goal with
           | H : Ascii.eqb _ "/" = false |- _ => rewrite H
           end.
    cbn [SdkForm.split_slash map nth].
    rewrite (proj1 (trim_two a b ltac:(assumption) ltac:(assumption))). reflexivity.
  - repeat split; try (cbn; intros; lia).
    + intros _. cbn [String.length Nat.ltb Nat.leb substring append].
      unfold SdkForm.parseExpiry.
      destruct rest as [|e rest].
      * cbn [substring SdkForm.split_slash].
        repeat match goal with
               | H : Ascii.eqb _ "/" = false |- _ => rewrite H
               end.
        cbn [SdkForm.split_slash Ascii.eqb Bool.eqb map nth].
        rewrite (proj1 (proj2 (trim_two a b ltac:(assumption) ltac:(assumption)))).
        unfold SdkForm.trim.
        assert (Hsp : Js.isSpace " " = true) by reflexivity.
        repeat (cbn [append Js.skipSpace SdkForm.reverse];
                rewrite ?Hsp;
                repeat match goal with
                       | H : Js.isSpace _ = false |- _ => rewrite H
                       end).
        reflexivity.
      * cbn [Dom.all_in] in Hd. apply andb_true_iff in Hd as [He _].
        pose proof (digit_not_space e He). pose proof (digit_not_slash e He).
        cbn [substring].
        replace (substring 0 0 rest) with "" by (destruct rest; reflexivity).
        cbn [SdkForm.split_slash].
        repeat match goal with
               | H : Ascii.eqb _ "/" = false |- _ => rewrite H
               end.
        cbn [SdkForm.split_slash Ascii.eqb Bool.eqb map nth].
        rewrite (proj1 (proj2 (trim_two a b ltac:(assumption) ltac:(assumption)))).
        rewrite (proj2 (proj2 (trim_two c e ltac:(assumption) ltac:(assumption)))). reflexivity.
    + intros _. cbn [String.length Nat.ltb Nat.leb substring append].
      destruct rest as [|e rest]; cbn [substring];
        [|replace (substring 0 0 rest) with "" by (destruct rest; reflexivity)];
        cbn; lia.
Qed.

Lemma expiry_round_trip_witness :
  SdkForm.parseExpiry (SdkInputs.formatExpiry "12/2030") = ("12", "20").
Proof.
  apply (proj1 (expiry_round_trip "12/2030")). vm_compute. repeat constructor.
Defined.

(** ** The singleton *)

(** X17. The first [initialize] decides: after it, however many further
    calls with other configurations follow, [getInstance], every
    [initialize] and the constructor of the form give the instance built
    from the first configuration, with its base URL and headers; before
    it, [getInstance] throws and the form's constructor throws a
    CONFIGURATION_ERROR record with status 400. *)
Theorem initialize_first_wins
        (first : Gateway.VizionGatewayConfig) (later : list Gateway.VizionGatewayConfig) :
  let instance := Gateway.initialize_all (first :: later) None in
  Gateway.getInstance instance = inr (Gateway.newVizionGateway first)
  /\ (forall c, Gateway.initialize c instance
                = (instance, Gateway.newVizionGateway first))
  /\ Gateway.newPaymentForm instance = inr (Gateway.newVizionGateway first)
  /\ (exists e, Gateway.getInstance None = inl e)
  /\ Gateway.newPaymentForm None
     = inl (SdkErrors.Gateway
              (SdkErrors.mkError
                 "SDK not initialized. Call VizionGateway.initialize() before creating a PaymentForm."
                 (Js.VStr "configuration_error") 400)).
Proof.
  intros instance.
  assert (H : instance = Some (Gateway.newVizionGateway first)).
  { unfold instance, Gateway.initialize_all. cbn [fold_left Gateway.initialize fst].
    induction later as [|c later IH]; [reflexivity|exact IH]. }
  rewrite H. repeat split. eexists. reflexivity.
Qed.

Lemma initialize_first_wins_witness :
  Gateway.baseURL
    (Gateway.paymentService
       (snd (Gateway.initialize
               (Gateway.mkConfig "k2" "m2" Gateway.PRODUCTION)
               (Gateway.initialize_all
                  [Gateway.mkConfig "k1" "m1" Gateway.SANDBOX] None))))
  = "https://sandbox-api.viziongateway.com/v1".
Proof.
  rewrite (proj1 (proj2 (initialize_first_wins
                           (Gateway.mkConfig "k1" "m1" Gateway.SANDBOX) []))
                 (Gateway.mkConfig "k2" "m2" Gateway.PRODUCTION)).
  reflexivity.
Defined.

(** ** [adjustColor] *)

Section AdjustColor.

Import Colors ColorShapes.

Lemma hex_cases (c : ascii) : isHex c = true -> In c hexChars.
Proof.
  destruct c as [[] [] [] [] [] [] [] []]; vm_compute; intros H;
    try discriminate H; tauto.
Qed.

Lemma pairs_parsed :
  forallb (fun a => forallb (pair_parsed a) hexChars) hexChars = true.
Proof. vm_compute. reflexivity. Qed.

Lemma parse_pair (a b : ascii) :
  isHex a = true -> isHex b = true ->
  parseInt16 (String a (String b "")) = Js.Num (16 * hexValue a + hexValue b).
Proof.
  intros Ha Hb. pose proof pairs_parsed as H.
  rewrite forallb_forall in H. specialize (H a (hex_cases a Ha)).
  rewrite forallb_forall in H. specialize (H b (hex_cases b Hb)).
  unfold pair_parsed in H.
  destruct (parseInt16 (String a (String b ""))); [discriminate H|].
  apply Z.eqb_eq in H. congruence.
Qed.

Lemma parse_single (a : ascii) :
  isHex a = true -> parseInt16 (String a "") = Js.Num (hexValue a).
Proof.
  intros Ha.
  assert (H : forallb single_parsed hexChars = true) by (vm_compute; reflexivity).
  rewrite forallb_forall in H. specialize (H a (hex_cases a Ha)).
  unfold single_parsed in H.
  destruct (parseInt16 (String a "")); [discriminate H|].
  apply Z.eqb_eq in H. congruence.
Qed.

Lemma hexValue_range (a : ascii) : isHex a = true -> (0 <= hexValue a <= 15)%Z.
Proof.
  intros Ha. apply hex_cases in Ha. unfold hexChars in Ha. simpl in Ha.
  repeat (destruct Ha as [<- | Ha]; [vm_compute; intuition discriminate|]).
  contradiction.
Qed.

Lemma print_pair (z : Z) :
  (0 <= z <= 255)%Z -> padStart2 (toString16 (Js.Num z)) = hexPair z.
Proof.
  intros Hz.
  assert (H : forallb pair_printed (seq 0 256) = true) by (vm_compute; reflexivity).
  rewrite forallb_forall in H.
  specialize (H (Z.to_nat z)). unfold pair_printed in H.
  rewrite Z2Nat.id in H by lia.
  apply String.eqb_eq, H, in_seq. lia.
Qed.

Lemma print_channel (v : Js.number) (percent : Z) (z : Z) :
  v = Js.Num z ->
  padStart2 (toString16 (clamp v percent))
  = hexPair (Z.max 0 (Z.min 255 (z + percent))).
Proof. intros ->. cbn [clamp]. apply print_pair. lia. Qed.

Lemma hexPair_digits (a b : ascii) :
  isHex a = true -> isHex b = true ->
  hexPair (16 * hexValue a + hexValue b) = String (lowerHex a) (String (lowerHex b) "").
Proof.
  intros Ha Hb.
  pose proof (hexValue_range a Ha). pose proof (hexValue_range b Hb).
  unfold hexPair, lowerHex.
  replace ((16 * hexValue a + hexValue b) / 16)%Z with (hexValue a)
    by (Z.div_mod_to_equations; lia).
  replace ((16 * hexValue a + hexValue b) mod 16)%Z with (hexValue b)
    by (Z.div_mod_to_equations; lia).
  reflexivity.
Qed.

End AdjustColor.

(** X18. For a colour of six hexadecimal digits and an integer amount,
    [adjustColor] returns a colour of six lower-case hexadecimal digits,
    each channel moved by the amount and kept within 0 to 255; with the
    amount 0 it is the colour in lower case, from 255 on it is white and
    from -255 down it is black. *)
Theorem adjustColor_six_digits (h1 h2 h3 h4 h5 h6 : ascii) (percent : Z) :
  Colors.isHex h1 && Colors.isHex h2 && Colors.isHex h3
  && Colors.isHex h4 && Colors.isHex h5 && Colors.isHex h6 = true ->
  let color :=
    String "#" (String h1 (String h2 (String h3 (String h4 (String h5 (String h6 "")))))) in
  Colors.adjustColor color percent
  = "#" ++ ColorShapes.hexPair (ColorShapes.shifted h1 h2 percent)
        ++ ColorShapes.hexPair (ColorShapes.shifted h3 h4 percent)
        ++ ColorShapes.hexPair (ColorShapes.shifted h5 h6 percent)
  /\ Colors.adjustColor color 0
     = String "#" (String (ColorShapes.lowerHex h1) (String (ColorShapes.lowerHex h2)
         (String (ColorShapes.lowerHex h3) (String (ColorShapes.lowerHex h4)
           (String (ColorShapes.lowerHex h5) (String (ColorShapes.lowerHex h6) ""))))))
  /\ ((255 <= percent)%Z -> Colors.adjustColor color percent = "#ffffff")
  /\ ((percent <= -255)%Z -> Colors.adjustColor color percent = "#000000").
Proof.
  intros H color.
  repeat (apply andb_true_iff in H as [H ?]).
  assert (Hgen : forall p,
            Colors.adjustColor color p
            = "#" ++ ColorShapes.hexPair (ColorShapes.shifted h1 h2 p)
                  ++ ColorShapes.hexPair (ColorShapes.shifted h3 h4 p)
                  ++ ColorShapes.hexPair (ColorShapes.shifted h5 h6 p)).
  { intros p. unfold Colors.adjustColor, color. cbn [substring]. cbv zeta.
    rewrite (print_channel _ p _ (parse_pair h1 h2 ltac:(assumption) ltac:(assumption))).
    rewrite (print_channel _ p _ (parse_pair h3 h4 ltac:(assumption) ltac:(assumption))).
    rewrite (print_channel _ p _ (parse_pair h5 h6 ltac:(assumption) ltac:(assumption))).
    reflexivity. }
  pose proof (hexValue_range h1 ltac:(assumption)).
  pose proof (hexValue_range h2 ltac:(assumption)).
  pose proof (hexValue_range h3 ltac:(assumption)).
  pose proof (hexValue_range h4 ltac:(assumption)).
  pose proof (hexValue_range h5 ltac:(assumption)).
  pose proof (hexValue_range h6 ltac:(assumption)).
  split; [apply Hgen|]. split; [|split].
  - rewrite Hgen. unfold ColorShapes.shifted.
    replace (Z.max 0 (Z.min 255 (16 * Colors.hexValue h1 + Colors.hexValue h2 + 0)))
      with (16 * Colors.hexValue h1 + Colors.hexValue h2)%Z by lia.
    replace (Z.max 0 (Z.min 255 (16 * Colors.hexValue h3 + Colors.hexValue h4 + 0)))
      with (16 * Colors.hexValue h3 + Colors.hexValue h4)%Z by lia.
    replace (Z.max 0 (Z.min 255 (16 * Colors.hexValue h5 + Colors.hexValue h6 + 0)))
      with (16 * Colors.hexValue h5 + Colors.hexValue h6)%Z by lia.
    rewrite !hexPair_digits by assumption. reflexivity.
  - intros Hp. rewrite Hgen. unfold ColorShapes.shifted.
    replace (Z.max 0 (Z.min 255 (16 * Colors.hexValue h1 + Colors.hexValue h2 + percent)))
      with 255%Z by lia.
    replace (Z.max 0 (Z.min 255 (16 * Colors.hexValue h3 + Colors.hexValue h4 + percent)))
      with 255%Z by lia.
    replace (Z.max 0 (Z.min 255 (16 * Colors.hexValue h5 + Colors.hexValue h6 + percent)))
      with 255%Z by lia.
    reflexivity.
  - intros Hp. rewrite Hgen. unfold ColorShapes.shifted.
    replace (Z.max 0 (Z.min 255 (16 * Colors.hexValue h1 + Colors.hexValue h2 + percent)))
      with 0%Z by lia.
    replace (Z.max 0 (Z.min 255 (16 * Colors.hexValue h3 + Colors.hexValue h4 + percent)))
      with 0%Z by lia.
    replace (Z.max 0 (Z.min 255 (16 * Colors.hexValue h5 + Colors.hexValue h6 + percent)))
      with 0%Z by lia.
    reflexivity.
Qed.

Lemma adjustColor_six_digits_witness :
  Colors.adjustColor "#4F46E5" 0 = "#4f46e5"
  /\ Colors.adjustColor "#4f46e5" (-20) = "#3b32d1".
Proof.
  split.
  - apply (proj1 (proj2 (adjustColor_six_digits "4" "F" "4" "6" "E" "5" 0 eq_refl))).
  - apply (proj1 (adjustColor_six_digits "4" "f" "4" "6" "e" "5" (-20) eq_refl)).
Defined.

(** X19. For a colour written with three hexadecimal digits [adjustColor]
    does not return a colour: it reads the first two digits as one
    channel, the third as another, finds no third channel and ends its
    result with ["NaN"]. *)
Theorem adjustColor_shorthand (h1 h2 h3 : ascii) (percent : Z) :
  Colors.isHex h1 && Colors.isHex h2 && Colors.isHex h3 = true ->
  Colors.adjustColor (String "#" (String h1 (String h2 (String h3 "")))) percent
  = "#" ++ ColorShapes.hexPair (ColorShapes.shifted h1 h2 percent)
        ++ ColorShapes.hexPair (Z.max 0 (Z.min 255 (Colors.hexValue h3 + percent)))
        ++ "NaN".
Proof.
  intros H. repeat (apply andb_true_iff in H as [H ?]).
  unfold Colors.adjustColor. cbn [substring]. cbv zeta.
  rewrite (print_channel _ percent _ (parse_pair h1 h2 ltac:(assumption) ltac:(assumption))).
  rewrite (print_channel _ percent _ (parse_single h3 ltac:(assumption))).
  reflexivity.
Qed.

Lemma adjustColor_shorthand_witness :
  Colors.adjustColor "#fff" (-20) = "#eb00NaN".
Proof.
  apply (adjustColor_shorthand "f" "f" "f" (-20) eq_refl).
Defined.
